(** * A shallow embedding of the shift scheduler ([main.py])

    The development follows [optimize_schedule] pass by pass: the expansion
    of shift templates into dated shift instances, the constraint passes
    over the employee/shift decision variables, the call to the CP-SAT
    solver (an external library, modelled by its contract: a status and,
    when the status is OPTIMAL or FEASIBLE, a valuation that satisfies the
    compiled model), and the projection of the valuation into a
    [ScheduleResult].

    Conventions.
    - Python [int] is [Z].  Python [float] is IEEE-754 binary64, given by
      the pure specification [SpecFloat] of the standard library
      ([prec = 53], [emax = 1024]).
    - Exceptions are explicit: a computation of type [Py A] either returns a
      value or raises [ValueError], [ZeroDivisionError], [OverflowError] or
      [TypeError].
    - The fields of a [datetime] are a proleptic-Gregorian day ordinal
      together with the microsecond of the day.  The two dates of the period
      also carry their [tzinfo], as a UTC offset or none: the guard of the
      expansion loop compares a day that has the [tzinfo] of the start date
      with the end date.  The dates of the shift instances are the start
      date plus whole days, so they share its [tzinfo] and are held as
      fields.  The last day of [datetime], 9999-12-31, is modelled where a
      day is added.
    - Strings are byte strings; [int(str)] is modelled on ASCII input.
    - The shift identifier [f"shift-{n}"] is represented by its counter [n].
    - [print] statements have no counterpart. *)

From Stdlib Require Import ZArith List String Ascii Bool Lia.
From Stdlib Require Import SpecFloat.
Import ListNotations.

Local Open Scope Z_scope.

(** ** Exceptions *)

Inductive exn : Type :=
| ValueError
| ZeroDivisionError
| OverflowError
| TypeError.

Inductive Py (A : Type) : Type :=
| Return (a : A)
| Raise (e : exn).

Arguments Return {A} a.
Arguments Raise {A} e.

Definition bind {A B : Type} (m : Py A) (k : A -> Py B) : Py B :=
  match m with
  | Return a => k a
  | Raise e => Raise e
  end.

Notation "x <- m ;; k" := (bind m (fun x => k))
  (at level 61, m at next level, right associativity).

(** The constraint passes append to one model; a pass over a list of items
    contributes the concatenation of what each item contributes. *)
Fixpoint concatM {A B : Type} (f : A -> Py (list B)) (l : list A) : Py (list B) :=
  match l with
  | [] => Return []
  | x :: l' => ys <- f x ;; zs <- concatM f l' ;; Return (ys ++ zs)
  end.

(** ** Python numbers *)

Module PyNum.

Definition prec : Z := 53.
Definition emax : Z := 1024.

Definition float : Type := spec_float.

(** Correctly rounded (half to even) conversion of an integer. *)
Definition float_of_Z (z : Z) : float := binary_normalize prec emax z 0 false.

(** [float(n)]: "int too large to convert to float" beyond the range. *)
Definition float_of_int (z : Z) : Py float :=
  match float_of_Z z with
  | S754_infinity _ => Raise OverflowError
  | f => Return f
  end.

(** An integer as an exact, not yet rounded, binary number. *)
Definition exact (z : Z) : float :=
  match z with
  | Z0 => S754_zero false
  | Zpos p => S754_finite false p 0
  | Zneg p => S754_finite true p 0
  end.

(** [a / b] on two ints: the correctly rounded quotient of the exact
    operands. *)
Definition int_truediv (a b : Z) : Py float :=
  if b =? 0 then Raise ZeroDivisionError
  else if a =? 0 then Return (S754_zero (b <? 0))
  else match SFdiv prec emax (exact a) (exact b) with
       | S754_infinity _ => Raise OverflowError
       | q => Return q
       end.

Definition is_zero (f : float) : bool :=
  match f with
  | S754_zero _ => true
  | _ => false
  end.

(** [x / y] on two floats. *)
Definition float_truediv (x y : float) : Py float :=
  if is_zero y then Raise ZeroDivisionError else Return (SFdiv prec emax x y).

Definition float_mul (x y : float) : float := SFmul prec emax x y.
Definition float_add (x y : float) : float := SFadd prec emax x y.

(** Mixed comparison of a float with an int is exact in Python: the float
    is not compared after rounding the int. *)
Definition float_compare_int (f : float) (n : Z) : option comparison :=
  match f with
  | S754_nan => None
  | S754_infinity s => Some (if s then Lt else Gt)
  | S754_zero _ => Some (0 ?= n)
  | S754_finite s m e =>
      let v := if s then Zneg m else Zpos m in
      Some (if 0 <=? e then (v * 2 ^ e ?= n) else (v ?= n * 2 ^ (- e)))
  end.

Definition float_lt_int (f : float) (n : Z) : bool :=
  match float_compare_int f n with
  | Some Lt => true
  | _ => false
  end.

Definition float_gt_int (f : float) (n : Z) : bool :=
  match float_compare_int f n with
  | Some Gt => true
  | _ => false
  end.

Definition float_gt (x y : float) : bool := SFltb y x.

(** [int(x)]: truncation toward zero. *)
Definition int_of_float (f : float) : Py Z :=
  match f with
  | S754_nan => Raise ValueError
  | S754_infinity _ => Raise OverflowError
  | S754_zero _ => Return 0
  | S754_finite s m e =>
      let a := if 0 <=? e then Zpos m * 2 ^ e else Zpos m / 2 ^ (- e) in
      Return (if s then - a else a)
  end.

(** A value that is an [int] or a [float] at run time. *)
Inductive number : Type :=
| PyInt (z : Z)
| PyFloat (f : float).

Definition to_float (x : number) : Py float :=
  match x with
  | PyInt z => float_of_int z
  | PyFloat f => Return f
  end.

Definition add (x y : number) : Py number :=
  match x, y with
  | PyInt a, PyInt b => Return (PyInt (a + b))
  | _, _ => a <- to_float x ;; b <- to_float y ;; Return (PyFloat (float_add a b))
  end.

Definition truediv_int (x : number) (n : Z) : Py float :=
  match x with
  | PyInt a => int_truediv a n
  | PyFloat f => g <- float_of_int n ;; float_truediv f g
  end.

Definition float_mul_int (f : float) (n : Z) : Py float :=
  g <- float_of_int n ;; Return (float_mul f g).

(** Some literals. *)
Definition f0_5 : float := S754_finite false 4503599627370496 (-53).
Definition f8 : float := float_of_Z 8.

End PyNum.

(** ** Strings: [str.split(':')] and [int(str)] *)

Module PyStr.

Local Open Scope nat_scope.

Definition is_space (c : ascii) : bool :=
  let n := nat_of_ascii c in
  ((9 <=? n) && (n <=? 13)) || ((28 <=? n) && (n <=? 32)).

Definition digit_value (c : ascii) : option Z :=
  let n := nat_of_ascii c in
  if (48 <=? n) && (n <=? 57) then Some (Z.of_nat (n - 48)) else None.

Fixpoint lstrip (l : list ascii) : list ascii :=
  match l with
  | c :: l' => if is_space c then lstrip l' else l
  | [] => []
  end.

Definition strip (l : list ascii) : list ascii := rev (lstrip (rev (lstrip l))).

(** Decimal digits, with single underscores allowed between two digits. *)
Fixpoint parse_digits (acc : Z) (after_digit : bool) (l : list ascii) : option Z :=
  match l with
  | [] => if after_digit then Some acc else None
  | c :: l' =>
      match digit_value c with
      | Some d => parse_digits (acc * 10 + d)%Z true l'
      | None =>
          if Ascii.eqb c "_"%char && after_digit
          then parse_digits acc false l'
          else None
      end
  end.

Definition int_of_chars (l : list ascii) : option Z :=
  match strip l with
  | "+"%char :: r => parse_digits 0%Z false r
  | "-"%char :: r => option_map Z.opp (parse_digits 0%Z false r)
  | r => parse_digits 0%Z false r
  end.

(** [s.split(sep)] for a one-character separator; [cur] is the field being
    read, most recent character first. *)
Fixpoint split_at (sep : ascii) (cur : list ascii) (l : list ascii) : list (list ascii) :=
  match l with
  | [] => [rev cur]
  | c :: l' =>
      if Ascii.eqb c sep then rev cur :: split_at sep [] l'
      else split_at sep (c :: cur) l'
  end.

Definition split (sep : ascii) (s : string) : list (list ascii) :=
  split_at sep [] (list_ascii_of_string s).

End PyStr.

(** [parse_time]: "HH:MM" to minutes since midnight.  The unpacking into
    two names raises [ValueError] unless there are exactly two fields, and
    so does [int] on a field that is not a decimal integer. *)
Definition parse_time (time_str : string) : Py Z :=
  match PyStr.split ":"%char time_str with
  | [h; m] =>
      match PyStr.int_of_chars h, PyStr.int_of_chars m with
      | Some hours, Some minutes => Return (hours * 60 + minutes)
      | _, _ => Raise ValueError
      end
  | _ => Raise ValueError
  end.

(** Night shift: starts at or after 22:00, or ends at or before 06:00. *)
Definition is_night_shift (start_time end_time : string) : Py bool :=
  start_minutes <- parse_time start_time ;;
  end_minutes <- parse_time end_time ;;
  let night_start := 22 * 60 in
  let night_end := 6 * 60 in
  Return ((night_start <=? start_minutes) || (end_minutes <=? night_end)).

(** ** Dates *)

Module DateTime.

Record t : Type := make {
  toordinal : Z;          (* day number, 0001-01-01 is day 1 *)
  microsecond_of_day : Z  (* time of day *)
}.

Definition us_per_day : Z := 86400000000.

Definition valid (d : t) : Prop := 0 <= microsecond_of_day d < us_per_day.

Definition timestamp (d : t) : Z := toordinal d * us_per_day + microsecond_of_day d.

(** [d + timedelta(days=k)] *)
Definition add_days (d : t) (k : Z) : t :=
  make (toordinal d + k) (microsecond_of_day d).

(** [a == b] *)
Definition eqb (a b : t) : bool :=
  (toordinal a =? toordinal b) && (microsecond_of_day a =? microsecond_of_day b).

(** [d.date()], as the day number. *)
Definition date (d : t) : Z := toordinal d.

(** [d.weekday()]: Monday is 0, Sunday is 6. *)
Definition weekday (d : t) : Z := (toordinal d + 6) mod 7.

(** [(a - b).days]: a [timedelta] keeps its seconds and microseconds
    non-negative, so the day count is the floor. *)
Definition days_between (a b : t) : Z := (timestamp a - timestamp b) / us_per_day.

Definition days_before_year (year : Z) : Z :=
  let y := year - 1 in y * 365 + y / 4 - y / 100 + y / 400.

Definition is_leap (year : Z) : bool :=
  (year mod 4 =? 0) && (negb (year mod 100 =? 0) || (year mod 400 =? 0)).

Definition days_before_month (year month : Z) : Z :=
  nth (Z.to_nat month) [0; 0; 31; 59; 90; 120; 151; 181; 212; 243; 273; 304; 334] 0
  + (if (2 <? month) && is_leap year then 1 else 0).

(** [date(year, month, day).toordinal()] *)
Definition ymd2ord (year month day : Z) : Z :=
  days_before_year year + days_before_month year month + day.

(** The year of a day number, as [_ord2ymd] finds it: 400-year, 100-year
    and 4-year cycles, then single years. *)
Definition year_of_ordinal (ordinal : Z) : Z :=
  let n := ordinal - 1 in
  let n400 := n / 146097 in
  let n := n mod 146097 in
  let n100 := n / 36524 in
  let n := n mod 36524 in
  let n4 := n / 1461 in
  let n := n mod 1461 in
  let n1 := n / 365 in
  let year := n400 * 400 + 1 + n100 * 100 + n4 * 4 + n1 in
  if (n1 =? 4) || (n100 =? 4) then year - 1 else year.

Definition year (d : t) : Z := year_of_ordinal (toordinal d).

(** Day of the year, 0 for the first of January ([tm_yday]). *)
Definition yday0 (d : t) : Z := toordinal d - days_before_year (year d) - 1.

(** [d.strftime('%Y-%W')]: the year, and the number of the week counted
    from the first Monday of that year.  The two numbers stand for the
    formatted text, which determines them. *)
Definition strftime_Y_W (d : t) : Z * Z :=
  (year d, (yday0 d + 7 - weekday d) / 7).

(** [datetime.max.toordinal()]: 9999-12-31. *)
Definition max_ordinal : Z := 3652059.

(** [d + timedelta(days=1)]: "date value out of range" after the last day. *)
Definition add_day (d : t) : Py t :=
  if toordinal d + 1 <=? max_ordinal then Return (add_days d 1) else Raise OverflowError.

(** A datetime with its [tzinfo], as [fromisoformat] builds it: the
    calendar fields and, for an aware datetime, the UTC offset in
    microseconds.  [t] holds the fields alone; it is used for the dates
    whose [tzinfo] is never read, or is that of the start date (the dates of
    the shift instances are the start date plus whole days). *)
Record zoned : Type := with_tzinfo {
  fields : t;
  utcoffset : option Z
}.

Definition naive (d : t) : zoned := with_tzinfo d None.
Definition utc (d : t) : zoned := with_tzinfo d (Some 0).

(** [a <= b] on two datetimes: the fields are compared when both are
    naive, the instants when both are aware, and a naive and an aware
    datetime cannot be ordered. *)
Definition le (a b : zoned) : Py bool :=
  match utcoffset a, utcoffset b with
  | None, None => Return (timestamp (fields a) <=? timestamp (fields b))
  | Some oa, Some ob =>
      Return (timestamp (fields a) - oa <=? timestamp (fields b) - ob)
  | _, _ => Raise TypeError
  end.

End DateTime.

(** ** The request: the pydantic models of the configuration *)

Module AvailabilitySlot.
Record t : Type := make {
  dayOfWeek : Z;
  startTime : string;
  endTime : string
}.
End AvailabilitySlot.

Module Employee.
Record t : Type := make {
  id : string;
  name : string;
  role : string;
  skills : list string;
  maxHoursPerWeek : Z;
  availability : list AvailabilitySlot.t;
  preferences : list string;
  email : option string
}.
End Employee.

Module RequiredRole.
Record t : Type := make {
  role : string;
  count : Z
}.
End RequiredRole.

Inductive RepeatPattern : Type := daily | weekly | custom.

Module ShiftType.
Record t : Type := make {
  id : string;
  name : string;
  startTime : string;
  endTime : string;
  requiredRoles : list RequiredRole.t;
  duration : PyNum.float;
  isRepeating : bool;
  repeatPattern : RepeatPattern;
  priority : Z
}.
End ShiftType.

Module WeekendRules.
Record t : Type := make {
  rotateWeekends : bool;
  avoidBackToBack : bool;
  maxWeekendsPerMonth : Z
}.
End WeekendRules.

(** The two dates and the two date lists are held after the validators
    have turned the ISO text into datetimes.  Of the days off and the
    holidays only [date()] is read. *)
Module SchedulingPeriod.
Record t : Type := make {
  startDate : DateTime.zoned;
  endDate : DateTime.zoned;
  daysOff : list DateTime.t;
  holidays : list DateTime.t;
  minRestTimeBetweenShifts : Z;
  weekendRules : WeekendRules.t
}.
End SchedulingPeriod.

Module Constraints.
Record t : Type := make {
  maxHoursPerEmployee : Z;
  maxShiftsPerDay : Z;
  maxNightShiftsPerWeek : Z;
  minHoursBetweenShifts : Z;
  preferFixedTeams : bool;
  prioritizeFairness : PyNum.float
}.
End Constraints.

Module Preferences.
Record t : Type := make {
  respectEmployeePreferences : bool;
  minimizeNightShifts : bool;
  spreadWeekendShiftsFairly : bool;
  minimizeConsecutiveNightShifts : bool;
  preferenceWeight : PyNum.float
}.
End Preferences.

Module SchedulingConfig.
Record t : Type := make {
  employees : list Employee.t;
  shiftTypes : list ShiftType.t;
  schedulingPeriod : SchedulingPeriod.t;
  constraints : Constraints.t;
  preferences : Preferences.t
}.
End SchedulingConfig.

(** ** Shift instances: the dictionaries of the list [shifts] *)

Module Shift.
Record t : Type := make {
  id : nat;
  shiftTypeId : string;
  date : DateTime.t;
  startTime : string;
  endTime : string;
  duration : Z;           (* minutes *)
  requiredRoles : list RequiredRole.t;
  isNightShift : bool;
  isWeekend : bool
}.
End Shift.

(** Weekend: Saturday is 5, Sunday is 6. *)
Definition is_weekend (date : DateTime.t) : bool := 5 <=? DateTime.weekday date.

(** ** Generating the shifts of the period *)

Section Expander.

Variable config : SchedulingConfig.t.

Let period := SchedulingConfig.schedulingPeriod config.
Let start_date := DateTime.fields (SchedulingPeriod.startDate period).

(** The day is skipped when its calendar date is that of a holiday or of a
    day off. *)
Definition skipped (current_date : DateTime.t) : bool :=
  existsb (fun h => DateTime.date current_date =? DateTime.date h)
          (SchedulingPeriod.holidays period)
  || existsb (fun d => DateTime.date current_date =? DateTime.date d)
             (SchedulingPeriod.daysOff period).

(** The dictionary appended for one repeating shift type.  The duration in
    minutes is evaluated before the night-shift flag. *)
Definition new_shift (shift_id_counter : nat) (current_date : DateTime.t)
    (shift_type : ShiftType.t) : Py Shift.t :=
  minutes <- PyNum.int_of_float
               (PyNum.float_mul (ShiftType.duration shift_type) (PyNum.float_of_Z 60)) ;;
  night <- is_night_shift (ShiftType.startTime shift_type) (ShiftType.endTime shift_type) ;;
  Return (Shift.make shift_id_counter
                     (ShiftType.id shift_type)
                     current_date
                     (ShiftType.startTime shift_type)
                     (ShiftType.endTime shift_type)
                     minutes
                     (ShiftType.requiredRoles shift_type)
                     night
                     (is_weekend current_date)).

(** The inner [for shift_type in config.shiftTypes] of one day. *)
Fixpoint day_shifts (current_date : DateTime.t) (shift_id_counter : nat)
    (shift_types : list ShiftType.t) : Py (list Shift.t) :=
  match shift_types with
  | [] => Return []
  | shift_type :: rest =>
      if ShiftType.isRepeating shift_type then
        s <- new_shift shift_id_counter current_date shift_type ;;
        more <- day_shifts current_date (S shift_id_counter) rest ;;
        Return (s :: more)
      else day_shifts current_date shift_id_counter rest
  end.

(** [current_date <= end_date]; [current_date] is the start date plus whole
    days and has its [tzinfo]. *)
Definition in_period (current_date : DateTime.t) : Py bool :=
  DateTime.le (DateTime.with_tzinfo current_date
                                    (DateTime.utcoffset (SchedulingPeriod.startDate period)))
              (SchedulingPeriod.endDate period).

(** [while current_date <= end_date].  The guard is evaluated first, also
    when no day remains.  On a day that is not skipped the shift types are
    read before [current_date += timedelta(days=1)].  The loop is run with
    the number of days still to visit as fuel; [generate_loop_fuel] below
    shows that this number is enough, so that the loop always leaves by its
    guard or by an exception. *)
Fixpoint generate_loop (fuel : nat) (current_date : DateTime.t)
    (shift_id_counter : nat) : Py (list Shift.t) :=
  go_on <- in_period current_date ;;
  if go_on then
    match fuel with
    | O => Return []
    | S fuel' =>
        if skipped current_date then
          tomorrow <- DateTime.add_day current_date ;;
          generate_loop fuel' tomorrow shift_id_counter
        else
          today <- day_shifts current_date shift_id_counter
                              (SchedulingConfig.shiftTypes config) ;;
          tomorrow <- DateTime.add_day current_date ;;
          later <- generate_loop fuel' tomorrow (shift_id_counter + List.length today)%nat ;;
          Return (today ++ later)
    end
  else Return [].

(** The latest timestamp, on the clock of the start date, that is not
    after the end date. *)
Definition end_limit : Z :=
  let end_date := SchedulingPeriod.endDate period in
  match DateTime.utcoffset (SchedulingPeriod.startDate period),
        DateTime.utcoffset end_date with
  | Some start_offset, Some end_offset =>
      DateTime.timestamp (DateTime.fields end_date) - end_offset + start_offset
  | _, _ => DateTime.timestamp (DateTime.fields end_date)
  end.

Definition remaining_days (current_date : DateTime.t) : nat :=
  Z.to_nat ((end_limit - DateTime.timestamp current_date) / DateTime.us_per_day + 1).

Definition generate_shifts : Py (list Shift.t) :=
  generate_loop (remaining_days start_date) start_date 0%nat.

End Expander.

(** ** The CP-SAT model

    The model built through [cp_model.CpModel]: integer variables with
    their domains, linear constraints, and an optional linear objective to
    minimise. *)

Module CpModel.

(** [employee_shift[employee_id][shift_id]] is one Boolean variable; a later
    employee with the same id replaces the entry of an earlier one.  The
    deviation variables are not stored by name: each iteration of the
    fairness loop makes its own. *)
Inductive var : Type :=
| EmployeeShift (employee_id : string) (shift_id : nat)
| Deviation (employee_index : nat).

Record expr : Type := make_expr {
  terms : list (Z * var);
  offset : Z
}.

Inductive relation : Type := EQ | LE | GE.

Record constraint : Type := Add {
  lhs : expr;
  rel : relation;
  rhs : expr
}.

Record t : Type := make {
  bool_vars : list var;                 (* NewBoolVar *)
  int_vars : list (var * (Z * Z));      (* NewIntVar(lb, ub) *)
  constraints : list constraint;        (* Add *)
  objective : option expr               (* Minimize *)
}.

Definition valuation : Type := var -> Z.

Definition const (c : Z) : expr := make_expr [] c.
Definition of_var (v : var) : expr := make_expr [(1, v)] 0.

(** [sum(vs)] over variables, and the weighted form
    [sum(v * c for ...)]. *)
Definition sum_vars (vs : list var) : expr := make_expr (map (fun v => (1, v)) vs) 0.
Definition weighted_sum (ts : list (Z * var)) : expr := make_expr ts 0.

Definition plus (a b : expr) : expr :=
  make_expr (terms a ++ terms b) (offset a + offset b).
Definition scale (k : Z) (a : expr) : expr :=
  make_expr (map (fun t => (k * fst t, snd t)) (terms a)) (k * offset a).
Definition minus (a b : expr) : expr := plus a (scale (-1) b).

Definition eval_terms (value : valuation) (ts : list (Z * var)) : Z :=
  fold_right (fun t acc => fst t * value (snd t) + acc) 0 ts.

Definition eval (value : valuation) (e : expr) : Z :=
  eval_terms value (terms e) + offset e.

Definition holds (value : valuation) (c : constraint) : bool :=
  match rel c with
  | EQ => eval value (lhs c) =? eval value (rhs c)
  | LE => eval value (lhs c) <=? eval value (rhs c)
  | GE => eval value (rhs c) <=? eval value (lhs c)
  end.

Definition in_domain (value : valuation) (v : var) (lb ub : Z) : bool :=
  (lb <=? value v) && (value v <=? ub).

(** A valuation is a solution when every variable lies in its domain and
    every constraint holds. *)
Definition satisfied (m : t) (value : valuation) : bool :=
  forallb (fun v => in_domain value v 0 1) (bool_vars m)
  && forallb (fun d => in_domain value (fst d) (fst (snd d)) (snd (snd d))) (int_vars m)
  && forallb (holds value) (constraints m).

End CpModel.

Import CpModel.

(** [a // b] on two ints. *)
Definition int_floordiv (a b : Z) : Py Z :=
  if b =? 0 then Raise ZeroDivisionError else Return (a / b).

(** [enumerate(l)] *)
Definition enumerate {A : Type} (l : list A) : list (nat * A) :=
  combine (seq 0 (List.length l)) l.

(** ** The constraint passes of [optimize_schedule] *)

Section Compiler.

Variable config : SchedulingConfig.t.
Variable shifts : list Shift.t.

Let employees := SchedulingConfig.employees config.
Let limits := SchedulingConfig.constraints config.

Definition x (employee : Employee.t) (shift : Shift.t) : var :=
  EmployeeShift (Employee.id employee) (Shift.id shift).

(** *** 0. Availability *)

(** The scan of the availability slots; it stops at the first slot that
    matches, and parses the times of every slot it visits. *)
Fixpoint is_available (slots : list AvailabilitySlot.t)
    (shift_day_of_week shift_start_minutes shift_end_minutes : Z) : Py bool :=
  match slots with
  | [] => Return false
  | availability_slot :: rest =>
      let slot_day := AvailabilitySlot.dayOfWeek availability_slot in
      slot_start <- parse_time (AvailabilitySlot.startTime availability_slot) ;;
      slot_end <- parse_time (AvailabilitySlot.endTime availability_slot) ;;
      if (shift_day_of_week =? slot_day)
         && (slot_start <=? shift_start_minutes)
         && (shift_end_minutes <=? slot_end)
      then Return true
      else is_available rest shift_day_of_week shift_start_minutes shift_end_minutes
  end.

Definition shift_available (employee : Employee.t) (shift : Shift.t) : Py bool :=
  let shift_day_of_week := DateTime.weekday (Shift.date shift) in
  shift_start_minutes <- parse_time (Shift.startTime shift) ;;
  shift_end_minutes <- parse_time (Shift.endTime shift) ;;
  is_available (Employee.availability employee)
               shift_day_of_week shift_start_minutes shift_end_minutes.

Definition fixed_to_false (employee : Employee.t) (shift : Shift.t) : constraint :=
  Add (of_var (x employee shift)) EQ (const 0).

Definition availability_of_shift (employee : Employee.t) (shift : Shift.t)
    : Py (list constraint) :=
  ok <- shift_available employee shift ;;
  Return (if ok then [] else [fixed_to_false employee shift]).

Definition availability_of_employee (employee : Employee.t) : Py (list constraint) :=
  match Employee.availability employee with
  | [] => Return []
  | _ :: _ => concatM (availability_of_shift employee) shifts
  end.

Definition availability_constraints : Py (list constraint) :=
  concatM availability_of_employee employees.

(** *** 1. Required number of employees per role *)

Definition role_employees (role : string) : list Employee.t :=
  filter (fun emp => String.eqb (Employee.role emp) role) employees.

Definition role_requirement (shift : Shift.t) (required_role : RequiredRole.t)
    : list constraint :=
  match role_employees (RequiredRole.role required_role) with
  | [] => []
  | emps =>
      [Add (sum_vars (map (fun emp => x emp shift) emps)) EQ
           (const (RequiredRole.count required_role))]
  end.

Definition coverage_of_shift (shift : Shift.t) : list constraint :=
  match Shift.requiredRoles shift with
  | [] =>
      match employees with
      | [] => []
      | _ :: _ => [Add (sum_vars (map (fun emp => x emp shift) employees)) GE (const 1)]
      end
  | required => flat_map (role_requirement shift) required
  end.

Definition coverage_constraints : list constraint :=
  flat_map coverage_of_shift shifts.

(** *** 2. One shift per day *)

Definition same_day_shifts (shift : Shift.t) : list Shift.t :=
  filter (fun s => DateTime.eqb (Shift.date s) (Shift.date shift)
                   && negb (Nat.eqb (Shift.id s) (Shift.id shift)))
         shifts.

Definition at_most_one (employee : Employee.t) (shift other_shift : Shift.t) : constraint :=
  Add (plus (of_var (x employee shift)) (of_var (x employee other_shift))) LE (const 1).

Definition one_shift_per_day_constraints : list constraint :=
  flat_map (fun employee =>
    flat_map (fun shift => map (at_most_one employee shift) (same_day_shifts shift))
             shifts)
    employees.

(** *** 3. Maximum hours per week *)

(** The key of the week: the Monday of the shift's week, formatted with
    ['%Y-%W']. *)
Definition week_start (shift : Shift.t) : DateTime.t :=
  DateTime.add_days (Shift.date shift) (- DateTime.weekday (Shift.date shift)).

Definition week_key (shift : Shift.t) : Z * Z := DateTime.strftime_Y_W (week_start shift).

Definition key_eqb (a b : Z * Z) : bool := (fst a =? fst b) && (snd a =? snd b).

(** [shifts_by_week]: a dictionary in insertion order, as an association
    list. *)
Fixpoint add_to_week (key : Z * Z) (shift : Shift.t)
    (groups : list ((Z * Z) * list Shift.t)) : list ((Z * Z) * list Shift.t) :=
  match groups with
  | [] => [(key, [shift])]
  | (k, week_shifts) :: rest =>
      if key_eqb k key then (k, week_shifts ++ [shift]) :: rest
      else (k, week_shifts) :: add_to_week key shift rest
  end.

Definition shifts_by_week : list ((Z * Z) * list Shift.t) :=
  fold_left (fun groups shift => add_to_week (week_key shift) shift groups) shifts [].

Definition max_minutes_per_week : Z := Constraints.maxHoursPerEmployee limits * 60.

Definition total_minutes (employee : Employee.t) (week_shifts : list Shift.t) : expr :=
  weighted_sum (map (fun shift => (Shift.duration shift, x employee shift)) week_shifts).

Definition weekly_hours_constraints : list constraint :=
  flat_map (fun employee =>
    map (fun group => Add (total_minutes employee (snd group)) LE (const max_minutes_per_week))
        shifts_by_week)
    employees.

(** *** 4. Minimum rest between shifts on consecutive days *)

(** [rest_hours = (24 * 60 - end_time1 + start_time2) / 60] is a true
    division, and [rest_hours < minHoursBetweenShifts] compares the float
    with the configured number of hours. *)
Definition rest_too_short (end_time1 start_time2 : Z) : Py bool :=
  rest_hours <- PyNum.int_truediv (24 * 60 - end_time1 + start_time2) 60 ;;
  Return (PyNum.float_lt_int rest_hours (Constraints.minHoursBetweenShifts limits)).

Definition rest_of_pair (employee : Employee.t) (p1 p2 : nat * Shift.t)
    : Py (list constraint) :=
  let (i, shift1) := p1 in
  let (j, shift2) := p2 in
  if negb (Nat.eqb i j) then
    if DateTime.days_between (Shift.date shift2) (Shift.date shift1) =? 1 then
      end_time1 <- parse_time (Shift.endTime shift1) ;;
      start_time2 <- parse_time (Shift.startTime shift2) ;;
      short <- rest_too_short end_time1 start_time2 ;;
      Return (if short then [at_most_one employee shift1 shift2] else [])
    else Return []
  else Return [].

Definition min_rest_constraints : Py (list constraint) :=
  concatM (fun employee =>
    concatM (fun p1 => concatM (rest_of_pair employee p1) (enumerate shifts))
            (enumerate shifts))
    employees.

(** *** 5. Maximum night shifts per week *)

Definition night_shift_constraints : list constraint :=
  flat_map (fun employee =>
    map (fun group =>
           let night_shifts := filter Shift.isNightShift (snd group) in
           Add (sum_vars (map (x employee) night_shifts)) LE
               (const (Constraints.maxNightShiftsPerWeek limits)))
        shifts_by_week)
    employees.

(** *** 6. Fairness cap on the number of shifts of one employee *)

Definition employee_total_shifts (employee : Employee.t) : expr :=
  sum_vars (map (x employee) shifts).

Definition fairness_cap_constraints : Py (list constraint) :=
  if PyNum.float_gt (Constraints.prioritizeFairness limits) PyNum.f0_5 then
    let total_shifts := Z.of_nat (List.length shifts) in
    q <- int_floordiv total_shifts (Z.of_nat (List.length employees)) ;;
    let max_shifts_per_employee := Z.max 1 (q + 1) in
    Return (map (fun employee =>
                   Add (employee_total_shifts employee) LE (const max_shifts_per_employee))
                employees)
  else Return [].

End Compiler.

(** ** The objective passes, and the model as a whole *)

Section Objectives.

Variable config : SchedulingConfig.t.
Variable shifts : list Shift.t.

Let employees := SchedulingConfig.employees config.
Let limits := SchedulingConfig.constraints config.
Let wishes := SchedulingConfig.preferences config.

Definition total_shifts_needed : Z := Z.of_nat (List.length shifts).

(** [total_shifts_needed // len(config.employees) if config.employees else 0] *)
Definition ideal_shifts_per_employee : Z :=
  match employees with
  | [] => 0
  | _ :: _ => total_shifts_needed / Z.of_nat (List.length employees)
  end.

(** The two inequalities that bound one deviation variable from below. *)
Definition deviation_constraints (p : nat * Employee.t) : list constraint :=
  let (i, employee) := p in
  [ Add (of_var (Deviation i)) GE
        (minus (employee_total_shifts shifts employee) (const ideal_shifts_per_employee));
    Add (of_var (Deviation i)) GE
        (minus (const ideal_shifts_per_employee) (employee_total_shifts shifts employee)) ].

Definition fairness_penalty : expr :=
  sum_vars (map (fun p => Deviation (fst p)) (enumerate employees)).

(** What the fairness objective adds: the deviation variables, their
    constraints, and the weighted penalty. *)
Record fairness_part : Type := make_fairness {
  deviation_vars : list (var * (Z * Z));
  fairness_constraints : list constraint;
  fairness_objective : list expr
}.

Definition fairness_pass : Py fairness_part :=
  if PyNum.float_gt_int (Constraints.prioritizeFairness limits) 0 then
    weight <- (scaled <- PyNum.float_mul_int (Constraints.prioritizeFairness limits) 100 ;;
               PyNum.int_of_float scaled) ;;
    Return (make_fairness
              (map (fun p => (Deviation (fst p), (0, total_shifts_needed)))
                   (enumerate employees))
              (flat_map deviation_constraints (enumerate employees))
              [scale weight fairness_penalty])
  else Return (make_fairness [] [] []).

Definition night_shift_penalty : list expr :=
  if Preferences.minimizeNightShifts wishes then
    [sum_vars (flat_map (fun emp => map (x emp) (filter Shift.isNightShift shifts))
                        employees)]
  else [].

(** "Fair weekend distribution" is a hard cap of two weekend shifts. *)
Definition weekend_constraints : list constraint :=
  if Preferences.spreadWeekendShiftsFairly wishes then
    let weekend_shifts := filter Shift.isWeekend shifts in
    map (fun employee =>
           Add (sum_vars (map (x employee) weekend_shifts)) LE (const 2))
        employees
  else [].

(** [model.Minimize(sum(objectives))], when there is an objective. *)
Definition objective_of (objectives : list expr) : option expr :=
  match objectives with
  | [] => None
  | _ :: _ => Some (fold_left plus objectives (const 0))
  end.

Definition employee_shift_vars : list var :=
  flat_map (fun employee => map (x employee) shifts) employees.

(** The model after all passes, in the order of the source. *)
Definition build_model : Py CpModel.t :=
  c0 <- availability_constraints config shifts ;;
  let c1 := coverage_constraints config shifts in
  let c2 := one_shift_per_day_constraints config shifts in
  let c3 := weekly_hours_constraints config shifts in
  c4 <- min_rest_constraints config shifts ;;
  let c5 := night_shift_constraints config shifts in
  c6 <- fairness_cap_constraints config shifts ;;
  fair <- fairness_pass ;;
  let c7 := weekend_constraints in
  Return (CpModel.make
            employee_shift_vars
            (deviation_vars fair)
            (c0 ++ c1 ++ c2 ++ c3 ++ c4 ++ c5 ++ c6 ++ fairness_constraints fair ++ c7)
            (objective_of (fairness_objective fair ++ night_shift_penalty))).

End Objectives.

(** ** The solver

    [CpSolver.Solve] is the library's search.  It answers with a status
    and, through [solver.Value], with the value of every variable. *)

Inductive CpSolverStatus : Type :=
| UNKNOWN
| MODEL_INVALID
| FEASIBLE
| INFEASIBLE
| OPTIMAL.

Definition has_solution (status : CpSolverStatus) : bool :=
  match status with
  | OPTIMAL | FEASIBLE => true
  | _ => false
  end.

Definition Solver : Type := CpModel.t -> CpSolverStatus * valuation.

(** ** The response *)

Inductive ShiftStatus : Type := confirmed | pending | conflict.

Module GeneratedShift.
Record t : Type := make {
  id : nat;
  shiftTypeId : string;
  date : DateTime.t;
  startTime : string;
  endTime : string;
  assignedEmployees : list string;
  status : ShiftStatus
}.
End GeneratedShift.

Module EmployeeUtilization.
Record t : Type := make {
  employeeId : string;
  totalHours : PyNum.float;
  utilizationPercentage : PyNum.float;
  shiftsAssigned : nat;
  preferencesRespected : Z
}.
End EmployeeUtilization.

Module ScheduleAnalytics.
Record t : Type := make {
  shiftCoveragePercentage : PyNum.float;
  preferenceSatisfactionScore : PyNum.float;
  fairnessMetric : PyNum.float;
  totalHoursScheduled : PyNum.float;
  employeeUtilization : list EmployeeUtilization.t
}.
End ScheduleAnalytics.

Inductive ViolationType : Type := hard | soft.

Module ConstraintViolation.
Record t : Type := make {
  type : ViolationType;
  description : string;
  severity : Z;
  affectedEmployees : list string;
  affectedShifts : list string
}.
End ConstraintViolation.

Module ScheduleResult.
Record t : Type := make {
  shifts : list GeneratedShift.t;
  analytics : ScheduleAnalytics.t;
  violations : list ConstraintViolation.t
}.
End ScheduleResult.

(** ** Extracting the solution *)

Section Projector.

Variable config : SchedulingConfig.t.
Variable value : valuation.

Let employees := SchedulingConfig.employees config.

Definition is_assigned (employee : Employee.t) (shift : Shift.t) : bool :=
  value (x employee shift) =? 1.

Definition assigned_employees (shift : Shift.t) : list string :=
  map Employee.id (filter (fun employee => is_assigned employee shift) employees).

Definition generated_shift (shift : Shift.t) : GeneratedShift.t :=
  let assigned := assigned_employees shift in
  GeneratedShift.make (Shift.id shift) (Shift.shiftTypeId shift) (Shift.date shift)
                      (Shift.startTime shift) (Shift.endTime shift)
                      assigned
                      (match assigned with [] => pending | _ :: _ => confirmed end).

(** [employee.id in s.assignedEmployees] *)
Definition works (employee : Employee.t) (s : GeneratedShift.t) : bool :=
  existsb (String.eqb (Employee.id employee)) (GeneratedShift.assignedEmployees s).

(** The hours of one employee: the duration of the first shift type that
    carries the id of each of the employee's shifts. *)
Fixpoint hours_of (employee_shifts : list GeneratedShift.t) (total : PyNum.number)
    : Py PyNum.number :=
  match employee_shifts with
  | [] => Return total
  | shift :: rest =>
      match find (fun st => String.eqb (ShiftType.id st) (GeneratedShift.shiftTypeId shift))
                 (SchedulingConfig.shiftTypes config) with
      | Some shift_type =>
          total' <- PyNum.add total (PyNum.PyFloat (ShiftType.duration shift_type)) ;;
          hours_of rest total'
      | None => hours_of rest total
      end
  end.

(** [(total_employee_hours / employee.maxHoursPerWeek) * 100] *)
Definition utilization_percentage (total_employee_hours : PyNum.number)
    (employee : Employee.t) : Py PyNum.float :=
  ratio <- PyNum.truediv_int total_employee_hours (Employee.maxHoursPerWeek employee) ;;
  PyNum.float_mul_int ratio 100.

(** The loop over the employees; [total_hours] is the running sum. *)
Fixpoint utilization_loop (generated_shifts : list GeneratedShift.t)
    (emps : list Employee.t) (total_hours : PyNum.number)
    : Py (list EmployeeUtilization.t * PyNum.number) :=
  match emps with
  | [] => Return ([], total_hours)
  | employee :: rest =>
      let employee_shifts := filter (works employee) generated_shifts in
      total_employee_hours <- hours_of employee_shifts (PyNum.PyInt 0) ;;
      total_hours' <- PyNum.add total_hours total_employee_hours ;;
      percentage <- utilization_percentage total_employee_hours employee ;;
      hours <- PyNum.to_float total_employee_hours ;;
      let entry := EmployeeUtilization.make (Employee.id employee) hours percentage
                                            (List.length employee_shifts) 85 in
      more <- utilization_loop generated_shifts rest total_hours' ;;
      Return (entry :: fst more, snd more)
  end.

(** [(filled_shifts / len(generated_shifts)) * 100 if generated_shifts else 0] *)
Definition coverage_percentage (generated_shifts : list GeneratedShift.t) : Py PyNum.float :=
  match generated_shifts with
  | [] => Return (PyNum.float_of_Z 0)
  | _ :: _ =>
      let filled_shifts :=
        List.length (filter (fun s => match GeneratedShift.assignedEmployees s with
                                      | [] => false
                                      | _ :: _ => true
                                      end) generated_shifts) in
      ratio <- PyNum.int_truediv (Z.of_nat filled_shifts)
                                 (Z.of_nat (List.length generated_shifts)) ;;
      PyNum.float_mul_int ratio 100
  end.

Definition f85 : PyNum.float := PyNum.float_of_Z 85.
Definition f90 : PyNum.float := PyNum.float_of_Z 90.

Definition extract_solution (shifts : list Shift.t) : Py ScheduleResult.t :=
  let generated_shifts := map generated_shift shifts in
  util <- utilization_loop generated_shifts employees (PyNum.PyInt 0) ;;
  coverage <- coverage_percentage generated_shifts ;;
  total <- PyNum.to_float (snd util) ;;
  Return (ScheduleResult.make
            generated_shifts
            (ScheduleAnalytics.make coverage f85 f90 total (fst util))
            []).

End Projector.

Definition no_solution : ScheduleResult.t :=
  let zero := PyNum.float_of_Z 0 in
  ScheduleResult.make
    []
    (ScheduleAnalytics.make zero zero zero zero [])
    [ConstraintViolation.make hard
       "No feasible solution found with current constraints" 10 [] []].

(** ** [optimize_schedule] *)

Definition optimize_schedule (solve : Solver) (config : SchedulingConfig.t)
    : Py ScheduleResult.t :=
  shifts <- generate_shifts config ;;
  model <- build_model config shifts ;;
  let (status, value) := solve model in
  if has_solution status then extract_solution config value shifts
  else Return no_solution.

(** ** Solved schedules

    The contract of CP-SAT: with status OPTIMAL or FEASIBLE the values read
    through [solver.Value] satisfy the model.  [solved_schedule config value]
    gives the shift instances of a run in which the expansion and the
    compilation succeed and [value] is such a solution. *)

Definition solved_schedule (config : SchedulingConfig.t) (value : valuation)
    : option (list Shift.t) :=
  match generate_shifts config with
  | Return shifts =>
      match build_model config shifts with
      | Return model => if satisfied model value then Some shifts else None
      | Raise _ => None
      end
  | Raise _ => None
  end.

(** The status that a run reaches, when the model is compiled. *)
Definition solver_status (solve : Solver) (config : SchedulingConfig.t)
    : option CpSolverStatus :=
  match generate_shifts config with
  | Return shifts =>
      match build_model config shifts with
      | Return model => Some (fst (solve model))
      | Raise _ => None
      end
  | Raise _ => None
  end.

(** The divisor of the utilization percentage can be converted to a
    float. *)
Definition fits_double (n : Z) : bool :=
  match PyNum.float_of_Z n with
  | S754_infinity _ => false
  | _ => true
  end.

(** The number of employees of a role who are in the list of assigned
    employees of a generated shift. *)
Definition assigned_with_role (config : SchedulingConfig.t) (role : string)
    (s : GeneratedShift.t) : nat :=
  List.length (filter (fun employee => String.eqb (Employee.role employee) role
                                       && works employee s)
                      (SchedulingConfig.employees config)).

(** The number of shift instances of an employee. *)
Definition shifts_of_employee (value : valuation) (employee : Employee.t)
    (shifts : list Shift.t) : nat :=
  List.length (filter (is_assigned value employee) shifts).

(** The Monday that starts the week of a date, as a day number. *)
Definition monday_of (d : DateTime.t) : Z := DateTime.toordinal d - DateTime.weekday d.


(** The association list [shifts_by_week] after the shifts of a prefix have
    been added: distinct keys, every group holds the shifts of its key in
    order, and every shift has its group. *)
Definition grouped (processed : list Shift.t) (groups : list ((Z * Z) * list Shift.t))
    : Prop :=
  NoDup (map fst groups) /\
  (forall k ws, In (k, ws) groups ->
                ws = filter (fun s => key_eqb (week_key s) k) processed) /\
  (forall s, In s processed -> In (week_key s) (map fst groups)).

(** An availability slot covers a shift: same weekday, and the shift lies
    within the slot, in minutes. *)
Definition slot_covers (slot : AvailabilitySlot.t) (shift : Shift.t) : Prop :=
  exists slot_start slot_end shift_start shift_end,
    parse_time (AvailabilitySlot.startTime slot) = Return slot_start /\
    parse_time (AvailabilitySlot.endTime slot) = Return slot_end /\
    parse_time (Shift.startTime shift) = Return shift_start /\
    parse_time (Shift.endTime shift) = Return shift_end /\
    DateTime.weekday (Shift.date shift) = AvailabilitySlot.dayOfWeek slot /\
    slot_start <= shift_start /\ shift_end <= slot_end.

(** The days that the loop of the expander visits: the start date and the
    days after it, at the same time of day, up to the end date. *)
Definition days_from (current_date : DateTime.t) (n : nat) : list DateTime.t :=
  map (fun k => DateTime.add_days current_date (Z.of_nat k)) (seq 0 n).

Definition period_days (config : SchedulingConfig.t) : list DateTime.t :=
  let period := SchedulingConfig.schedulingPeriod config in
  let start_date := DateTime.fields (SchedulingPeriod.startDate period) in
  days_from start_date (remaining_days config start_date).

(** The two dates of the period can be ordered: both are naive or both are
    aware. *)
Definition comparable (config : SchedulingConfig.t) : bool :=
  let period := SchedulingConfig.schedulingPeriod config in
  match DateTime.utcoffset (SchedulingPeriod.startDate period),
        DateTime.utcoffset (SchedulingPeriod.endDate period) with
  | None, None => true
  | Some _, Some _ => true
  | _, _ => false
  end.

(** A day with the [tzinfo] of the start date is not after the end date:
    by the instants when the dates are aware, by the fields otherwise. *)
Definition within (config : SchedulingConfig.t) (d : DateTime.t) : bool :=
  let period := SchedulingConfig.schedulingPeriod config in
  let end_date := SchedulingPeriod.endDate period in
  match DateTime.utcoffset (SchedulingPeriod.startDate period),
        DateTime.utcoffset end_date with
  | Some start_offset, Some end_offset =>
      DateTime.timestamp d - start_offset
      <=? DateTime.timestamp (DateTime.fields end_date) - end_offset
  | _, _ => DateTime.timestamp d <=? DateTime.timestamp (DateTime.fields end_date)
  end.

(** The calendar date is that of a holiday or of a day off. *)
Definition excluded (config : SchedulingConfig.t) (d : DateTime.t) : Prop :=
  let period := SchedulingConfig.schedulingPeriod config in
  In (DateTime.date d)
     (map DateTime.date (SchedulingPeriod.holidays period ++ SchedulingPeriod.daysOff period)).


Definition working_days (config : SchedulingConfig.t) : list DateTime.t :=
  filter (fun d => negb (skipped config d)) (period_days config).

Definition recurring (config : SchedulingConfig.t) : list ShiftType.t :=
  filter ShiftType.isRepeating (SchedulingConfig.shiftTypes config).

(** A shift instance is the instance of a shift type on a day. *)
Definition instance_of (shift : Shift.t) (p : DateTime.t * ShiftType.t) : Prop :=
  let (day, shift_type) := p in
  Shift.date shift = day /\
  Shift.shiftTypeId shift = ShiftType.id shift_type /\
  Shift.startTime shift = ShiftType.startTime shift_type /\
  Shift.endTime shift = ShiftType.endTime shift_type /\
  Shift.requiredRoles shift = ShiftType.requiredRoles shift_type /\
  PyNum.int_of_float (PyNum.float_mul (ShiftType.duration shift_type) (PyNum.float_of_Z 60))
    = Return (Shift.duration shift) /\
  is_night_shift (ShiftType.startTime shift_type) (ShiftType.endTime shift_type)
    = Return (Shift.isNightShift shift) /\
  Shift.isWeekend shift = is_weekend day.

(** The times of a shift type are read as integers and its duration is a
    finite number. *)
Definition well_formed (shift_type : ShiftType.t) : bool :=
  match PyNum.int_of_float
          (PyNum.float_mul (ShiftType.duration shift_type) (PyNum.float_of_Z 60)),
        is_night_shift (ShiftType.startTime shift_type) (ShiftType.endTime shift_type) with
  | Return _, Return _ => true
  | _, _ => false
  end.


(** The running totals of the projector are the integer 0 until a duration
    is added, and floats afterwards. *)
Definition plain (n : PyNum.number) : Prop :=
  match n with
  | PyNum.PyInt z => z = 0
  | PyNum.PyFloat _ => True
  end.

(** The float quotient [gap / 60] lies in the same whole hour as the exact
    quotient, so that both are below the same integers. *)
Definition rest_agrees (gap : Z) : bool :=
  match PyNum.int_truediv gap 60 with
  | Return (S754_zero _) => gap =? 0
  | Return (S754_finite s m e) =>
      (e <? 0) && ((if s then Zneg m else Zpos m) / 2 ^ (- e) =? gap / 60)
  | _ => false
  end.


(** ** Sample configurations *)

Module Samples.

Local Open Scope string_scope.

Definition literal (a b : Z) : PyNum.float :=
  SFdiv PyNum.prec PyNum.emax (PyNum.float_of_Z a) (PyNum.float_of_Z b).

Definition midnight (year month day : Z) : DateTime.t :=
  DateTime.make (DateTime.ymd2ord year month day) 0.

Definition no_rules : WeekendRules.t := WeekendRules.make false false 2.

Definition no_preferences : Preferences.t :=
  Preferences.make false false false false (PyNum.float_of_Z 0).

Definition limits (fairness : PyNum.float) : Constraints.t :=
  Constraints.make 40 1 3 8 false fairness.

Definition manager : Employee.t :=
  Employee.make "emp-1" "John Doe" "Manager" ["Leadership"] 40 [] [] (Some "john@example.com").

Definition day_shift (required : list RequiredRole.t) : ShiftType.t :=
  ShiftType.make "shift-1" "Day Shift" "09:00" "17:00" required (PyNum.float_of_Z 8)
                 true daily 5.

Definition one_day : SchedulingPeriod.t :=
  SchedulingPeriod.make (DateTime.naive (midnight 2024 1 1))
                        (DateTime.naive (midnight 2024 1 1)) [] [] 8 no_rules.

(** One manager, one daily shift that asks for one manager, one Monday. *)
Definition single : SchedulingConfig.t :=
  SchedulingConfig.make [manager]
    [day_shift [RequiredRole.make "Manager" 1]]
    one_day (limits (literal 7 10)) no_preferences.



(** The shift instance of [single]. *)
Definition monday_shift : Shift.t :=
  Shift.make 0 "shift-1" (midnight 2024 1 1) "09:00" "17:00" 480
             [RequiredRole.make "Manager" 1] false false.

(** The same day, with a shift that also asks for a chef; nobody is one. *)
Definition no_chef : SchedulingConfig.t :=
  SchedulingConfig.make [manager]
    [day_shift [RequiredRole.make "Manager" 1; RequiredRole.make "Chef" 1]]
    one_day (limits (literal 7 10)) no_preferences.

Definition no_chef_shift : Shift.t :=
  Shift.make 0 "shift-1" (midnight 2024 1 1) "09:00" "17:00" 480
             [RequiredRole.make "Manager" 1; RequiredRole.make "Chef" 1] false false.

(** Two employees and two shifts on one Monday: the manager is available in
    the morning only and takes the morning shift, the cook takes the
    evening shift. *)
Definition morning_manager : Employee.t :=
  Employee.make "emp-1" "John Doe" "Manager" [] 40
                [AvailabilitySlot.make 0 "09:00" "12:00"] [] None.

Definition cook : Employee.t :=
  Employee.make "emp-2" "Jane Roe" "Chef" [] 30 [] [] None.

Definition morning : ShiftType.t :=
  ShiftType.make "morning" "Morning" "09:00" "12:00" [RequiredRole.make "Manager" 1]
                 (PyNum.float_of_Z 3) true daily 5.

Definition evening : ShiftType.t :=
  ShiftType.make "evening" "Evening" "14:00" "18:00" [RequiredRole.make "Chef" 1]
                 (PyNum.float_of_Z 4) true daily 5.

Definition two_shifts : SchedulingConfig.t :=
  SchedulingConfig.make [morning_manager; cook] [morning; evening]
                        one_day (limits (literal 7 10)) no_preferences.

Definition morning_shift : Shift.t :=
  Shift.make 0 "morning" (midnight 2024 1 1) "09:00" "12:00" 180
             [RequiredRole.make "Manager" 1] false false.

Definition evening_shift : Shift.t :=
  Shift.make 1 "evening" (midnight 2024 1 1) "14:00" "18:00" 240
             [RequiredRole.make "Chef" 1] false false.

Definition split_day : valuation :=
  fun v =>
    match v with
    | EmployeeShift e s =>
        if (String.eqb e "emp-1" && Nat.eqb s 0) || (String.eqb e "emp-2" && Nat.eqb s 1)
        then 1 else 0
    | Deviation _ => 0
    end.

(** A second employee whose weekly maximum is 0. *)
Definition idle : Employee.t :=
  Employee.make "emp-0" "Idle" "Manager" [] 0 [] [] None.

Definition with_idle : SchedulingConfig.t :=
  SchedulingConfig.make [manager; idle]
    [day_shift []] one_day (limits (PyNum.float_of_Z 0)) no_preferences.


Definition manager_only : valuation :=
  fun v => match v with
           | EmployeeShift e _ => if String.eqb e "emp-1" then 1 else 0
           | Deviation _ => 0
           end.

(** A minimum rest of 2^48 + 1 hours, and two shift types on two days: the
    first ends at 00:01, the second starts 2^48 - 23 hours after midnight. *)
Definition brief : ShiftType.t :=
  ShiftType.make "brief" "Brief" "0:00" "0:01" [] (PyNum.float_of_Z 1) true daily 5.

Definition remote : ShiftType.t :=
  ShiftType.make "remote" "Remote" "281474976710633:00" "281474976710634:00" []
                 (PyNum.float_of_Z 1) true daily 5.

Definition two_days : SchedulingPeriod.t :=
  SchedulingPeriod.make (DateTime.naive (midnight 2024 1 1))
                        (DateTime.naive (midnight 2024 1 2)) [] [] 8 no_rules.

Definition long_rest : SchedulingConfig.t :=
  SchedulingConfig.make [manager] [brief; remote] two_days
    (Constraints.make 40 1 3 281474976710657 false (PyNum.float_of_Z 0))
    no_preferences.

Definition everyone : valuation :=
  fun v => match v with EmployeeShift _ _ => 1 | Deviation _ => 0 end.

Definition nobody : valuation := fun _ => 0.

End Samples.

(** ** Notions for the further properties *)

(** The usual rendering of a time of day, two digits for the hour and two
    for the minute. *)
Definition digit (d : Z) : ascii := ascii_of_nat (48 + Z.to_nat d).

Definition two_digits (n : Z) : string :=
  String (digit (n / 10)) (String (digit (n mod 10)) EmptyString).

Definition clock (minutes : Z) : string :=
  (two_digits (minutes / 60) ++ String ":"%char (two_digits (minutes mod 60)))%string.

(** The number of colons of a string. *)
Definition colons (s : string) : nat :=
  List.length (filter (fun c => Ascii.eqb c ":"%char) (list_ascii_of_string s)).


Definition assigned_weekends (value : valuation) (employee : Employee.t)
    (shifts : list Shift.t) : nat :=
  List.length
    (filter (fun shift => Shift.isWeekend shift && is_assigned value employee shift) shifts).

(** The text of an unsigned number written with the decimal digits [ds],
    its value, and the text of a time with such an hour and minute. *)
Definition numeral (ds : list Z) : list ascii := map digit ds.

Definition number_of (ds : list Z) : Z := fold_left (fun acc d => acc * 10 + d) ds 0.

Definition time_text (hs ms : list Z) : string :=
  string_of_list_ascii (numeral hs ++ ":"%char :: numeral ms).

(** Decimal digits: at least one, and no more than the 4300 that [int]
    converts by default. *)
Definition decimal_digits (ds : list Z) : Prop :=
  ds <> [] /\ (List.length ds <= 4300)%nat /\ Forall (fun d => 0 <= d <= 9) ds.

(** The two times of an availability slot are read by [parse_time]. *)
Definition readable (slot : AvailabilitySlot.t) : Prop :=
  exists slot_start slot_end,
    parse_time (AvailabilitySlot.startTime slot) = Return slot_start /\
    parse_time (AvailabilitySlot.endTime slot) = Return slot_end.


(** The sum of the deviation variables, and the number of pairs of an
    employee and a night shift assigned to the employee. *)
Definition total_deviation (value : valuation) (employees : list Employee.t) : Z :=
  fold_right Z.add 0 (map (fun p => value (Deviation (fst p))) (enumerate employees)).

Definition night_assignments (value : valuation) (employees : list Employee.t)
    (shifts : list Shift.t) : Z :=
  fold_right Z.add 0
    (map (fun employee =>
            Z.of_nat (List.length
                        (filter (is_assigned value employee)
                                (filter Shift.isNightShift shifts))))
         employees).

(** What the expander and the model read of an employee, of a shift type
    and of a request. *)
Definition same_employee (a b : Employee.t) : Prop :=
  Employee.id a = Employee.id b /\
  Employee.role a = Employee.role b /\
  Employee.availability a = Employee.availability b.

Definition same_shift_type (a b : ShiftType.t) : Prop :=
  ShiftType.id a = ShiftType.id b /\
  ShiftType.startTime a = ShiftType.startTime b /\
  ShiftType.endTime a = ShiftType.endTime b /\
  ShiftType.requiredRoles a = ShiftType.requiredRoles b /\
  ShiftType.duration a = ShiftType.duration b /\
  ShiftType.isRepeating a = ShiftType.isRepeating b.

Definition same_model_inputs (c1 c2 : SchedulingConfig.t) : Prop :=
  let p1 := SchedulingConfig.schedulingPeriod c1 in
  let p2 := SchedulingConfig.schedulingPeriod c2 in
  let l1 := SchedulingConfig.constraints c1 in
  let l2 := SchedulingConfig.constraints c2 in
  let w1 := SchedulingConfig.preferences c1 in
  let w2 := SchedulingConfig.preferences c2 in
  Forall2 same_employee (SchedulingConfig.employees c1) (SchedulingConfig.employees c2) /\
  Forall2 same_shift_type (SchedulingConfig.shiftTypes c1) (SchedulingConfig.shiftTypes c2) /\
  SchedulingPeriod.startDate p1 = SchedulingPeriod.startDate p2 /\
  SchedulingPeriod.endDate p1 = SchedulingPeriod.endDate p2 /\
  SchedulingPeriod.daysOff p1 = SchedulingPeriod.daysOff p2 /\
  SchedulingPeriod.holidays p1 = SchedulingPeriod.holidays p2 /\
  Constraints.maxHoursPerEmployee l1 = Constraints.maxHoursPerEmployee l2 /\
  Constraints.maxNightShiftsPerWeek l1 = Constraints.maxNightShiftsPerWeek l2 /\
  Constraints.minHoursBetweenShifts l1 = Constraints.minHoursBetweenShifts l2 /\
  Constraints.prioritizeFairness l1 = Constraints.prioritizeFairness l2 /\
  Preferences.minimizeNightShifts w1 = Preferences.minimizeNightShifts w2 /\
  Preferences.spreadWeekendShiftsFairly w1 = Preferences.spreadWeekendShiftsFairly w2.

(** ** Further sample configurations *)

Module MoreSamples.

Local Open Scope string_scope.

(** Two managers and one long shift, 06:00 to 23:00, on two days: between
    the end of one day's shift and the start of the next there are seven
    hours, less than the minimum of eight. *)
Definition second_manager : Employee.t :=
  Employee.make "emp-2" "Jane Roe" "Manager" [] 40 [] [] None.

Definition long_shift : ShiftType.t :=
  ShiftType.make "long" "Long" "06:00" "23:00" [RequiredRole.make "Manager" 1]
                 (PyNum.float_of_Z 8) true daily 5.

Definition long_days : SchedulingConfig.t :=
  SchedulingConfig.make [Samples.manager; second_manager] [long_shift] Samples.two_days
                        (Samples.limits (Samples.literal 7 10)) Samples.no_preferences.

Definition first_long : Shift.t :=
  Shift.make 0 "long" (Samples.midnight 2024 1 1) "06:00" "23:00" 480
             [RequiredRole.make "Manager" 1] false false.

Definition second_long : Shift.t :=
  Shift.make 1 "long" (Samples.midnight 2024 1 2) "06:00" "23:00" 480
             [RequiredRole.make "Manager" 1] false false.

Definition alternate : valuation :=
  fun v =>
    match v with
    | EmployeeShift e s =>
        if (String.eqb e "emp-1" && Nat.eqb s 0) || (String.eqb e "emp-2" && Nat.eqb s 1)
        then 1 else 0
    | Deviation _ => 0
    end.

(** One manager and an open shift on Saturday, 6 January 2024, with the
    weekend preference and the night-shift preference switched on. *)
Definition weekend_wishes : Preferences.t :=
  Preferences.make false true true false (PyNum.float_of_Z 0).

Definition night_watch : ShiftType.t :=
  ShiftType.make "night" "Night" "22:00" "23:30" [] (PyNum.float_of_Z 2) true daily 5.

Definition saturday : SchedulingConfig.t :=
  SchedulingConfig.make [Samples.manager] [night_watch]
    (SchedulingPeriod.make (DateTime.naive (Samples.midnight 2024 1 6))
                           (DateTime.naive (Samples.midnight 2024 1 6))
                           [] [] 8 Samples.no_rules)
    (Samples.limits (Samples.literal 7 10)) weekend_wishes.

Definition saturday_night : Shift.t :=
  Shift.make 0 "night" (Samples.midnight 2024 1 6) "22:00" "23:30" 120 [] true true.

(** A shift type whose start is not a time. *)
Definition garbled : ShiftType.t :=
  ShiftType.make "garbled" "Garbled" "nine" "17:00" [] (PyNum.float_of_Z 8) true daily 5.

Definition garbled_day : SchedulingConfig.t :=
  SchedulingConfig.make [Samples.manager] [garbled] Samples.one_day
                        (Samples.limits (PyNum.float_of_Z 0)) Samples.no_preferences.


(** An employee whose second availability slot is not a time, and one
    whose first slot is not. *)
Definition careless : Employee.t :=
  Employee.make "emp-3" "Careless" "Manager" [] 40
                [AvailabilitySlot.make 0 "09:00" "12:00";
                 AvailabilitySlot.make 0 "noon" "13:00"] [] None.

Definition careless_first : Employee.t :=
  Employee.make "emp-4" "Careless" "Manager" [] 40
                [AvailabilitySlot.make 0 "noon" "13:00";
                 AvailabilitySlot.make 0 "09:00" "12:00"] [] None.



(** The request of [Samples.two_shifts] with other names, skills, weekly
    maxima, repeat patterns, priorities and settings. *)
Definition renamed_manager : Employee.t :=
  Employee.make "emp-1" "J. Doe" "Manager" ["First aid"] 25
                [AvailabilitySlot.make 0 "09:00" "12:00"] ["mornings"]
                (Some "doe@example.com").

Definition renamed_cook : Employee.t :=
  Employee.make "emp-2" "J. Roe" "Chef" ["Grill"] 10 [] [] None.

Definition weekly_morning : ShiftType.t :=
  ShiftType.make "morning" "Early" "09:00" "12:00" [RequiredRole.make "Manager" 1]
                 (PyNum.float_of_Z 3) true weekly 1.

Definition custom_evening : ShiftType.t :=
  ShiftType.make "evening" "Late" "14:00" "18:00" [RequiredRole.make "Chef" 1]
                 (PyNum.float_of_Z 4) true custom 9.

Definition relabelled : SchedulingConfig.t :=
  SchedulingConfig.make [renamed_manager; renamed_cook] [weekly_morning; custom_evening]
    (SchedulingPeriod.make (DateTime.naive (Samples.midnight 2024 1 1))
                           (DateTime.naive (Samples.midnight 2024 1 1))
                           [] [] 12 (WeekendRules.make true true 1))
    (Constraints.make 40 3 3 8 true (Samples.literal 7 10))
    (Preferences.make true false false true (PyNum.float_of_Z 1)).




(** A naive start date with an end date in UTC, and a period of the one
    day 9999-12-31. *)
Definition mixed_dates : SchedulingConfig.t :=
  SchedulingConfig.make [Samples.manager] [Samples.day_shift []]
    (SchedulingPeriod.make (DateTime.naive (Samples.midnight 2024 1 1))
                           (DateTime.utc (Samples.midnight 2024 1 1))
                           [] [] 8 Samples.no_rules)
    (Samples.limits (PyNum.float_of_Z 0)) Samples.no_preferences.

Definition last_day : SchedulingConfig.t :=
  SchedulingConfig.make [Samples.manager] [Samples.day_shift []]
    (SchedulingPeriod.make (DateTime.naive (Samples.midnight 9999 12 31))
                           (DateTime.naive (Samples.midnight 9999 12 31))
                           [] [] 8 Samples.no_rules)
    (Samples.limits (PyNum.float_of_Z 0)) Samples.no_preferences.

(** An employee whose weekly maximum, 2^1024, is beyond the floats, ahead
    of one whose maximum is 0. *)
Definition giant : Employee.t :=
  Employee.make "emp-1" "Giant" "Manager" [] (2 ^ 1024) [] [] None.

Definition giant_first : SchedulingConfig.t :=
  SchedulingConfig.make [giant; Samples.idle]
    [Samples.day_shift []] Samples.one_day (Samples.limits (PyNum.float_of_Z 0))
    Samples.no_preferences.

End MoreSamples.

(** * Properties *)

(** ** The exception monad *)

Lemma bind_Return {A B : Type} (m : Py A) (k : A -> Py B) (b : B) :
  bind m k = Return b -> exists a, m = Return a /\ k a = Return b.
Proof.
  destruct m as [a|e]; simpl; intros H.
  - exists a. split; [reflexivity | exact H].
  - discriminate H.
Qed.

Ltac bind_inv H :=
  let a := fresh "a" in
  let Ha := fresh "Ha" in
  apply bind_Return in H; destruct H as [a [Ha H]].

Ltac return_inv H := injection H as H; subst.

Lemma concatM_In {A B : Type} (f : A -> Py (list B)) (l : list A) (out : list B) :
  concatM f l = Return out ->
  forall a, In a l -> exists ys, f a = Return ys /\ incl ys out.
Proof.
  revert out. induction l as [|h l IH]; intros out H a Ha.
  - destruct Ha.
  - simpl in H. bind_inv H. bind_inv H. return_inv H.
    destruct Ha as [<-|Ha].
    + exists a0. split; [assumption | apply incl_appl, incl_refl].
    + destruct (IH _ Ha1 _ Ha) as [ys [Hy Hi]].
      exists ys. split; [assumption | apply incl_appr, Hi].
Qed.

(** ** Solutions of a model *)

Lemma satisfied_inv (m : CpModel.t) (value : valuation) :
  satisfied m value = true ->
  (forall v, In v (bool_vars m) -> value v = 0 \/ value v = 1) /\
  (forall c, In c (constraints m) -> holds value c = true).
Proof.
  unfold satisfied. intros H.
  apply andb_prop in H. destruct H as [H Hc].
  apply andb_prop in H. destruct H as [Hb _].
  rewrite forallb_forall in Hb, Hc.
  split; [|exact Hc].
  intros v Hv. specialize (Hb v Hv). unfold in_domain in Hb.
  apply andb_prop in Hb. destruct Hb as [H0 H1].
  apply Z.leb_le in H0, H1. lia.
Qed.

(** The passes that make up a compiled model. *)
Lemma build_model_inv (config : SchedulingConfig.t) (shifts : list Shift.t)
    (model : CpModel.t) :
  build_model config shifts = Return model ->
  exists c0 c4 c6 fair,
    availability_constraints config shifts = Return c0 /\
    min_rest_constraints config shifts = Return c4 /\
    fairness_cap_constraints config shifts = Return c6 /\
    fairness_pass config shifts = Return fair /\
    model = CpModel.make
              (employee_shift_vars config shifts)
              (deviation_vars fair)
              (c0 ++ coverage_constraints config shifts
                  ++ one_shift_per_day_constraints config shifts
                  ++ weekly_hours_constraints config shifts
                  ++ c4
                  ++ night_shift_constraints config shifts
                  ++ c6 ++ fairness_constraints fair ++ weekend_constraints config shifts)
              (objective_of (fairness_objective fair ++ night_shift_penalty config shifts)).
Proof.
  unfold build_model. intros H.
  bind_inv H. bind_inv H. bind_inv H. bind_inv H. return_inv H.
  exists a, a0, a1, a2. repeat split; assumption.
Qed.

Lemma solved_schedule_inv (config : SchedulingConfig.t) (value : valuation)
    (shifts : list Shift.t) :
  solved_schedule config value = Some shifts ->
  generate_shifts config = Return shifts /\
  exists model, build_model config shifts = Return model /\ satisfied model value = true.
Proof.
  unfold solved_schedule. intros H.
  destruct (generate_shifts config) as [l|]; [|discriminate].
  destruct (build_model config l) as [m|] eqn:Hm; [|discriminate].
  destruct (satisfied m value) eqn:Hs; [|discriminate].
  injection H as <-. split; [reflexivity|]. exists m. split; assumption.
Qed.

(** The variable of an employee of the staff and a generated shift is a
    Boolean variable of the model. *)
Lemma x_in_vars (config : SchedulingConfig.t) (shifts : list Shift.t)
    (employee : Employee.t) (shift : Shift.t) :
  In employee (SchedulingConfig.employees config) -> In shift shifts ->
  In (x employee shift) (employee_shift_vars config shifts).
Proof.
  intros He Hs. unfold employee_shift_vars.
  apply in_flat_map. exists employee. split; [exact He|].
  apply in_map. exact Hs.
Qed.

Section Solved.

Variable config : SchedulingConfig.t.
Variable value : valuation.
Variable shifts : list Shift.t.
Hypothesis solved : solved_schedule config value = Some shifts.

Lemma solved_boolean (employee : Employee.t) (shift : Shift.t) :
  In employee (SchedulingConfig.employees config) -> In shift shifts ->
  value (x employee shift) = 0 \/ value (x employee shift) = 1.
Proof.
  intros He Hs.
  destruct (solved_schedule_inv _ _ _ solved) as [_ [model [Hm Hsat]]].
  destruct (build_model_inv _ _ _ Hm) as (c0 & c4 & c6 & fair & _ & _ & _ & _ & ->).
  apply satisfied_inv in Hsat. destruct Hsat as [Hb _].
  apply Hb. simpl. apply x_in_vars; assumption.
Qed.

(** Each pass is part of the model that the valuation satisfies. *)
Lemma solved_passes :
  exists c0 c4 c6,
    availability_constraints config shifts = Return c0 /\
    min_rest_constraints config shifts = Return c4 /\
    fairness_cap_constraints config shifts = Return c6 /\
    forall c,
      In c c0 \/ In c (coverage_constraints config shifts)
      \/ In c (one_shift_per_day_constraints config shifts)
      \/ In c (weekly_hours_constraints config shifts)
      \/ In c c4 \/ In c (night_shift_constraints config shifts) \/ In c c6 ->
      holds value c = true.
Proof.
  destruct (solved_schedule_inv _ _ _ solved) as [_ [model [Hm Hsat]]].
  destruct (build_model_inv _ _ _ Hm) as (c0 & c4 & c6 & fair & H0 & H4 & H6 & _ & ->).
  apply satisfied_inv in Hsat. destruct Hsat as [_ Hc]. simpl in Hc.
  exists c0, c4, c6. repeat split; try assumption.
  intros c H. apply Hc. rewrite !in_app_iff. tauto.
Qed.

End Solved.

(** ** The expansion of the shift types *)

Lemma Forall2_In_l {A B : Type} (P : A -> B -> Prop) (l : list A) (l' : list B) :
  Forall2 P l l' -> forall a, In a l -> exists b, In b l' /\ P a b.
Proof.
  induction 1 as [|a0 b0 l l' Hab _ IH]; intros a Ha.
  - destruct Ha.
  - destruct Ha as [<-|Ha].
    + exists b0. split; [left; reflexivity | exact Hab].
    + destruct (IH a Ha) as [b [Hb Hp]]. exists b. split; [right; exact Hb | exact Hp].
Qed.

Section ExpanderFacts.

Variable config : SchedulingConfig.t.

Let period := SchedulingConfig.schedulingPeriod config.
Let start_date := DateTime.fields (SchedulingPeriod.startDate period).

Lemma new_shift_instance (counter : nat) (day : DateTime.t) (shift_type : ShiftType.t)
    (s : Shift.t) :
  new_shift counter day shift_type = Return s ->
  instance_of s (day, shift_type) /\ Shift.id s = counter.
Proof.
  unfold new_shift. intros H. bind_inv H. bind_inv H. return_inv H.
  simpl. repeat split; assumption.
Qed.

Lemma new_shift_total (counter : nat) (day : DateTime.t) (shift_type : ShiftType.t) :
  well_formed shift_type = true -> exists s, new_shift counter day shift_type = Return s.
Proof.
  unfold well_formed, new_shift. intros H.
  destruct (PyNum.int_of_float _) as [m|]; [|discriminate].
  destruct (is_night_shift _ _) as [n|]; [|discriminate].
  simpl. eexists. reflexivity.
Qed.

Lemma day_shifts_spec (day : DateTime.t) (shift_types : list ShiftType.t) :
  forall counter today,
    day_shifts day counter shift_types = Return today ->
    Forall2 instance_of today (map (pair day) (filter ShiftType.isRepeating shift_types)) /\
    map Shift.id today = seq counter (List.length today).
Proof.
  induction shift_types as [|st rest IH]; intros counter today H; simpl in H.
  - return_inv H. simpl. split; [constructor | reflexivity].
  - simpl. destruct (ShiftType.isRepeating st).
    + bind_inv H. bind_inv H. return_inv H.
      destruct (new_shift_instance _ _ _ _ Ha) as [Hi Hid].
      destruct (IH _ _ Ha0) as [Hf Hs].
      simpl. split; [constructor; assumption | rewrite Hid, Hs; reflexivity].
    + apply IH. exact H.
Qed.

Lemma day_shifts_total (day : DateTime.t) (shift_types : list ShiftType.t) :
  forallb well_formed (filter ShiftType.isRepeating shift_types) = true ->
  forall counter, exists today, day_shifts day counter shift_types = Return today.
Proof.
  induction shift_types as [|st rest IH]; intros H counter; simpl.
  - eexists. reflexivity.
  - simpl in H. destruct (ShiftType.isRepeating st).
    + simpl in H. apply andb_prop in H. destruct H as [Hw H].
      destruct (new_shift_total counter day st Hw) as [s ->].
      destruct (IH H (S counter)) as [more ->].
      simpl. eexists. reflexivity.
    + apply IH. exact H.
Qed.

(** The guard of the loop. *)
Lemma within_limit (d : DateTime.t) :
  within config d = (DateTime.timestamp d <=? end_limit config).
Proof.
  unfold within, end_limit. cbv zeta.
  destruct (DateTime.utcoffset
              (SchedulingPeriod.startDate (SchedulingConfig.schedulingPeriod config)))
    as [a|];
    destruct (DateTime.utcoffset
                (SchedulingPeriod.endDate (SchedulingConfig.schedulingPeriod config)))
      as [b|]; try reflexivity.
  destruct (Z.leb_spec (DateTime.timestamp d - a)
                       (DateTime.timestamp
                          (DateTime.fields
                             (SchedulingPeriod.endDate
                                (SchedulingConfig.schedulingPeriod config))) - b));
    symmetry; [apply Z.leb_le | apply Z.leb_gt]; lia.
Qed.

Lemma in_period_inv (d : DateTime.t) (go_on : bool) :
  in_period config d = Return go_on ->
  comparable config = true /\ go_on = within config d.
Proof.
  unfold in_period, DateTime.le, comparable, within. cbn [DateTime.utcoffset DateTime.fields].
  destruct (DateTime.utcoffset
              (SchedulingPeriod.startDate (SchedulingConfig.schedulingPeriod config)))
    as [a|];
    destruct (DateTime.utcoffset
                (SchedulingPeriod.endDate (SchedulingConfig.schedulingPeriod config)))
      as [b|];
    intros H; try discriminate H; injection H as <-; split; reflexivity.
Qed.

Lemma in_period_within (d : DateTime.t) :
  comparable config = true -> in_period config d = Return (within config d).
Proof.
  unfold in_period, DateTime.le, comparable, within. cbn [DateTime.utcoffset DateTime.fields].
  destruct (DateTime.utcoffset
              (SchedulingPeriod.startDate (SchedulingConfig.schedulingPeriod config)))
    as [a|];
    destruct (DateTime.utcoffset
                (SchedulingPeriod.endDate (SchedulingConfig.schedulingPeriod config)))
      as [b|];
    intros H; try discriminate H; reflexivity.
Qed.

Lemma in_period_mixed (d : DateTime.t) :
  comparable config = false -> in_period config d = Raise TypeError.
Proof.
  unfold in_period, DateTime.le, comparable. cbn [DateTime.utcoffset DateTime.fields].
  destruct (DateTime.utcoffset
              (SchedulingPeriod.startDate (SchedulingConfig.schedulingPeriod config)))
    as [a|];
    destruct (DateTime.utcoffset
                (SchedulingPeriod.endDate (SchedulingConfig.schedulingPeriod config)))
      as [b|];
    intros H; try discriminate H; reflexivity.
Qed.

Lemma add_day_inv (d tomorrow : DateTime.t) :
  DateTime.add_day d = Return tomorrow ->
  tomorrow = DateTime.add_days d 1 /\ DateTime.toordinal d < DateTime.max_ordinal.
Proof.
  unfold DateTime.add_day.
  destruct (DateTime.toordinal d + 1 <=? DateTime.max_ordinal) eqn:H; intros E;
    [|discriminate E].
  injection E as <-. apply Z.leb_le in H. split; [reflexivity | lia].
Qed.

Lemma add_day_fits (d : DateTime.t) :
  DateTime.toordinal d < DateTime.max_ordinal ->
  DateTime.add_day d = Return (DateTime.add_days d 1).
Proof.
  intros H. unfold DateTime.add_day.
  replace (DateTime.toordinal d + 1 <=? DateTime.max_ordinal) with true
    by (symmetry; apply Z.leb_le; lia).
  reflexivity.
Qed.

(** The guard, read on the number of days that remain. *)
Lemma remaining_days_after (current_date : DateTime.t) :
  within config current_date = false ->
  remaining_days config current_date = O.
Proof.
  rewrite within_limit. unfold remaining_days.
  intros H. apply Z.leb_gt in H.
  assert (Hq : (end_limit config - DateTime.timestamp current_date)
               / DateTime.us_per_day < 0).
  { apply Z.div_lt_upper_bound; unfold DateTime.us_per_day; lia. }
  lia.
Qed.

Lemma timestamp_add_days (d : DateTime.t) (k : Z) :
  DateTime.timestamp (DateTime.add_days d k)
  = DateTime.timestamp d + k * DateTime.us_per_day.
Proof. unfold DateTime.timestamp, DateTime.add_days. simpl. lia. Qed.

Lemma remaining_days_within (current_date : DateTime.t) :
  within config current_date = true ->
  remaining_days config current_date
  = S (remaining_days config (DateTime.add_days current_date 1)).
Proof.
  rewrite within_limit. unfold remaining_days.
  intros H. apply Z.leb_le in H.
  rewrite timestamp_add_days.
  replace (end_limit config
           - (DateTime.timestamp current_date + 1 * DateTime.us_per_day))
    with ((end_limit config - DateTime.timestamp current_date)
          + (-1) * DateTime.us_per_day) by lia.
  rewrite Z.div_add by (unfold DateTime.us_per_day; lia).
  assert (Hq : 0 <= (end_limit config - DateTime.timestamp current_date)
                    / DateTime.us_per_day).
  { apply Z.div_pos; unfold DateTime.us_per_day; lia. }
  lia.
Qed.

(** The two equations of the loop. *)
Lemma generate_loop_O (current_date : DateTime.t) (counter : nat) :
  generate_loop config O current_date counter
  = (go_on <- in_period config current_date ;; Return []).
Proof.
  simpl. destruct (in_period config current_date) as [[|]|]; reflexivity.
Qed.

Lemma generate_loop_S (fuel : nat) (current_date : DateTime.t) (counter : nat) :
  generate_loop config (S fuel) current_date counter
  = (go_on <- in_period config current_date ;;
     if go_on then
       if skipped config current_date then
         tomorrow <- DateTime.add_day current_date ;;
         generate_loop config fuel tomorrow counter
       else
         today <- day_shifts current_date counter (SchedulingConfig.shiftTypes config) ;;
         tomorrow <- DateTime.add_day current_date ;;
         later <- generate_loop config fuel tomorrow (counter + List.length today)%nat ;;
         Return (today ++ later)
     else Return []).
Proof. reflexivity. Qed.

(** The fuel is enough: more fuel does not change what the loop does. *)
Lemma generate_loop_fuel (extra : nat) :
  forall current_date counter,
    generate_loop config (remaining_days config current_date + extra) current_date counter
    = generate_loop config (remaining_days config current_date) current_date counter.
Proof.
  intros current_date.
  remember (remaining_days config current_date) as n eqn:Hn.
  revert current_date Hn.
  induction n as [|n IH]; intros current_date Hn counter.
  - rewrite generate_loop_O. destruct extra as [|extra']; cbn [Nat.add].
    + rewrite generate_loop_O. reflexivity.
    + rewrite generate_loop_S.
      destruct (in_period config current_date) as [go_on|e] eqn:Hgo; [|reflexivity].
      destruct (in_period_inv _ _ Hgo) as [_ ->]. cbn [bind].
      destruct (within config current_date) eqn:Hle; [|reflexivity].
      rewrite (remaining_days_within _ Hle) in Hn. discriminate.
  - cbn [Nat.add]. rewrite !generate_loop_S.
    destruct (in_period config current_date) as [go_on|e] eqn:Hgo; [|reflexivity].
    destruct (in_period_inv _ _ Hgo) as [_ ->]. cbn [bind].
    destruct (within config current_date) eqn:Hle; [|reflexivity].
    rewrite (remaining_days_within _ Hle) in Hn. injection Hn as Hn.
    destruct (skipped config current_date).
    + destruct (DateTime.add_day current_date) as [tomorrow|] eqn:Ht; [|reflexivity].
      destruct (add_day_inv _ _ Ht) as [-> _]. cbn [bind]. apply IH. exact Hn.
    + destruct (day_shifts current_date counter (SchedulingConfig.shiftTypes config));
        cbn [bind]; [|reflexivity].
      destruct (DateTime.add_day current_date) as [tomorrow|] eqn:Ht; [|reflexivity].
      destruct (add_day_inv _ _ Ht) as [-> _]. cbn [bind].
      rewrite (IH _ Hn). reflexivity.
Qed.

Lemma days_from_S (current_date : DateTime.t) (n : nat) :
  days_from current_date (S n)
  = current_date :: days_from (DateTime.add_days current_date 1) n.
Proof.
  unfold days_from. simpl. f_equal.
  - destruct current_date as [o u]. unfold DateTime.add_days. simpl. f_equal. lia.
  - rewrite <- seq_shift, map_map. apply map_ext. intros k.
    unfold DateTime.add_days. simpl. f_equal. lia.
Qed.

Lemma generate_loop_spec (n : nat) :
  forall current_date counter generated,
    remaining_days config current_date = n ->
    generate_loop config n current_date counter = Return generated ->
    Forall2 instance_of generated
            (list_prod (filter (fun d => negb (skipped config d)) (days_from current_date n))
                       (recurring config)) /\
    map Shift.id generated = seq counter (List.length generated).
Proof.
  induction n as [|n IH]; intros current_date counter generated Hn H.
  - rewrite generate_loop_O in H. bind_inv H. return_inv H.
    simpl. split; [constructor | reflexivity].
  - rewrite generate_loop_S in H. bind_inv H.
    destruct (in_period_inv _ _ Ha) as [_ ->].
    destruct (within config current_date) eqn:Hle.
    2:{ rewrite (remaining_days_after _ Hle) in Hn. discriminate. }
    rewrite (remaining_days_within _ Hle) in Hn. injection Hn as Hn.
    rewrite days_from_S. simpl.
    destruct (skipped config current_date); simpl.
    + bind_inv H. destruct (add_day_inv _ _ Ha0) as [-> _].
      apply (IH _ _ _ Hn H).
    + bind_inv H. bind_inv H. destruct (add_day_inv _ _ Ha1) as [-> _].
      bind_inv H. injection H as <-.
      destruct (day_shifts_spec _ _ _ _ Ha0) as [Hf Hs].
      destruct (IH _ _ _ Hn Ha2) as [Hf' Hs'].
      split.
      * apply Forall2_app; assumption.
      * rewrite map_app, length_app, seq_app, Hs, Hs'. reflexivity.
Qed.

(** A loop that returns has met no mixed comparison and no last day. *)
Lemma generate_loop_fits (n : nat) :
  forall current_date counter generated,
    remaining_days config current_date = n ->
    generate_loop config n current_date counter = Return generated ->
    comparable config = true /\
    forall d, In d (days_from current_date n) -> DateTime.toordinal d < DateTime.max_ordinal.
Proof.
  induction n as [|n IH]; intros current_date counter generated Hn H.
  - rewrite generate_loop_O in H. bind_inv H.
    destruct (in_period_inv _ _ Ha) as [Hc _]. split; [exact Hc | intros d []].
  - rewrite generate_loop_S in H. bind_inv H.
    destruct (in_period_inv _ _ Ha) as [Hc ->]. split; [exact Hc|].
    destruct (within config current_date) eqn:Hle.
    2:{ rewrite (remaining_days_after _ Hle) in Hn. discriminate. }
    rewrite (remaining_days_within _ Hle) in Hn. injection Hn as Hn.
    rewrite days_from_S.
    destruct (skipped config current_date).
    + bind_inv H. destruct (add_day_inv _ _ Ha0) as [-> Hlt].
      intros d [<-|Hd]; [exact Hlt|].
      apply (proj2 (IH _ _ _ Hn H)). exact Hd.
    + bind_inv H. bind_inv H. destruct (add_day_inv _ _ Ha1) as [-> Hlt].
      bind_inv H.
      intros d [<-|Hd]; [exact Hlt|].
      apply (proj2 (IH _ _ _ Hn Ha2)). exact Hd.
Qed.

Lemma generate_loop_total (n : nat) :
  comparable config = true ->
  forallb well_formed (recurring config) = true ->
  forall current_date counter,
    remaining_days config current_date = n ->
    (forall d, In d (days_from current_date n) ->
               DateTime.toordinal d < DateTime.max_ordinal) ->
    exists generated, generate_loop config n current_date counter = Return generated.
Proof.
  intros Hc Hw. induction n as [|n IH]; intros current_date counter Hn Hfit.
  - rewrite generate_loop_O, (in_period_within _ Hc). eexists. reflexivity.
  - rewrite generate_loop_S, (in_period_within _ Hc). cbn [bind].
    destruct (within config current_date) eqn:Hle; [|eexists; reflexivity].
    rewrite (remaining_days_within _ Hle) in Hn. injection Hn as Hn.
    rewrite days_from_S in Hfit.
    rewrite (add_day_fits _ (Hfit _ (or_introl eq_refl))).
    destruct (skipped config current_date); cbn [bind].
    + apply (IH _ _ Hn). intros d Hd. apply Hfit. right. exact Hd.
    + destruct (day_shifts_total current_date _ Hw counter) as [today ->]. cbn [bind].
      destruct (IH (DateTime.add_days current_date 1) (counter + List.length today)%nat Hn)
        as [later ->].
      * intros d Hd. apply Hfit. right. exact Hd.
      * cbn [bind]. eexists. reflexivity.
Qed.

(** What the expander returns: the instances of the recurring shift types
    on the working days, day by day, numbered from 0. *)
Lemma generate_shifts_spec (generated : list Shift.t) :
  generate_shifts config = Return generated ->
  Forall2 instance_of generated (list_prod (working_days config) (recurring config)) /\
  map Shift.id generated = seq 0 (List.length generated).
Proof.
  unfold generate_shifts. intros H.
  apply (generate_loop_spec _ _ _ _ eq_refl H).
Qed.

(** The days that the loop visits. *)
Lemma period_days_iff (d : DateTime.t) :
  In d (period_days config) <->
  exists k, 0 <= k /\ d = DateTime.add_days start_date k /\ within config d = true.
Proof.
  unfold period_days, days_from. cbv zeta. fold period. fold start_date.
  rewrite in_map_iff. unfold remaining_days.
  assert (HD : 0 < DateTime.us_per_day) by (unfold DateTime.us_per_day; lia).
  split.
  - intros [k [<- Hk]]. apply in_seq in Hk.
    exists (Z.of_nat k). split; [lia|]. split; [reflexivity|].
    rewrite within_limit. apply Z.leb_le. rewrite timestamp_add_days.
    assert (Hq : Z.of_nat k <= (end_limit config - DateTime.timestamp start_date)
                               / DateTime.us_per_day) by lia.
    pose proof (Z.mul_div_le (end_limit config - DateTime.timestamp start_date)
                             _ HD) as Hm.
    nia.
  - intros [k [Hk [-> Hle]]]. rewrite within_limit in Hle.
    apply Z.leb_le in Hle. rewrite timestamp_add_days in Hle.
    exists (Z.to_nat k). split; [rewrite Z2Nat.id by exact Hk; reflexivity|].
    apply in_seq.
    assert (Hq : k <= (end_limit config - DateTime.timestamp start_date)
                      / DateTime.us_per_day).
    { apply Z.div_le_lower_bound; [exact HD | lia]. }
    lia.
Qed.

(** A day is skipped exactly when its calendar date is that of a holiday or
    of a day off. *)
Lemma skipped_excluded (d : DateTime.t) :
  skipped config d = true <-> excluded config d.
Proof.
  unfold skipped, excluded. cbv zeta. fold period.
  rewrite orb_true_iff, map_app, in_app_iff, !existsb_exists, !in_map_iff.
  split.
  - intros [[h [Hin Heq]]|[h [Hin Heq]]]; apply Z.eqb_eq in Heq;
      [left | right]; exists h; split; [symmetry; exact Heq | exact Hin | symmetry; exact Heq
                                       | exact Hin].
  - intros [[h [Heq Hin]]|[h [Heq Hin]]]; [left | right]; exists h;
      (split; [exact Hin | apply Z.eqb_eq; symmetry; exact Heq]).
Qed.

Lemma working_days_iff (d : DateTime.t) :
  In d (working_days config) <->
  (exists k, 0 <= k /\ d = DateTime.add_days start_date k)
  /\ within config d = true /\ ~ excluded config d.
Proof.
  unfold working_days. rewrite filter_In, period_days_iff, negb_true_iff.
  rewrite <- skipped_excluded.
  split.
  - intros [[k [Hk [Hd Hle]]] Hs]. split; [exists k; split; assumption|].
    split; [exact Hle|]. rewrite Hs. discriminate.
  - intros [[k [Hk Hd]] [Hle Hs]]. split; [exists k; repeat split; assumption|].
    destruct (skipped config d); [exfalso; apply Hs; reflexivity | reflexivity].
Qed.

(** Every generated shift is on a day of the period, at the time of day of
    the start date. *)
Lemma generated_on_period_day (generated : list Shift.t) (s : Shift.t) :
  generate_shifts config = Return generated -> In s generated ->
  In (Shift.date s) (working_days config) /\
  DateTime.microsecond_of_day (Shift.date s) = DateTime.microsecond_of_day start_date.
Proof.
  intros H Hs.
  destruct (generate_shifts_spec _ H) as [Hf _].
  destruct (Forall2_In_l _ _ _ Hf s Hs) as [[d st] [Hin Hi]].
  apply in_prod_iff in Hin. destruct Hin as [Hd _].
  destruct Hi as [Hdate _]. rewrite Hdate.
  split; [exact Hd|].
  apply working_days_iff in Hd. destruct Hd as [[k [_ ->]] _]. reflexivity.
Qed.

End ExpanderFacts.









(** ** Sums over Boolean variables *)

Lemma eval_sum_vars_map {A : Type} (value : valuation) (f : A -> var) (l : list A) :
  (forall a, In a l -> value (f a) = 0 \/ value (f a) = 1) ->
  eval value (sum_vars (map f l))
  = Z.of_nat (List.length (filter (fun a => value (f a) =? 1) l)).
Proof.
  unfold eval, sum_vars. simpl. rewrite Z.add_0_r.
  induction l as [|a l IH]; intros Hb; simpl; [reflexivity|].
  rewrite IH by (intros b Hin; apply Hb; right; exact Hin).
  destruct (Hb a (or_introl eq_refl)) as [H|H]; rewrite H.
  - change (0 =? 1) with false. cbv iota. lia.
  - change (1 =? 1) with true. cbv iota. cbn [List.length]. rewrite Nat2Z.inj_succ. lia.
Qed.


Lemma filter_filter_andb {A : Type} (p q : A -> bool) (l : list A) :
  filter p (filter q l) = filter (fun a => q a && p a) l.
Proof.
  induction l as [|a l IH]; simpl; [reflexivity|].
  destruct (q a); simpl; [destruct (p a)|]; rewrite IH; reflexivity.
Qed.

Lemma filter_ext_in_local {A : Type} (p q : A -> bool) (l : list A) :
  (forall a, In a l -> p a = q a) -> filter p l = filter q l.
Proof.
  induction l as [|a l IH]; intros H; simpl; [reflexivity|].
  rewrite (H a (or_introl eq_refl)).
  rewrite IH by (intros b Hb; apply H; right; exact Hb). reflexivity.
Qed.

(** ** The projector's list of assigned employees *)

Lemma assigned_employees_In (config : SchedulingConfig.t) (value : valuation)
    (shift : Shift.t) (employee_id : string) :
  In employee_id (assigned_employees config value shift) <->
  (exists employee, In employee (SchedulingConfig.employees config)
                    /\ Employee.id employee = employee_id)
  /\ value (EmployeeShift employee_id (Shift.id shift)) = 1.
Proof.
  unfold assigned_employees. rewrite in_map_iff. split.
  - intros [e [Hid Hin]]. apply filter_In in Hin. destruct Hin as [Hin Ha].
    unfold is_assigned, x in Ha. apply Z.eqb_eq in Ha. rewrite Hid in Ha.
    split; [exists e; split; assumption | exact Ha].
  - intros [[e [Hin Hid]] Hv]. exists e. split; [exact Hid|].
    apply filter_In. split; [exact Hin|].
    unfold is_assigned, x. rewrite Hid. apply Z.eqb_eq. exact Hv.
Qed.

Lemma works_is_assigned (config : SchedulingConfig.t) (value : valuation)
    (employee : Employee.t) (shift : Shift.t) :
  In employee (SchedulingConfig.employees config) ->
  works employee (generated_shift config value shift) = is_assigned value employee shift.
Proof.
  intros Hin. unfold works, generated_shift. simpl.
  destruct (is_assigned value employee shift) eqn:Ha.
  - apply existsb_exists. exists (Employee.id employee).
    split; [|apply String.eqb_refl].
    apply assigned_employees_In. split; [exists employee; split; [assumption|reflexivity]|].
    unfold is_assigned, x in Ha. apply Z.eqb_eq in Ha. exact Ha.
  - apply not_true_is_false. intros H. apply existsb_exists in H.
    destruct H as [i [Hi He]]. apply String.eqb_eq in He. subst i.
    apply assigned_employees_In in Hi. destruct Hi as [_ Hv].
    unfold is_assigned, x in Ha. apply Z.eqb_neq in Ha. contradiction.
Qed.

(** ** Role coverage *)

(** C1 (as amended).  In a solved schedule, for every shift instance with
    required roles and every required role that at least one employee
    holds, the number of assigned employees of that role equals the
    required count. *)
Theorem role_coverage_exact (config : SchedulingConfig.t) (value : valuation)
    (shifts : list Shift.t) :
  solved_schedule config value = Some shifts ->
  forall shift required_role,
    In shift shifts ->
    In required_role (Shift.requiredRoles shift) ->
    role_employees config (RequiredRole.role required_role) <> [] ->
    Z.of_nat (assigned_with_role config (RequiredRole.role required_role)
                                 (generated_shift config value shift))
    = RequiredRole.count required_role.
Proof.
  intros solved shift rr Hs Hrr Hemps.
  destruct (solved_passes _ _ _ solved) as (c0 & c4 & c6 & _ & _ & _ & Hholds).
  set (emps := role_employees config (RequiredRole.role rr)).
  assert (Hc : In (Add (sum_vars (map (fun emp => x emp shift) emps)) EQ
                       (const (RequiredRole.count rr)))
                  (coverage_constraints config shifts)).
  { unfold coverage_constraints. apply in_flat_map. exists shift. split; [exact Hs|].
    unfold coverage_of_shift.
    destruct (Shift.requiredRoles shift) as [|r0 rest] eqn:Hreq; [destruct Hrr|].
    apply in_flat_map. exists rr. split; [exact Hrr|].
    unfold role_requirement. fold emps.
    destruct emps as [|e0 more] eqn:He; [contradiction|]. left. reflexivity. }
  specialize (Hholds _ (or_intror (or_introl Hc))).
  unfold holds in Hholds. simpl in Hholds. apply Z.eqb_eq in Hholds.
  rewrite eval_sum_vars_map in Hholds.
  2:{ intros e He. apply (solved_boolean _ _ _ solved); [|exact Hs].
      unfold emps, role_employees in He. apply filter_In in He. apply He. }
  unfold eval in Hholds. simpl in Hholds. rewrite <- Hholds.
  unfold assigned_with_role. f_equal. f_equal.
  unfold emps, role_employees. rewrite filter_filter_andb.
  apply filter_ext_in_local. intros e He.
  rewrite (works_is_assigned _ _ _ _ He). reflexivity.
Qed.

Lemma role_coverage_exact_witness :
  solved_schedule Samples.single Samples.everyone = Some [Samples.monday_shift] /\
  Z.of_nat (assigned_with_role Samples.single "Manager"
              (generated_shift Samples.single Samples.everyone Samples.monday_shift))
  = 1.
Proof.
  split; [vm_compute; reflexivity|].
  apply (role_coverage_exact Samples.single Samples.everyone [Samples.monday_shift]
           ltac:(vm_compute; reflexivity)
           Samples.monday_shift (RequiredRole.make "Manager" 1)).
  - left. reflexivity.
  - left. reflexivity.
  - vm_compute. discriminate.
Defined.

(** C1, as stated, fails: the shift of [Samples.no_chef] requires one chef,
    no employee is a chef, the model has a solution (the manager works the
    shift), and the solved schedule assigns no chef. *)
Lemma required_role_without_holder :
  let config := Samples.no_chef in
  let value := Samples.everyone in
  let shift := Samples.no_chef_shift in
  let chef := RequiredRole.make "Chef" 1 in
  solved_schedule config value = Some [shift] /\
  In chef (Shift.requiredRoles shift) /\
  Z.of_nat (assigned_with_role config (RequiredRole.role chef)
                               (generated_shift config value shift))
  <> RequiredRole.count chef /\
  exists r, optimize_schedule (fun _ => (OPTIMAL, value)) config = Return r /\
            ScheduleResult.shifts r = [generated_shift config value shift] /\
            ScheduleResult.violations r = [].
Proof.
  simpl. split; [vm_compute; reflexivity|].
  split; [right; left; reflexivity|].
  split; [vm_compute; discriminate|].
  eexists. split; [vm_compute; reflexivity|]. split; reflexivity.
Qed.

(** ** One shift per day *)

Lemma NoDup_map_In_eq {A B : Type} (f : A -> B) (l : list A) :
  NoDup (map f l) -> forall a b, In a l -> In b l -> f a = f b -> a = b.
Proof.
  induction l as [|h l IH]; simpl; intros Hn a b Ha Hb Hf; [destruct Ha|].
  inversion Hn as [|? ? Hnot Hrest]; subst.
  destruct Ha as [<-|Ha], Hb as [<-|Hb].
  - reflexivity.
  - exfalso. apply Hnot. rewrite Hf. apply in_map. exact Hb.
  - exfalso. apply Hnot. rewrite <- Hf. apply in_map. exact Ha.
  - apply IH; assumption.
Qed.

(** The identifiers tell the generated shifts apart. *)
Lemma generated_ids_distinct (config : SchedulingConfig.t) (generated : list Shift.t) :
  generate_shifts config = Return generated ->
  forall s1 s2, In s1 generated -> In s2 generated ->
                Shift.id s1 = Shift.id s2 -> s1 = s2.
Proof.
  intros H. apply NoDup_map_In_eq.
  destruct (generate_shifts_spec _ _ H) as [_ Hid]. rewrite Hid. apply seq_NoDup.
Qed.

(** C6.  In a solved schedule an employee in the list of assigned employees
    of a shift instance is in the list of no other shift instance of the
    same calendar date. *)
Theorem one_shift_per_date (config : SchedulingConfig.t) (value : valuation)
    (shifts : list Shift.t) :
  solved_schedule config value = Some shifts ->
  forall shift1 shift2 employee_id,
    In shift1 shifts -> In shift2 shifts ->
    shift1 <> shift2 ->
    DateTime.date (Shift.date shift1) = DateTime.date (Shift.date shift2) ->
    In employee_id (assigned_employees config value shift1) ->
    ~ In employee_id (assigned_employees config value shift2).
Proof.
  intros solved s1 s2 i H1 H2 Hne Hdate Ha1 Ha2.
  destruct (solved_schedule_inv _ _ _ solved) as [Hgen _].
  destruct (solved_passes _ _ _ solved) as (c0 & c4 & c6 & _ & _ & _ & Hholds).
  apply assigned_employees_In in Ha1. destruct Ha1 as [[e [He Hid]] Hv1].
  apply assigned_employees_In in Ha2. destruct Ha2 as [_ Hv2].
  assert (Hids : Shift.id s2 <> Shift.id s1).
  { intros Heq. apply Hne. symmetry.
    apply (generated_ids_distinct _ _ Hgen); assumption. }
  assert (Hsame : In s2 (same_day_shifts shifts s1)).
  { unfold same_day_shifts. apply filter_In. split; [exact H2|].
    apply andb_true_intro. split.
    - unfold DateTime.eqb. apply andb_true_intro. split.
      + apply Z.eqb_eq. symmetry. exact Hdate.
      + apply Z.eqb_eq.
        destruct (generated_on_period_day _ _ _ Hgen H1) as [_ ->].
        destruct (generated_on_period_day _ _ _ Hgen H2) as [_ ->]. reflexivity.
    - apply negb_true_iff. apply Nat.eqb_neq. exact Hids. }
  assert (Hc : In (at_most_one e s1 s2) (one_shift_per_day_constraints config shifts)).
  { unfold one_shift_per_day_constraints.
    apply in_flat_map. exists e. split; [exact He|].
    apply in_flat_map. exists s1. split; [exact H1|].
    apply in_map. exact Hsame. }
  specialize (Hholds _ (or_intror (or_intror (or_introl Hc)))).
  unfold holds, at_most_one, eval, x in Hholds. simpl in Hholds.
  rewrite Hid, Hv1, Hv2 in Hholds. discriminate Hholds.
Qed.

Lemma one_shift_per_date_witness :
  solved_schedule Samples.two_shifts Samples.split_day
  = Some [Samples.morning_shift; Samples.evening_shift] /\
  Samples.morning_shift <> Samples.evening_shift /\
  DateTime.date (Shift.date Samples.morning_shift)
  = DateTime.date (Shift.date Samples.evening_shift) /\
  In "emp-1"%string
     (assigned_employees Samples.two_shifts Samples.split_day Samples.morning_shift) /\
  ~ In "emp-1"%string
       (assigned_employees Samples.two_shifts Samples.split_day Samples.evening_shift).
Proof.
  split; [vm_compute; reflexivity|].
  split; [discriminate|].
  split; [reflexivity|].
  split; [left; reflexivity|].
  apply (one_shift_per_date Samples.two_shifts Samples.split_day
           [Samples.morning_shift; Samples.evening_shift]
           ltac:(vm_compute; reflexivity)
           Samples.morning_shift Samples.evening_shift "emp-1"%string).
  - left. reflexivity.
  - right. left. reflexivity.
  - discriminate.
  - reflexivity.
  - left. reflexivity.
Defined.

(** ** Weeks *)

Lemma key_eqb_eq (a b : Z * Z) : key_eqb a b = true <-> a = b.
Proof.
  destruct a as [a1 a2], b as [b1 b2]. unfold key_eqb. simpl.
  rewrite andb_true_iff, !Z.eqb_eq. split.
  - intros [-> ->]. reflexivity.
  - intros H. injection H as -> ->. split; reflexivity.
Qed.

Lemma key_eqb_refl (a : Z * Z) : key_eqb a a = true.
Proof. apply key_eqb_eq. reflexivity. Qed.

(** The start of the week is a Monday. *)
Lemma monday_of_weekday (d : DateTime.t) : (monday_of d + 6) mod 7 = 0.
Proof.
  unfold monday_of, DateTime.weekday.
  pose proof (Z.div_mod (DateTime.toordinal d + 6) 7 ltac:(lia)) as H.
  replace (DateTime.toordinal d - (DateTime.toordinal d + 6) mod 7 + 6)
    with (((DateTime.toordinal d + 6) / 7) * 7) by lia.
  apply Z.mod_mul. lia.
Qed.

Lemma week_start_ordinal (shift : Shift.t) :
  DateTime.toordinal (week_start shift) = monday_of (Shift.date shift).
Proof. unfold week_start, monday_of, DateTime.add_days. simpl. lia. Qed.

(** The key ['%Y-%W'] of the Monday determines the Monday: two shifts have
    the same key exactly when their weeks start on the same day. *)
Lemma week_key_monday (s1 s2 : Shift.t) :
  key_eqb (week_key s1) (week_key s2)
  = (monday_of (Shift.date s1) =? monday_of (Shift.date s2)).
Proof.
  destruct (monday_of (Shift.date s1) =? monday_of (Shift.date s2)) eqn:Hm.
  - apply Z.eqb_eq in Hm. apply key_eqb_eq.
    unfold week_key, DateTime.strftime_Y_W, DateTime.year, DateTime.yday0, DateTime.weekday,
      DateTime.year.
    rewrite !week_start_ordinal, Hm. reflexivity.
  - apply not_true_is_false. intros H. apply key_eqb_eq in H.
    apply Z.eqb_neq in Hm. apply Hm.
    unfold week_key, DateTime.strftime_Y_W, DateTime.year, DateTime.yday0, DateTime.weekday,
      DateTime.year in H.
    rewrite !week_start_ordinal in H.
    pose proof (monday_of_weekday (Shift.date s1)) as M1.
    pose proof (monday_of_weekday (Shift.date s2)) as M2.
    set (m1 := monday_of (Shift.date s1)) in *.
    set (m2 := monday_of (Shift.date s2)) in *.
    injection H as Hy Hw. rewrite <- Hy in Hw.
    set (c := DateTime.days_before_year (DateTime.year_of_ordinal m1)) in *.
    rewrite M1, M2 in Hw.
    pose proof (Z.div_mod (m1 - c - 1 + 7 - 0) 7 ltac:(lia)) as D1.
    pose proof (Z.div_mod (m2 - c - 1 + 7 - 0) 7 ltac:(lia)) as D2.
    pose proof (Z.mod_pos_bound (m1 - c - 1 + 7 - 0) 7 ltac:(lia)) as B1.
    pose proof (Z.mod_pos_bound (m2 - c - 1 + 7 - 0) 7 ltac:(lia)) as B2.
    pose proof (Z.div_mod (m1 + 6) 7 ltac:(lia)) as E1.
    pose proof (Z.div_mod (m2 + 6) 7 ltac:(lia)) as E2.
    lia.
Qed.

Lemma filter_none {A : Type} (p : A -> bool) (l : list A) :
  (forall a, In a l -> p a = false) -> filter p l = [].
Proof.
  induction l as [|a l IH]; intros H; simpl; [reflexivity|].
  rewrite (H a (or_introl eq_refl)). apply IH. intros b Hb. apply H. right. exact Hb.
Qed.

Lemma add_to_week_keys (key : Z * Z) (shift : Shift.t)
    (groups : list ((Z * Z) * list Shift.t)) :
  (In key (map fst groups) /\ map fst (add_to_week key shift groups) = map fst groups)
  \/ (~ In key (map fst groups)
      /\ map fst (add_to_week key shift groups) = map fst groups ++ [key]).
Proof.
  induction groups as [|[k ws] rest IH]; simpl.
  - right. split; [tauto | reflexivity].
  - destruct (key_eqb k key) eqn:Hk.
    + apply key_eqb_eq in Hk. subst k. left. split; [left; reflexivity | reflexivity].
    + assert (Hne : k <> key) by (intros ->; rewrite key_eqb_refl in Hk; discriminate).
      destruct IH as [[Hin Heq]|[Hnin Heq]]; simpl; rewrite Heq.
      * left. split; [right; exact Hin | reflexivity].
      * right. split; [|reflexivity]. intros [H|H]; [exact (Hne H) | exact (Hnin H)].
Qed.

Lemma add_to_week_In (key : Z * Z) (shift : Shift.t)
    (groups : list ((Z * Z) * list Shift.t)) :
  NoDup (map fst groups) ->
  forall k ws',
    In (k, ws') (add_to_week key shift groups) ->
    (k <> key /\ In (k, ws') groups)
    \/ (k = key /\ exists ws, In (key, ws) groups /\ ws' = ws ++ [shift])
    \/ (k = key /\ ~ In key (map fst groups) /\ ws' = [shift]).
Proof.
  induction groups as [|[k0 ws0] rest IH]; simpl; intros Hn k ws' Hin.
  - destruct Hin as [Hin|[]]. injection Hin as <- <-.
    right. right. split; [reflexivity|]. split; [tauto | reflexivity].
  - inversion Hn as [|? ? Hnot Hrest]; subst.
    destruct (key_eqb k0 key) eqn:Hk.
    + apply key_eqb_eq in Hk. subst k0.
      destruct Hin as [Hin|Hin].
      * injection Hin as <- <-. right. left. split; [reflexivity|].
        exists ws0. split; [left; reflexivity | reflexivity].
      * left. split; [|right; exact Hin].
        intros ->. apply Hnot. change key with (fst (key, ws')). apply in_map. exact Hin.
    + assert (Hne : k0 <> key) by (intros ->; rewrite key_eqb_refl in Hk; discriminate).
      destruct Hin as [Hin|Hin].
      * injection Hin as <- <-. left. split; [exact Hne | left; reflexivity].
      * destruct (IH Hrest _ _ Hin) as [[H1 H2]|[[H1 [ws [H2 H3]]]|[H1 [H2 H3]]]].
        -- left. split; [exact H1 | right; exact H2].
        -- right. left. split; [exact H1|]. exists ws. split; [right; exact H2 | exact H3].
        -- right. right. split; [exact H1|]. split; [|exact H3].
           intros [H|H]; [exact (Hne H) | exact (H2 H)].
Qed.

Lemma grouped_step (processed : list Shift.t) (groups : list ((Z * Z) * list Shift.t))
    (shift : Shift.t) :
  grouped processed groups ->
  grouped (processed ++ [shift]) (add_to_week (week_key shift) shift groups).
Proof.
  intros [Hn [Hg Hk]]. split; [|split].
  - destruct (add_to_week_keys (week_key shift) shift groups) as [[_ ->]|[Hnin ->]].
    + exact Hn.
    + apply NoDup_app; [exact Hn | constructor; [tauto | constructor] |].
      intros a Ha [<-|[]]. exact (Hnin Ha).
  - intros k ws' Hin. rewrite filter_app. simpl.
    destruct (add_to_week_In _ _ _ Hn _ _ Hin)
      as [[H1 H2]|[[H1 [ws [H2 H3]]]|[H1 [H2 H3]]]].
    + assert (Hf : key_eqb (week_key shift) k = false).
      { apply not_true_is_false. intros H. apply key_eqb_eq in H. auto. }
      rewrite Hf, app_nil_r. apply Hg. exact H2.
    + subst k ws'. rewrite key_eqb_refl. f_equal. apply Hg. exact H2.
    + subst k ws'. rewrite key_eqb_refl.
      rewrite filter_none; [reflexivity|].
      intros p Hp. apply not_true_is_false. intros H. apply key_eqb_eq in H.
      apply H2. rewrite <- H. apply Hk. exact Hp.
  - intros s Hs. apply in_app_or in Hs.
    destruct (add_to_week_keys (week_key shift) shift groups) as [[Hin ->]|[Hnin ->]].
    + destruct Hs as [Hs|[<-|[]]]; [apply Hk; exact Hs | exact Hin].
    + apply in_or_app. destruct Hs as [Hs|[<-|[]]].
      * left. apply Hk. exact Hs.
      * right. left. reflexivity.
Qed.

Lemma fold_add_to_week_grouped (rest : list Shift.t) :
  forall processed groups,
    grouped processed groups ->
    grouped (processed ++ rest)
            (fold_left (fun groups shift => add_to_week (week_key shift) shift groups)
                       rest groups).
Proof.
  induction rest as [|s rest IH]; intros processed groups H; simpl.
  - rewrite app_nil_r. exact H.
  - replace (processed ++ s :: rest) with ((processed ++ [s]) ++ rest)
      by (rewrite <- app_assoc; reflexivity).
    apply IH. apply grouped_step. exact H.
Qed.

Lemma shifts_by_week_grouped (shifts : list Shift.t) :
  grouped shifts (shifts_by_week shifts).
Proof.
  unfold shifts_by_week.
  apply (fold_add_to_week_grouped shifts [] []).
  split; [constructor|]. split; intros; contradiction.
Qed.




(** ** Availability *)

Lemma is_available_true (slots : list AvailabilitySlot.t) (dow ss se : Z) :
  is_available slots dow ss se = Return true ->
  exists slot slot_start slot_end,
    In slot slots /\
    parse_time (AvailabilitySlot.startTime slot) = Return slot_start /\
    parse_time (AvailabilitySlot.endTime slot) = Return slot_end /\
    dow = AvailabilitySlot.dayOfWeek slot /\ slot_start <= ss /\ se <= slot_end.
Proof.
  induction slots as [|slot rest IH]; simpl; intros H; [discriminate|].
  bind_inv H. bind_inv H.
  destruct ((dow =? AvailabilitySlot.dayOfWeek slot) && (a <=? ss) && (se <=? a0)) eqn:Ht.
  - apply andb_prop in Ht. destruct Ht as [Ht H3]. apply andb_prop in Ht.
    destruct Ht as [H1 H2].
    apply Z.eqb_eq in H1. apply Z.leb_le in H2, H3.
    exists slot, a, a0. repeat split; try assumption. left. reflexivity.
  - destruct (IH H) as (s & a1 & b1 & Hin & Hrest).
    exists s, a1, b1. split; [right; exact Hin | exact Hrest].
Qed.

Lemma is_available_false (slots : list AvailabilitySlot.t) (dow ss se : Z) :
  is_available slots dow ss se = Return false ->
  forall slot slot_start slot_end,
    In slot slots ->
    parse_time (AvailabilitySlot.startTime slot) = Return slot_start ->
    parse_time (AvailabilitySlot.endTime slot) = Return slot_end ->
    ~ (dow = AvailabilitySlot.dayOfWeek slot /\ slot_start <= ss /\ se <= slot_end).
Proof.
  induction slots as [|s0 rest IH]; simpl; intros H slot a b Hin Ha Hb; [destruct Hin|].
  bind_inv H. bind_inv H.
  destruct ((dow =? AvailabilitySlot.dayOfWeek s0) && (a0 <=? ss) && (se <=? a1)) eqn:Ht;
    [discriminate|].
  destruct Hin as [<-|Hin].
  - rewrite Ha in Ha0. rewrite Hb in Ha1. injection Ha0 as <-. injection Ha1 as <-.
    intros [H1 [H2 H3]].
    apply Z.eqb_eq in H1. apply Z.leb_le in H2, H3.
    rewrite H1, H2, H3 in Ht. discriminate.
  - apply (IH H slot a b Hin Ha Hb).
Qed.

Lemma shift_available_covers (employee : Employee.t) (shift : Shift.t) (ok : bool) :
  shift_available employee shift = Return ok ->
  (ok = true <->
   exists slot, In slot (Employee.availability employee) /\ slot_covers slot shift).
Proof.
  unfold shift_available. intros H. bind_inv H. bind_inv H.
  destruct ok.
  - split; [intros _|reflexivity].
    destruct (is_available_true _ _ _ _ H) as (slot & a1 & b1 & Hin & Hs & He & Hd & H1 & H2).
    exists slot. split; [exact Hin|].
    exists a1, b1, a, a0. repeat split; assumption.
  - split; [discriminate|].
    intros [slot [Hin (a1 & b1 & ss & se & Hs & He & Hss & Hse & Hd & H1 & H2)]].
    exfalso. rewrite Ha in Hss. rewrite Ha0 in Hse.
    injection Hss as <-. injection Hse as <-.
    apply (is_available_false _ _ _ _ H slot a1 b1 Hin Hs He).
    repeat split; assumption.
Qed.

(** C5.  For an employee who declares availability, the availability pass
    fixes the variable of a shift to false unless some slot covers the
    shift (same weekday, start at or after the slot's start and end at or
    before the slot's end, in minutes); in a solved schedule such an
    employee is not assigned to a shift that no slot covers.  For an
    employee with no declared availability the pass adds nothing. *)
Theorem availability_rule (config : SchedulingConfig.t) (employee : Employee.t)
    (shift : Shift.t) :
  (Employee.availability employee = [] ->
   forall shifts, availability_of_employee shifts employee = Return []) /\
  (forall ok,
      shift_available employee shift = Return ok ->
      (ok = true <->
       exists slot, In slot (Employee.availability employee) /\ slot_covers slot shift) /\
      availability_of_shift employee shift
      = Return (if ok then [] else [Add (of_var (x employee shift)) EQ (const 0)])) /\
  (forall value shifts,
      solved_schedule config value = Some shifts ->
      In employee (SchedulingConfig.employees config) ->
      In shift shifts ->
      Employee.availability employee <> [] ->
      ~ (exists slot, In slot (Employee.availability employee) /\ slot_covers slot shift) ->
      value (x employee shift) = 0 /\
      ~ In (Employee.id employee) (assigned_employees config value shift)).
Proof.
  split; [|split].
  - intros Hnil shifts. unfold availability_of_employee. rewrite Hnil. reflexivity.
  - intros ok Hok. split; [apply shift_available_covers; exact Hok|].
    unfold availability_of_shift. rewrite Hok. reflexivity.
  - intros value shifts solved He Hs Hav Hno.
    destruct (solved_passes _ _ _ solved) as (c0 & c4 & c6 & H0 & _ & _ & Hholds).
    unfold availability_constraints in H0.
    destruct (concatM_In _ _ _ H0 employee He) as [ce [Hce Hi]].
    unfold availability_of_employee in Hce.
    destruct (Employee.availability employee) as [|slot0 slots] eqn:Hq; [contradiction|].
    destruct (concatM_In _ _ _ Hce shift Hs) as [cs [Hcs Hi']].
    unfold availability_of_shift in Hcs. bind_inv Hcs. injection Hcs as <-.
    destruct a.
    + exfalso. apply Hno. rewrite <- Hq.
      apply (shift_available_covers _ _ _ Ha). reflexivity.
    + assert (Hc : In (fixed_to_false employee shift) c0).
      { apply Hi, Hi'. left. reflexivity. }
      specialize (Hholds _ (or_introl Hc)).
      unfold holds, fixed_to_false, eval, eval_terms, of_var, const in Hholds.
      cbn [rel lhs rhs terms offset fold_right fst snd] in Hholds.
      apply Z.eqb_eq in Hholds.
      assert (Hv : value (x employee shift) = 0) by lia.
      split; [exact Hv|].
      intros Hin. apply assigned_employees_In in Hin. destruct Hin as [_ H1].
      unfold x in Hv. rewrite Hv in H1. discriminate.
Qed.

Lemma availability_rule_witness :
  let config := Samples.two_shifts in
  let shifts := [Samples.morning_shift; Samples.evening_shift] in
  Employee.availability Samples.cook = [] /\
  availability_of_employee shifts Samples.cook = Return [] /\
  shift_available Samples.morning_manager Samples.evening_shift = Return false /\
  ~ (exists slot, In slot (Employee.availability Samples.morning_manager)
                  /\ slot_covers slot Samples.evening_shift) /\
  solved_schedule config Samples.split_day = Some shifts /\
  Samples.split_day (x Samples.morning_manager Samples.evening_shift) = 0.
Proof.
  intros config shifts.
  destruct (availability_rule config Samples.cook Samples.evening_shift) as [Hnone _].
  destruct (availability_rule config Samples.morning_manager Samples.evening_shift)
    as [_ [Hpass Hsolved]].
  assert (Hav : shift_available Samples.morning_manager Samples.evening_shift = Return false)
    by (vm_compute; reflexivity).
  assert (Hno : ~ (exists slot, In slot (Employee.availability Samples.morning_manager)
                                /\ slot_covers slot Samples.evening_shift)).
  { intros Hex. apply (proj1 (Hpass false Hav)) in Hex. discriminate Hex. }
  split; [reflexivity|].
  split; [apply Hnone; reflexivity|].
  split; [exact Hav|].
  split; [exact Hno|].
  split; [vm_compute; reflexivity|].
  apply (Hsolved Samples.split_day shifts).
  - vm_compute. reflexivity.
  - left. reflexivity.
  - right. left. reflexivity.
  - discriminate.
  - exact Hno.
Defined.

(** ** The fairness cap *)

(** C9.  The fairness pass adds nothing unless the fairness weight is
    greater than 0.5; when it is, the pass adds for every employee the
    constraint that the employee's shifts number at most the floor of
    (shift instances / employees) plus 1, and in a solved schedule every
    employee has at most that many shift instances. *)
Theorem fairness_cap_rule (config : SchedulingConfig.t) (shifts : list Shift.t) :
  let weight := Constraints.prioritizeFairness (SchedulingConfig.constraints config) in
  let employees := SchedulingConfig.employees config in
  let cap := Z.of_nat (List.length shifts) / Z.of_nat (List.length employees) + 1 in
  (PyNum.float_gt weight PyNum.f0_5 = false ->
   fairness_cap_constraints config shifts = Return []) /\
  (PyNum.float_gt weight PyNum.f0_5 = true ->
   employees <> [] ->
   fairness_cap_constraints config shifts
   = Return (map (fun employee =>
                    Add (sum_vars (map (x employee) shifts)) LE (const cap))
                 employees)) /\
  (PyNum.float_gt weight PyNum.f0_5 = true ->
   forall value employee,
     solved_schedule config value = Some shifts ->
     In employee employees ->
     Z.of_nat (shifts_of_employee value employee shifts) <= cap).
Proof.
  intros weight employees cap.
  assert (Hpass : PyNum.float_gt weight PyNum.f0_5 = true ->
                  employees <> [] ->
                  fairness_cap_constraints config shifts
                  = Return (map (fun employee =>
                                   Add (sum_vars (map (x employee) shifts)) LE (const cap))
                                employees)).
  { intros Hw Hne. unfold fairness_cap_constraints. fold weight. rewrite Hw.
    fold employees. unfold int_floordiv.
    assert (Hlen : 0 < Z.of_nat (List.length employees)).
    { destruct employees; [contradiction | simpl; lia]. }
    destruct (Z.of_nat (List.length employees) =? 0) eqn:Hz;
      [apply Z.eqb_eq in Hz; lia|].
    simpl. f_equal. apply map_ext. intros e.
    unfold employee_total_shifts. f_equal. f_equal. unfold cap.
    assert (0 <= Z.of_nat (List.length shifts) / Z.of_nat (List.length employees))
      by (apply Z.div_pos; lia).
    lia. }
  split; [|split].
  - intros Hw. unfold fairness_cap_constraints. fold weight. rewrite Hw. reflexivity.
  - exact Hpass.
  - intros Hw value e solved He.
    destruct (solved_passes _ _ _ solved) as (c0 & c4 & c6 & _ & _ & H6 & Hholds).
    assert (Hne : employees <> []) by (intros Hn; rewrite Hn in He; destruct He).
    rewrite (Hpass Hw Hne) in H6. injection H6 as <-.
    assert (Hc : In (Add (sum_vars (map (x e) shifts)) LE (const cap))
                    (map (fun employee =>
                            Add (sum_vars (map (x employee) shifts)) LE (const cap))
                         employees)).
    { apply in_map_iff. exists e. split; [reflexivity | exact He]. }
    specialize (Hholds _ (or_intror (or_intror (or_intror (or_intror
                           (or_intror (or_intror Hc))))))).
    unfold holds in Hholds. cbn [rel lhs rhs] in Hholds. apply Z.leb_le in Hholds.
    rewrite eval_sum_vars_map in Hholds
      by (intros s Hs; apply (solved_boolean _ _ _ solved); assumption).
    unfold eval, const in Hholds. cbn [terms offset eval_terms fold_right] in Hholds.
    unfold shifts_of_employee, is_assigned. lia.
Qed.

Lemma fairness_cap_rule_witness :
  let config := Samples.two_shifts in
  let shifts := [Samples.morning_shift; Samples.evening_shift] in
  PyNum.float_gt (Constraints.prioritizeFairness (SchedulingConfig.constraints config))
                 PyNum.f0_5 = true /\
  SchedulingConfig.employees config <> [] /\
  solved_schedule config Samples.split_day = Some shifts /\
  fairness_cap_constraints config shifts
  = Return [Add (sum_vars (map (x Samples.morning_manager) shifts)) LE (const 2);
            Add (sum_vars (map (x Samples.cook) shifts)) LE (const 2)] /\
  Z.of_nat (shifts_of_employee Samples.split_day Samples.morning_manager shifts) <= 2.
Proof.
  intros config shifts.
  destruct (fairness_cap_rule config shifts) as [_ [Hpass Hsolved]].
  split; [vm_compute; reflexivity|].
  split; [discriminate|].
  split; [vm_compute; reflexivity|].
  split.
  - apply (Hpass ltac:(vm_compute; reflexivity) ltac:(discriminate)).
  - apply (Hsolved ltac:(vm_compute; reflexivity) Samples.split_day Samples.morning_manager
                   ltac:(vm_compute; reflexivity) ltac:(left; reflexivity)).
Defined.

(** A weight of exactly 0.5 does not activate the cap. *)
Example fairness_cap_at_one_half :
  PyNum.float_gt (Samples.literal 5 10) PyNum.f0_5 = false /\
  PyNum.float_gt (Samples.literal 7 10) PyNum.f0_5 = true.
Proof. split; reflexivity. Qed.

(** ** The result by solver status *)

Lemma optimize_schedule_run (solve : Solver) (config : SchedulingConfig.t)
    (status : CpSolverStatus) :
  solver_status solve config = Some status ->
  exists shifts model value,
    generate_shifts config = Return shifts /\
    build_model config shifts = Return model /\
    solve model = (status, value) /\
    optimize_schedule solve config
    = if has_solution status then extract_solution config value shifts
      else Return no_solution.
Proof.
  unfold solver_status, optimize_schedule. intros H.
  destruct (generate_shifts config) as [shifts|] eqn:Hg; [|discriminate].
  destruct (build_model config shifts) as [model|] eqn:Hm; [|discriminate].
  injection H as H. simpl. rewrite Hm. simpl.
  destruct (solve model) as [st value] eqn:Hs. simpl in H. subst st.
  exists shifts, model, value. repeat split; try reflexivity; assumption.
Qed.

(** C8.  When the model is compiled and the solver reports neither OPTIMAL
    nor FEASIBLE, the result is the one with no shifts and the single hard
    violation; when it reports OPTIMAL or FEASIBLE, a returned result has
    no violations. *)
Theorem violations_by_status (solve : Solver) (config : SchedulingConfig.t)
    (status : CpSolverStatus) :
  solver_status solve config = Some status ->
  (has_solution status = false ->
   exists r violation,
     optimize_schedule solve config = Return r /\
     ScheduleResult.shifts r = [] /\
     ScheduleResult.violations r = [violation] /\
     ConstraintViolation.type violation = hard) /\
  (has_solution status = true ->
   forall r, optimize_schedule solve config = Return r ->
             ScheduleResult.violations r = []).
Proof.
  intros H.
  destruct (optimize_schedule_run _ _ _ H) as (shifts & model & value & _ & _ & _ & Hrun).
  split; intros Hs; rewrite Hs in Hrun.
  - exists no_solution. eexists. split; [exact Hrun|]. repeat split; reflexivity.
  - intros r Hr. rewrite Hrun in Hr. unfold extract_solution in Hr.
    bind_inv Hr. bind_inv Hr. bind_inv Hr. injection Hr as <-. reflexivity.
Qed.

Lemma violations_by_status_witness :
  let solved := fun _ : CpModel.t => (OPTIMAL, Samples.everyone) in
  let failed := fun _ : CpModel.t => (INFEASIBLE, Samples.nobody) in
  solver_status solved Samples.single = Some OPTIMAL /\
  solver_status failed Samples.single = Some INFEASIBLE /\
  (exists r, optimize_schedule solved Samples.single = Return r
             /\ ScheduleResult.violations r = []) /\
  (exists r violation,
      optimize_schedule failed Samples.single = Return r /\
      ScheduleResult.shifts r = [] /\
      ScheduleResult.violations r = [violation] /\
      ConstraintViolation.type violation = hard).
Proof.
  intros solved failed.
  split; [vm_compute; reflexivity|].
  split; [vm_compute; reflexivity|].
  split.
  - destruct (violations_by_status solved Samples.single OPTIMAL
                ltac:(vm_compute; reflexivity)) as [_ Hok].
    eexists. split; [vm_compute; reflexivity|].
    apply (Hok eq_refl). vm_compute. reflexivity.
  - destruct (violations_by_status failed Samples.single INFEASIBLE
                ltac:(vm_compute; reflexivity)) as [Hfail _].
    apply (Hfail eq_refl).
Defined.

(** ** The float of an int

    Facts about binary64 rounding, read on the mantissa and the exponent. *)

Lemma digits2_pos_least (p : positive) : 2 ^ (Z.pos (digits2_pos p) - 1) <= Z.pos p.
Proof.
  induction p as [p IH|p IH|]; cbn [digits2_pos]; [| |simpl; lia].
  - rewrite Pos2Z.inj_succ.
    replace (Z.succ (Z.pos (digits2_pos p)) - 1)
      with (Z.succ (Z.pos (digits2_pos p) - 1)) by lia.
    rewrite Z.pow_succ_r by lia. lia.
  - rewrite Pos2Z.inj_succ.
    replace (Z.succ (Z.pos (digits2_pos p)) - 1)
      with (Z.succ (Z.pos (digits2_pos p) - 1)) by lia.
    rewrite Z.pow_succ_r by lia. lia.
Qed.

Lemma shr_1_least (mrs : shr_record) (k : Z) :
  0 <= k -> 2 ^ (k + 1) <= shr_m mrs -> 2 ^ k <= shr_m (shr_1 mrs).
Proof.
  intros Hk H. rewrite Z.pow_add_r in H by lia. change (2 ^ 1) with 2 in H.
  destruct mrs as [m r s]. simpl in *.
  assert (0 < 2 ^ k) by (apply Z.pow_pos_nonneg; lia).
  destruct m as [|[p|p|]|p]; simpl; lia.
Qed.

Lemma iter_shr_1_least (n : positive) :
  forall (mrs : shr_record) (k : Z),
    0 <= k -> 2 ^ (k + Z.pos n) <= shr_m mrs -> 2 ^ k <= shr_m (iter_pos shr_1 n mrs).
Proof.
  induction n as [n IH|n IH|]; intros mrs k Hk H; simpl.
  - apply IH; [exact Hk|]. apply IH; [lia|]. apply shr_1_least; [lia|].
    replace (k + Z.pos n + Z.pos n + 1) with (k + Z.pos n~1) by lia. exact H.
  - apply IH; [exact Hk|]. apply IH; [lia|].
    replace (k + Z.pos n + Z.pos n) with (k + Z.pos n~0) by lia. exact H.
  - apply shr_1_least; assumption.
Qed.

Lemma shr_record_of_loc_m (m : Z) (l : location) : shr_m (shr_record_of_loc m l) = m.
Proof. destruct l as [|[| |]]; reflexivity. Qed.

(** The shift to the exponent of the format keeps a positive mantissa
    positive when the exponent is not below the least one. *)
Lemma shr_fexp_positive (m e : Z) (l : location) :
  1 <= m -> -1074 <= e ->
  1 <= shr_m (fst (shr_fexp 53 1024 m e l)) /\ -1074 <= snd (shr_fexp 53 1024 m e l).
Proof.
  intros Hm He. unfold shr_fexp, shr.
  destruct m as [|p|p]; try lia.
  pose proof (digits2_pos_least p) as Hd.
  change (Zdigits2 (Z.pos p)) with (Z.pos (digits2_pos p)).
  set (d := Z.pos (digits2_pos p)) in *.
  assert (Hdpos : 1 <= d) by (unfold d; lia).
  destruct (fexp 53 1024 (d + e) - e) as [|n|n] eqn:Hn; simpl fst; simpl snd.
  - rewrite shr_record_of_loc_m. lia.
  - split; [|lia].
    assert (Hlt : Z.pos n <= d - 1) by (unfold fexp, emin in Hn; lia).
    apply Z.le_trans with (2 ^ (d - 1 - Z.pos n)).
    + assert (0 < 2 ^ (d - 1 - Z.pos n)) by (apply Z.pow_pos_nonneg; lia). lia.
    + apply iter_shr_1_least; [lia|]. rewrite shr_record_of_loc_m.
      replace (d - 1 - Z.pos n + Z.pos n) with (d - 1) by lia. exact Hd.
  - rewrite shr_record_of_loc_m. lia.
Qed.

(** Rounding a positive mantissa at an exponent of the format gives a
    number of the given sign that is not zero. *)
Lemma binary_round_aux_positive (sx : bool) (m e : Z) (l : location) :
  1 <= m -> -1074 <= e ->
  match binary_round_aux 53 1024 sx m e l with
  | S754_finite s _ _ | S754_infinity s => s = sx
  | _ => False
  end.
Proof.
  intros Hm He. unfold binary_round_aux.
  destruct (shr_fexp_positive m e l Hm He) as [H1 H1e].
  destruct (shr_fexp 53 1024 m e l) as [mrs1 e1]. simpl in H1, H1e.
  set (m1 := round_nearest_even (shr_m mrs1) (loc_of_shr_record mrs1)).
  assert (Hr : 1 <= m1).
  { unfold m1, round_nearest_even.
    destruct (loc_of_shr_record mrs1) as [|[| |]]; try lia.
    destruct (Z.even (shr_m mrs1)); lia. }
  destruct (shr_fexp_positive m1 e1 loc_Exact Hr H1e) as [H2 _].
  destruct (shr_fexp 53 1024 m1 e1 loc_Exact) as [mrs2 e2]. simpl in H2.
  destruct (shr_m mrs2) as [|q|q]; [lia | | lia].
  destruct (e2 <=? 1024 - 53); reflexivity.
Qed.

(** [float(n)] for a non-zero int has the sign of [n] and is not zero. *)
Lemma float_of_Z_sign (n : Z) :
  n <> 0 ->
  match PyNum.float_of_Z n with
  | S754_finite s _ _ | S754_infinity s => s = (n <? 0)
  | _ => False
  end.
Proof.
  intros Hn. unfold PyNum.float_of_Z, PyNum.prec, PyNum.emax, binary_normalize.
  assert (H : forall s p, match binary_round 53 1024 s p 0 with
                          | S754_finite s' _ _ | S754_infinity s' => s' = s
                          | _ => False
                          end).
  { intros s p. unfold binary_round, shl_align.
    destruct (fexp 53 1024 (Z.pos (digits2_pos p) + 0) - 0) as [|d|d] eqn:Hd.
    - apply binary_round_aux_positive; lia.
    - apply binary_round_aux_positive; lia.
    - apply binary_round_aux_positive; [lia|]. unfold fexp, emin in *. lia. }
  destruct n as [|p|p]; [contradiction | apply (H false p) | apply (H true p)].
Qed.

Lemma float_of_Z_nonzero (n : Z) :
  n <> 0 -> PyNum.is_zero (PyNum.float_of_Z n) = false.
Proof.
  intros Hn. pose proof (float_of_Z_sign n Hn) as H.
  destruct (PyNum.float_of_Z n); [contradiction | | |]; reflexivity.
Qed.

(** ** The utilization percentage *)

Lemma utilization_by_zero (total : PyNum.number) (employee : Employee.t) :
  Employee.maxHoursPerWeek employee = 0 ->
  utilization_percentage total employee = Raise ZeroDivisionError.
Proof.
  intros H. unfold utilization_percentage. rewrite H.
  destruct total; reflexivity.
Qed.

Lemma utilization_loop_fails (config : SchedulingConfig.t)
    (generated : list GeneratedShift.t) (emps : list Employee.t) :
  (exists employee, In employee emps /\ Employee.maxHoursPerWeek employee = 0) ->
  forall total, exists e, utilization_loop config generated emps total = Raise e.
Proof.
  induction emps as [|e0 rest IH]; intros [e [Hin Hz]] total; [destruct Hin|].
  simpl.
  destruct (hours_of config _ _) as [hours|ex]; [simpl|eexists; reflexivity].
  destruct (PyNum.add total hours) as [total'|ex]; [simpl|eexists; reflexivity].
  destruct (utilization_percentage hours e0) as [p|ex] eqn:Hp; [simpl|eexists; reflexivity].
  destruct (PyNum.to_float hours) as [h|ex]; [simpl|eexists; reflexivity].
  destruct Hin as [<-|Hin].
  - rewrite (utilization_by_zero _ _ Hz) in Hp. discriminate.
  - destruct (IH (ex_intro _ e (conj Hin Hz)) total') as [ex ->].
    eexists. reflexivity.
Qed.

Lemma hours_of_plain (config : SchedulingConfig.t) (l : list GeneratedShift.t) :
  forall total, plain total ->
                exists total', hours_of config l total = Return total' /\ plain total'.
Proof.
  induction l as [|s l IH]; intros total Hp; simpl.
  - exists total. split; [reflexivity | exact Hp].
  - destruct (find _ _) as [st|]; [|apply IH; exact Hp].
    destruct total as [z|f]; simpl in Hp.
    + subst z. simpl. apply IH. exact I.
    + simpl. apply IH. exact I.
Qed.

Lemma add_plain (a b : PyNum.number) :
  plain a -> plain b -> exists c, PyNum.add a b = Return c /\ plain c.
Proof.
  destruct a as [x|f], b as [y|g]; simpl; intros Ha Hb; subst.
  - eexists. split; [reflexivity | reflexivity].
  - eexists. split; [reflexivity | exact I].
  - eexists. split; [reflexivity | exact I].
  - eexists. split; [reflexivity | exact I].
Qed.

Lemma utilization_plain (total : PyNum.number) (employee : Employee.t) :
  plain total ->
  fits_double (Employee.maxHoursPerWeek employee) = true ->
  utilization_percentage total employee = Raise ZeroDivisionError
  \/ exists p, utilization_percentage total employee = Return p.
Proof.
  intros Hp Hf. unfold utilization_percentage, fits_double in *.
  destruct total as [z|f]; simpl in *.
  - subst z. unfold PyNum.int_truediv.
    destruct (Employee.maxHoursPerWeek employee =? 0); [left; reflexivity|].
    right. simpl. eexists. reflexivity.
  - unfold PyNum.float_of_int.
    destruct (PyNum.float_of_Z (Employee.maxHoursPerWeek employee)) as [s|s| |s m e];
      try discriminate; simpl.
    + left. reflexivity.
    + right. eexists. reflexivity.
    + right. eexists. reflexivity.
Qed.

Lemma utilization_loop_zero_division (config : SchedulingConfig.t)
    (generated : list GeneratedShift.t) (emps : list Employee.t) :
  forallb (fun e => fits_double (Employee.maxHoursPerWeek e)) emps = true ->
  (exists employee, In employee emps /\ Employee.maxHoursPerWeek employee = 0) ->
  forall total, plain total ->
                utilization_loop config generated emps total = Raise ZeroDivisionError.
Proof.
  induction emps as [|e0 rest IH]; intros Hfit [e [Hin Hz]] total Hp; [destruct Hin|].
  simpl in Hfit. apply andb_prop in Hfit. destruct Hfit as [Hf0 Hfit].
  simpl.
  destruct (hours_of_plain config (filter (works e0) generated) (PyNum.PyInt 0) eq_refl)
    as [hours [-> Hh]]. simpl.
  destruct (add_plain total hours Hp Hh) as [total' [-> Ht]]. simpl.
  destruct (utilization_plain hours e0 Hh Hf0) as [->|[p Hpct]]; [reflexivity|].
  rewrite Hpct. simpl.
  assert (Hto : exists h, PyNum.to_float hours = Return h).
  { destruct hours as [z|f]; simpl in *; [subst z|]; eexists; reflexivity. }
  destruct Hto as [h ->]. simpl.
  destruct Hin as [<-|Hin].
  - rewrite (utilization_by_zero _ _ Hz) in Hpct. discriminate.
  - rewrite (IH Hfit (ex_intro _ e (conj Hin Hz)) total' Ht). reflexivity.
Qed.

(** The percentage as a function of the hours and of the weekly maximum. *)
Lemma utilization_formula (total : PyNum.number) (employee : Employee.t)
    (p : PyNum.float) :
  plain total ->
  utilization_percentage total employee = Return p ->
  Employee.maxHoursPerWeek employee <> 0 /\
  exists hours,
    PyNum.to_float total = Return hours /\
    p = PyNum.float_mul
          (SFdiv PyNum.prec PyNum.emax hours
                 (PyNum.float_of_Z (Employee.maxHoursPerWeek employee)))
          (PyNum.float_of_Z 100).
Proof.
  intros Hplain Hp.
  assert (Hz : Employee.maxHoursPerWeek employee <> 0).
  { intros Hz. rewrite (utilization_by_zero _ _ Hz) in Hp. discriminate Hp. }
  split; [exact Hz|].
  unfold utilization_percentage in Hp.
  destruct total as [z|f]; simpl in Hplain.
  - subst z. exists (PyNum.float_of_Z 0). split; [reflexivity|].
    unfold PyNum.truediv_int, PyNum.int_truediv in Hp.
    apply Z.eqb_neq in Hz. rewrite Hz in Hp. cbn [bind] in Hp.
    change (0 =? 0) with true in Hp. cbv iota in Hp. cbn [bind] in Hp.
    unfold PyNum.float_mul_int in Hp.
    change (PyNum.float_of_int 100) with (Return (PyNum.float_of_Z 100)) in Hp.
    cbn [bind] in Hp. injection Hp as <-. f_equal.
    apply Z.eqb_neq in Hz. pose proof (float_of_Z_sign _ Hz) as Hs.
    change (PyNum.float_of_Z 0) with (S754_zero false).
    destruct (PyNum.float_of_Z (Employee.maxHoursPerWeek employee)) as [s|s| |s m e];
      try contradiction; simpl; rewrite Hs; reflexivity.
  - exists f. split; [reflexivity|].
    unfold PyNum.truediv_int, PyNum.float_of_int, PyNum.float_truediv in Hp.
    destruct (PyNum.float_of_Z (Employee.maxHoursPerWeek employee)) as [s|s| |s m e];
      cbn [bind PyNum.is_zero] in Hp; try discriminate Hp;
      unfold PyNum.float_mul_int in Hp;
      change (PyNum.float_of_int 100) with (Return (PyNum.float_of_Z 100)) in Hp;
      cbn [bind] in Hp; injection Hp as <-; reflexivity.
Qed.

Lemma utilization_loop_formula (config : SchedulingConfig.t)
    (generated : list GeneratedShift.t) (emps : list Employee.t) :
  forall total entries total',
    plain total ->
    utilization_loop config generated emps total = Return (entries, total') ->
    Forall2 (fun entry employee =>
               EmployeeUtilization.utilizationPercentage entry
               = PyNum.float_mul
                   (SFdiv PyNum.prec PyNum.emax (EmployeeUtilization.totalHours entry)
                          (PyNum.float_of_Z (Employee.maxHoursPerWeek employee)))
                   (PyNum.float_of_Z 100))
            entries emps.
Proof.
  induction emps as [|e rest IH]; intros total entries total' Hplain H; simpl in H.
  - injection H as <- <-. constructor.
  - destruct (hours_of_plain config (filter (works e) generated) (PyNum.PyInt 0) eq_refl)
      as [hours [Hh Hhp]].
    rewrite Hh in H. cbn [bind] in H.
    destruct (add_plain total hours Hplain Hhp) as [total1 [Ht Htp]].
    rewrite Ht in H. cbn [bind] in H.
    bind_inv H. bind_inv H. bind_inv H. injection H as <- <-.
    destruct a1 as [more t]. simpl.
    constructor; [|apply (IH _ _ _ Htp Ha1)].
    simpl.
    destruct (utilization_formula hours e a Hhp Ha) as [_ [h [Hto ->]]].
    rewrite Hto in Ha0. injection Ha0 as <-. reflexivity.
Qed.

(** C10 (as amended).  The utilization percentage of an employee is the
    float [(totalHours / maxHoursPerWeek) * 100], computed with no test of
    the divisor: with a maximum of 0 the computation raises
    [ZeroDivisionError], it returns a value only if the maximum is not 0,
    and every entry of a returned result carries that product of its total
    hours.  When the solver reports a solution and some employee has a
    maximum of 0, [optimize_schedule] returns no result: it raises, and the
    exception is [ZeroDivisionError] whenever the maxima of the employees
    are in the range of a float. *)
Theorem utilization_division_by_zero :
  (forall total employee,
      Employee.maxHoursPerWeek employee = 0 ->
      utilization_percentage total employee = Raise ZeroDivisionError) /\
  (forall total employee p,
      utilization_percentage total employee = Return p ->
      Employee.maxHoursPerWeek employee <> 0) /\
  (forall total employee p,
      plain total ->
      utilization_percentage total employee = Return p ->
      exists hours,
        PyNum.to_float total = Return hours /\
        p = PyNum.float_mul
              (SFdiv PyNum.prec PyNum.emax hours
                     (PyNum.float_of_Z (Employee.maxHoursPerWeek employee)))
              (PyNum.float_of_Z 100)) /\
  (forall solve config status r,
      solver_status solve config = Some status ->
      has_solution status = true ->
      optimize_schedule solve config = Return r ->
      Forall2 (fun entry employee =>
                 EmployeeUtilization.utilizationPercentage entry
                 = PyNum.float_mul
                     (SFdiv PyNum.prec PyNum.emax (EmployeeUtilization.totalHours entry)
                            (PyNum.float_of_Z (Employee.maxHoursPerWeek employee)))
                     (PyNum.float_of_Z 100))
              (ScheduleAnalytics.employeeUtilization (ScheduleResult.analytics r))
              (SchedulingConfig.employees config)) /\
  (forall solve config status employee,
      solver_status solve config = Some status ->
      has_solution status = true ->
      In employee (SchedulingConfig.employees config) ->
      Employee.maxHoursPerWeek employee = 0 ->
      (exists e, optimize_schedule solve config = Raise e) /\
      (forallb (fun e => fits_double (Employee.maxHoursPerWeek e))
               (SchedulingConfig.employees config) = true ->
       optimize_schedule solve config = Raise ZeroDivisionError)).
Proof.
  split; [exact utilization_by_zero|]. split; [|split; [|split]].
  - intros total e p Hp Hz. rewrite (utilization_by_zero _ _ Hz) in Hp. discriminate.
  - intros total e p Hplain Hp. apply (utilization_formula total e p Hplain Hp).
  - intros solve config status r Hst Hsol Hr.
    destruct (optimize_schedule_run _ _ _ Hst)
      as (shifts & model & value & _ & _ & _ & Hrun).
    rewrite Hsol in Hrun. rewrite Hrun in Hr. unfold extract_solution in Hr.
    bind_inv Hr. bind_inv Hr. bind_inv Hr. injection Hr as <-.
    destruct a as [entries total]. simpl.
    apply (utilization_loop_formula config (map (generated_shift config value) shifts)
             (SchedulingConfig.employees config) (PyNum.PyInt 0) entries total);
      [reflexivity | exact Ha].
  - intros solve config status e Hst Hsol He Hz.
    destruct (optimize_schedule_run _ _ _ Hst)
      as (shifts & model & value & _ & _ & _ & Hrun).
    rewrite Hsol in Hrun. rewrite Hrun. unfold extract_solution.
    split.
    + destruct (utilization_loop_fails config (map (generated_shift config value) shifts)
                  (SchedulingConfig.employees config)
                  (ex_intro _ e (conj He Hz)) (PyNum.PyInt 0)) as [ex ->].
      exists ex. reflexivity.
    + intros Hfit.
      rewrite (utilization_loop_zero_division config _ _ Hfit
                 (ex_intro _ e (conj He Hz)) (PyNum.PyInt 0) eq_refl).
      reflexivity.
Qed.

Lemma utilization_division_by_zero_witness :
  let solve := fun _ : CpModel.t => (OPTIMAL, Samples.manager_only) in
  Employee.maxHoursPerWeek Samples.idle = 0 /\
  In Samples.idle (SchedulingConfig.employees Samples.with_idle) /\
  solver_status solve Samples.with_idle = Some OPTIMAL /\
  (exists shifts, solved_schedule Samples.with_idle Samples.manager_only = Some shifts) /\
  utilization_percentage (PyNum.PyFloat PyNum.f8) Samples.idle = Raise ZeroDivisionError /\
  utilization_percentage (PyNum.PyFloat PyNum.f8) Samples.manager
  = Return (PyNum.float_of_Z 20) /\
  optimize_schedule solve Samples.with_idle = Raise ZeroDivisionError.
Proof.
  intros solve.
  destruct utilization_division_by_zero as [Hzero [_ [Hformula [_ Hrun]]]].
  split; [reflexivity|].
  split; [right; left; reflexivity|].
  split; [vm_compute; reflexivity|].
  split; [eexists; vm_compute; reflexivity|].
  split; [apply Hzero; reflexivity|].
  split.
  - destruct (utilization_percentage (PyNum.PyFloat PyNum.f8) Samples.manager)
      as [p|] eqn:Hp; [|vm_compute in Hp; discriminate Hp].
    destruct (Hformula (PyNum.PyFloat PyNum.f8) Samples.manager p I Hp)
      as [hours [Hh ->]].
    injection Hh as <-. vm_compute. reflexivity.
  - apply (Hrun solve Samples.with_idle OPTIMAL Samples.idle).
    + vm_compute. reflexivity.
    + reflexivity.
    + right. left. reflexivity.
    + reflexivity.
    + vm_compute. reflexivity.
Defined.

(** C10, as stated, fails: in [MoreSamples.giant_first] the second employee
    has a weekly maximum of 0 and the model is solved, but the first
    employee, who works the shift, has a maximum of 2^1024; dividing the
    float of the hours by it raises [OverflowError] ("int too large to
    convert to float") before the second employee is reached, so the
    projection does not fail with a division by zero. *)
Lemma overflow_before_zero_division :
  let config := MoreSamples.giant_first in
  let solve := fun _ : CpModel.t => (OPTIMAL, Samples.manager_only) in
  In Samples.idle (SchedulingConfig.employees config) /\
  Employee.maxHoursPerWeek Samples.idle = 0 /\
  solver_status solve config = Some OPTIMAL /\
  (exists shifts, solved_schedule config Samples.manager_only = Some shifts) /\
  optimize_schedule solve config = Raise OverflowError.
Proof.
  simpl. split; [right; left; reflexivity|]. split; [reflexivity|].
  split; [vm_compute; reflexivity|].
  split; [eexists; vm_compute; reflexivity|].
  vm_compute. reflexivity.
Qed.

(** ** A configuration without employees *)


Section NoEmployees.

Variable config : SchedulingConfig.t.
Variable shifts : list Shift.t.
Hypothesis nobody : SchedulingConfig.employees config = [].






End NoEmployees.




(** ** The rest between shifts *)

Lemma div_lt_iff (a b n : Z) : 0 < b -> (a / b < n <-> a < n * b).
Proof.
  intros Hb. pose proof (Z.div_mod a b ltac:(lia)) as Hd.
  pose proof (Z.mod_pos_bound a b Hb) as Hm.
  split; intros H; nia.
Qed.

Lemma rest_agrees_all : forallb rest_agrees (map Z.of_nat (seq 0 2881)) = true.
Proof. vm_compute. reflexivity. Qed.

Lemma rest_agrees_range (gap : Z) : 0 <= gap <= 2880 -> rest_agrees gap = true.
Proof.
  intros H. pose proof rest_agrees_all as Ha. rewrite forallb_forall in Ha.
  apply Ha. apply in_map_iff. exists (Z.to_nat gap).
  split; [lia|]. apply in_seq. lia.
Qed.

Lemma rest_agrees_sound (gap n : Z) :
  rest_agrees gap = true ->
  exists rest_hours,
    PyNum.int_truediv gap 60 = Return rest_hours /\
    PyNum.float_lt_int rest_hours n = (gap <? n * 60).
Proof.
  unfold rest_agrees. intros H.
  destruct (PyNum.int_truediv gap 60) as [f|]; [|discriminate].
  exists f. split; [reflexivity|].
  destruct f as [s|s| |s m e]; try discriminate.
  - apply Z.eqb_eq in H. subst gap.
    unfold PyNum.float_lt_int, PyNum.float_compare_int.
    destruct (0 ?= n) eqn:Hc.
    + apply Z.compare_eq in Hc. subst n. reflexivity.
    + rewrite Z.compare_lt_iff in Hc. symmetry. apply Z.ltb_lt. lia.
    + rewrite Z.compare_gt_iff in Hc. symmetry. apply Z.ltb_ge. lia.
  - apply andb_prop in H. destruct H as [He Hq].
    apply Z.ltb_lt in He. apply Z.eqb_eq in Hq.
    unfold PyNum.float_lt_int, PyNum.float_compare_int.
    assert (H0 : (0 <=? e) = false) by (apply Z.leb_gt; exact He).
    rewrite H0.
    set (v := if s then Z.neg m else Z.pos m) in *.
    assert (Hp : 0 < 2 ^ (- e)) by (apply Z.pow_pos_nonneg; lia).
    pose proof (div_lt_iff v (2 ^ (- e)) n Hp) as Hv.
    pose proof (div_lt_iff gap 60 n ltac:(lia)) as Hg.
    rewrite Hq in Hv.
    destruct (v ?= n * 2 ^ (- e)) eqn:Hc.
    + apply Z.compare_eq in Hc. symmetry. apply Z.ltb_ge. lia.
    + rewrite Z.compare_lt_iff in Hc. symmetry. apply Z.ltb_lt. lia.
    + rewrite Z.compare_gt_iff in Hc. symmetry. apply Z.ltb_ge. lia.
Qed.

Lemma rest_too_short_minutes (config : SchedulingConfig.t) (end_time1 start_time2 : Z) :
  0 <= end_time1 <= 1440 -> 0 <= start_time2 <= 1440 ->
  rest_too_short config end_time1 start_time2
  = Return (24 * 60 - end_time1 + start_time2
            <? Constraints.minHoursBetweenShifts (SchedulingConfig.constraints config) * 60).
Proof.
  intros H1 H2. unfold rest_too_short.
  assert (Hgap : 0 <= 24 * 60 - end_time1 + start_time2 <= 2880) by lia.
  destruct (rest_agrees_sound (24 * 60 - end_time1 + start_time2)
              (Constraints.minHoursBetweenShifts (SchedulingConfig.constraints config))
              (rest_agrees_range _ Hgap)) as [f [Hdiv Hf]].
  rewrite Hdiv. simpl. rewrite Hf. reflexivity.
Qed.

(** C3 (as amended).  The rest gap is computed in integer minutes, divided
    by 60 into hours as a float, and compared with the configured minimum in
    hours.  For an ordered pair of shift instances one day apart whose end
    and start are times of day (0 to 1440 minutes), the pair is forbidden
    exactly when the gap in minutes is less than the minimum in minutes. *)
Theorem rest_test_in_minutes (config : SchedulingConfig.t) (employee : Employee.t)
    (i j : nat) (shift1 shift2 : Shift.t) (end_time1 start_time2 : Z) :
  i <> j ->
  DateTime.days_between (Shift.date shift2) (Shift.date shift1) = 1 ->
  parse_time (Shift.endTime shift1) = Return end_time1 ->
  parse_time (Shift.startTime shift2) = Return start_time2 ->
  0 <= end_time1 <= 1440 ->
  0 <= start_time2 <= 1440 ->
  let rest_minutes := 24 * 60 - end_time1 + start_time2 in
  let minimum_minutes :=
    Constraints.minHoursBetweenShifts (SchedulingConfig.constraints config) * 60 in
  rest_too_short config end_time1 start_time2 = Return (rest_minutes <? minimum_minutes) /\
  rest_of_pair config employee (i, shift1) (j, shift2)
  = Return (if rest_minutes <? minimum_minutes
            then [Add (plus (of_var (x employee shift1)) (of_var (x employee shift2)))
                      LE (const 1)]
            else []).
Proof.
  intros Hij Hd He Hs H1 H2 rest_minutes minimum_minutes.
  pose proof (rest_too_short_minutes config end_time1 start_time2 H1 H2) as Hr.
  split; [exact Hr|].
  unfold rest_of_pair.
  apply Nat.eqb_neq in Hij. rewrite Hij. simpl negb. cbv iota.
  rewrite Hd. rewrite Z.eqb_refl. rewrite He, Hs. simpl bind at 1.
  cbv beta. simpl bind at 1. cbv beta. rewrite Hr. reflexivity.
Qed.

Lemma rest_test_in_minutes_witness :
  let first := Shift.make 0 "morning" (Samples.midnight 2024 1 1) "09:00" "23:00" 840
                          [] true false in
  let second := Shift.make 1 "morning" (Samples.midnight 2024 1 2) "06:00" "12:00" 360
                           [] true false in
  DateTime.days_between (Shift.date second) (Shift.date first) = 1 /\
  parse_time (Shift.endTime first) = Return 1380 /\
  parse_time (Shift.startTime second) = Return 360 /\
  rest_of_pair Samples.single Samples.manager (0%nat, first) (1%nat, second)
  = Return [Add (plus (of_var (x Samples.manager first)) (of_var (x Samples.manager second)))
                LE (const 1)].
Proof.
  intros first second.
  split; [reflexivity|]. split; [reflexivity|]. split; [reflexivity|].
  apply (rest_test_in_minutes Samples.single Samples.manager 0 1 first second 1380 360).
  - discriminate.
  - reflexivity.
  - reflexivity.
  - reflexivity.
  - lia.
  - lia.
Defined.

(** C3, as stated, fails: the test is a comparison of floats in hours.  In
    [Samples.long_rest] the minimum is 2^48 + 1 hours; between the end of the
    first shift of day one and the start of the last shift of day two the
    gap is one minute less than the minimum, the quotient [gap / 60] rounds
    up to the minimum, and the pair is not forbidden. *)
Lemma rest_test_rounds :
  let config := Samples.long_rest in
  let minimum := Constraints.minHoursBetweenShifts (SchedulingConfig.constraints config) in
  exists shifts shift1 shift2 end_time1 start_time2,
    generate_shifts config = Return shifts /\
    nth_error shifts 0 = Some shift1 /\
    nth_error shifts 3 = Some shift2 /\
    DateTime.days_between (Shift.date shift2) (Shift.date shift1) = 1 /\
    parse_time (Shift.endTime shift1) = Return end_time1 /\
    parse_time (Shift.startTime shift2) = Return start_time2 /\
    (24 * 60 - end_time1 + start_time2 <? minimum * 60) = true /\
    rest_too_short config end_time1 start_time2 = Return false /\
    rest_of_pair config Samples.manager (0%nat, shift1) (3%nat, shift2) = Return [].
Proof.
  simpl. do 5 eexists.
  split; [vm_compute; reflexivity|].
  split; [reflexivity|]. split; [reflexivity|].
  split; [vm_compute; reflexivity|].
  split; [vm_compute; reflexivity|].
  split; [vm_compute; reflexivity|].
  split; [vm_compute; reflexivity|].
  split; vm_compute; reflexivity.
Qed.

(** * Further properties *)

(** ** Times of day *)

Lemma clock_parses_all :
  forallb (fun k => match parse_time (clock (Z.of_nat k)) with
                    | Return t => t =? Z.of_nat k
                    | Raise _ => false
                    end)
          (seq 0 1440) = true.
Proof. vm_compute. reflexivity. Qed.

(** X1.  [parse_time] reads the usual rendering of a time of day back as
    its minutes since midnight. *)
Theorem parse_time_clock (minutes : Z) :
  0 <= minutes < 1440 -> parse_time (clock minutes) = Return minutes.
Proof.
  intros H. pose proof clock_parses_all as Hall. rewrite forallb_forall in Hall.
  specialize (Hall (Z.to_nat minutes)).
  rewrite Z2Nat.id in Hall by lia.
  assert (Hin : In (Z.to_nat minutes) (seq 0 1440)) by (apply in_seq; lia).
  specialize (Hall Hin).
  destruct (parse_time (clock minutes)) as [t|]; [|discriminate].
  apply Z.eqb_eq in Hall. rewrite Hall. reflexivity.
Qed.

Lemma parse_time_clock_witness :
  0 <= 1050 < 1440 /\ clock 1050 = "17:30"%string /\ parse_time "17:30" = Return 1050.
Proof.
  split; [lia|]. split; [reflexivity|].
  apply (parse_time_clock 1050). lia.
Defined.

Lemma split_at_length (sep : ascii) (l : list ascii) :
  forall cur,
    List.length (PyStr.split_at sep cur l)
    = S (List.length (filter (fun c => Ascii.eqb c sep) l)).
Proof.
  induction l as [|c l IH]; intros cur; simpl; [reflexivity|].
  destruct (Ascii.eqb c sep); simpl; rewrite IH; reflexivity.
Qed.

(** X2.  [parse_time] returns a value only for a string with exactly one
    colon, and the value is sixty times the integer before the colon plus
    the integer after it; every other string raises [ValueError]. *)
Theorem parse_time_fields (time_str : string) :
  (colons time_str <> 1%nat -> parse_time time_str = Raise ValueError) /\
  (forall e, parse_time time_str = Raise e -> e = ValueError) /\
  (forall t, parse_time time_str = Return t ->
             colons time_str = 1%nat /\
             exists h m hours minutes,
               PyStr.split ":"%char time_str = [h; m] /\
               PyStr.int_of_chars h = Some hours /\
               PyStr.int_of_chars m = Some minutes /\
               t = hours * 60 + minutes).
Proof.
  unfold parse_time, colons, PyStr.split.
  pose proof (split_at_length ":"%char (list_ascii_of_string time_str) []) as Hlen.
  destruct (PyStr.split_at ":"%char [] (list_ascii_of_string time_str))
    as [|h [|m [|x rest]]] eqn:Hs; simpl in Hlen.
  - discriminate Hlen.
  - split; [reflexivity|]. split; [intros e H; injection H as <-; reflexivity|].
    intros t H. discriminate H.
  - split; [intros Hc; exfalso; apply Hc; lia|].
    destruct (PyStr.int_of_chars h) as [hours|] eqn:Hh;
      destruct (PyStr.int_of_chars m) as [minutes|] eqn:Hm.
    + split; [intros e H; discriminate H|].
      intros t H. injection H as <-. split; [lia|].
      exists h, m, hours, minutes. repeat split; try reflexivity; assumption.
    + split; [intros e H; injection H as <-; reflexivity | intros t H; discriminate H].
    + split; [intros e H; injection H as <-; reflexivity | intros t H; discriminate H].
    + split; [intros e H; injection H as <-; reflexivity | intros t H; discriminate H].
  - split; [reflexivity|]. split; [intros e H; injection H as <-; reflexivity|].
    intros t H. discriminate H.
Qed.

Lemma parse_time_fields_witness :
  colons "1:2:3" <> 1%nat /\ parse_time "1:2:3" = Raise ValueError /\
  parse_time "09:00" = Return 540 /\ colons "09:00" = 1%nat.
Proof.
  split; [vm_compute; discriminate|].
  split; [apply (parse_time_fields "1:2:3"); vm_compute; discriminate|].
  split; [reflexivity|].
  apply (proj2 (proj2 (parse_time_fields "09:00")) 540). reflexivity.
Defined.

(** ** Weekends *)

Lemma weekday_add_days (d : DateTime.t) (k : Z) :
  DateTime.weekday (DateTime.add_days d k) = (DateTime.weekday d + k) mod 7.
Proof.
  unfold DateTime.weekday, DateTime.add_days. simpl.
  rewrite Zplus_mod_idemp_l. f_equal. lia.
Qed.

(** X3.  Of any seven consecutive days exactly two are weekend days, and a
    day is a weekend day exactly when the day a week later is. *)
Theorem weekend_days_of_a_week (d : DateTime.t) :
  List.length (filter is_weekend (days_from d 7)) = 2%nat /\
  is_weekend (DateTime.add_days d 7) = is_weekend d.
Proof.
  assert (Hw : 0 <= DateTime.weekday d < 7)
    by (unfold DateTime.weekday; apply Z.mod_pos_bound; lia).
  split.
  - unfold days_from, is_weekend. simpl map. cbn [filter].
    rewrite !weekday_add_days.
    assert (Hc : DateTime.weekday d = 0 \/ DateTime.weekday d = 1 \/ DateTime.weekday d = 2
                 \/ DateTime.weekday d = 3 \/ DateTime.weekday d = 4
                 \/ DateTime.weekday d = 5 \/ DateTime.weekday d = 6) by lia.
    destruct Hc as [H|[H|[H|[H|[H|[H|H]]]]]]; rewrite H; reflexivity.
  - unfold is_weekend. rewrite weekday_add_days.
    replace ((DateTime.weekday d + 7) mod 7) with (DateTime.weekday d); [reflexivity|].
    rewrite <- (Z.mod_small (DateTime.weekday d) 7) at 1 by lia.
    replace (DateTime.weekday d + 7) with (DateTime.weekday d + 1 * 7) by lia.
    rewrite Z.mod_add by lia. reflexivity.
Qed.

(** ** More on solved schedules *)

Lemma satisfied_int_vars (m : CpModel.t) (value : valuation) :
  satisfied m value = true ->
  forall v lb ub, In (v, (lb, ub)) (int_vars m) -> lb <= value v <= ub.
Proof.
  unfold satisfied. intros H v lb ub Hin.
  apply andb_prop in H. destruct H as [H _].
  apply andb_prop in H. destruct H as [_ Hi].
  rewrite forallb_forall in Hi. specialize (Hi _ Hin).
  unfold in_domain in Hi. simpl in Hi.
  apply andb_prop in Hi. destruct Hi as [H0 H1].
  apply Z.leb_le in H0, H1. lia.
Qed.

(** The fairness objective and the weekend rule are part of the model that
    the valuation satisfies. *)
Lemma solved_soft_passes (config : SchedulingConfig.t) (value : valuation)
    (shifts : list Shift.t) :
  solved_schedule config value = Some shifts ->
  exists fair,
    fairness_pass config shifts = Return fair /\
    (forall c, In c (fairness_constraints fair) \/ In c (weekend_constraints config shifts) ->
               holds value c = true) /\
    (forall v lb ub, In (v, (lb, ub)) (deviation_vars fair) -> lb <= value v <= ub).
Proof.
  intros solved.
  destruct (solved_schedule_inv _ _ _ solved) as [_ [model [Hm Hsat]]].
  destruct (build_model_inv _ _ _ Hm) as (c0 & c4 & c6 & fair & _ & _ & _ & Hf & ->).
  exists fair. split; [exact Hf|]. split.
  - destruct (satisfied_inv _ _ Hsat) as [_ Hc]. simpl in Hc.
    intros c H. apply Hc. rewrite !in_app_iff. tauto.
  - apply (satisfied_int_vars _ _ Hsat).
Qed.

Lemma eval_terms_app (value : valuation) (a b : list (Z * var)) :
  eval_terms value (a ++ b) = eval_terms value a + eval_terms value b.
Proof.
  unfold eval_terms. induction a as [|t a IH]; simpl; [reflexivity|].
  rewrite IH. lia.
Qed.

Lemma eval_terms_scale (value : valuation) (k : Z) (a : list (Z * var)) :
  eval_terms value (map (fun t => (k * fst t, snd t)) a) = k * eval_terms value a.
Proof.
  unfold eval_terms. induction a as [|t a IH]; simpl; [lia|].
  rewrite IH. lia.
Qed.

Lemma eval_minus (value : valuation) (a b : expr) :
  eval value (minus a b) = eval value a - eval value b.
Proof.
  unfold minus, plus, scale, eval. cbn [terms offset].
  rewrite eval_terms_app, eval_terms_scale. lia.
Qed.

(** Positions in [enumerate]. *)
Lemma combine_seq_nth {A : Type} (l : list A) :
  forall start i a,
    In (i, a) (combine (seq start (List.length l)) l) <->
    (start <= i)%nat /\ nth_error l (i - start) = Some a.
Proof.
  induction l as [|h l IH]; intros start i a; simpl.
  - split; [intros [] | intros [_ H]]. destruct (i - start)%nat; discriminate H.
  - rewrite IH. split.
    + intros [H|[Hle Hn]].
      * injection H as <- <-. split; [lia|]. rewrite Nat.sub_diag. reflexivity.
      * split; [lia|]. replace (i - start)%nat with (S (i - S start)) by lia. exact Hn.
    + intros [Hle Hn]. destruct (i - start)%nat as [|k] eqn:Hk.
      * left. injection Hn as <-. f_equal. lia.
      * right. split; [lia|]. replace (i - S start)%nat with k by lia. exact Hn.
Qed.

Lemma enumerate_nth {A : Type} (l : list A) (i : nat) (a : A) :
  In (i, a) (enumerate l) <-> nth_error l i = Some a.
Proof.
  unfold enumerate. rewrite combine_seq_nth. rewrite Nat.sub_0_r.
  split; [intros [_ H]; exact H | intros H; split; [lia | exact H]].
Qed.

Lemma enumerate_In {A : Type} (l : list A) (a : A) :
  In a l -> exists i, In (i, a) (enumerate l).
Proof.
  intros H. apply In_nth_error in H. destruct H as [i Hi].
  exists i. apply enumerate_nth. exact Hi.
Qed.

(** The flags that the expander computes. *)
Lemma generated_flags (config : SchedulingConfig.t) (shifts : list Shift.t)
    (shift : Shift.t) :
  generate_shifts config = Return shifts -> In shift shifts ->
  is_night_shift (Shift.startTime shift) (Shift.endTime shift)
  = Return (Shift.isNightShift shift) /\
  Shift.isWeekend shift = is_weekend (Shift.date shift).
Proof.
  intros Hg Hs. destruct (generate_shifts_spec _ _ Hg) as [Hf _].
  destruct (Forall2_In_l _ _ _ Hf shift Hs) as [[d st] [_ Hi]].
  destruct Hi as (Hd & _ & Hst & Hen & _ & _ & Hn & Hw).
  rewrite Hst, Hen, Hd. split; assumption.
Qed.



(** X5.  In a solved schedule with at least one employee, a shift instance
    without required roles has at least one assigned employee, and its
    generated shift is confirmed. *)
Theorem open_shift_is_staffed (config : SchedulingConfig.t) (value : valuation)
    (shifts : list Shift.t) (shift : Shift.t) :
  solved_schedule config value = Some shifts ->
  SchedulingConfig.employees config <> [] ->
  In shift shifts ->
  Shift.requiredRoles shift = [] ->
  assigned_employees config value shift <> [] /\
  GeneratedShift.status (generated_shift config value shift) = confirmed.
Proof.
  intros solved Hne Hs Hreq.
  destruct (solved_passes _ _ _ solved) as (c0 & c4 & c6 & _ & _ & _ & Hholds).
  assert (Hc : In (Add (sum_vars (map (fun emp => x emp shift)
                                      (SchedulingConfig.employees config)))
                       GE (const 1))
                  (coverage_constraints config shifts)).
  { unfold coverage_constraints. apply in_flat_map. exists shift. split; [exact Hs|].
    unfold coverage_of_shift. rewrite Hreq.
    destruct (SchedulingConfig.employees config); [contradiction | left; reflexivity]. }
  specialize (Hholds _ (or_intror (or_introl Hc))).
  unfold holds in Hholds. cbn [rel lhs rhs] in Hholds. apply Z.leb_le in Hholds.
  rewrite eval_sum_vars_map in Hholds
    by (intros e He; apply (solved_boolean _ _ _ solved); assumption).
  unfold eval, const in Hholds. cbn [terms offset eval_terms fold_right] in Hholds.
  assert (Hassigned : assigned_employees config value shift <> []).
  { unfold assigned_employees, is_assigned.
    destruct (filter (fun employee => value (x employee shift) =? 1)
                     (SchedulingConfig.employees config)); [simpl in Hholds; lia|].
    discriminate. }
  split; [exact Hassigned|].
  unfold generated_shift. simpl.
  destruct (assigned_employees config value shift); [contradiction | reflexivity].
Qed.

Lemma open_shift_is_staffed_witness :
  solved_schedule MoreSamples.saturday Samples.everyone = Some [MoreSamples.saturday_night] /\
  Shift.requiredRoles MoreSamples.saturday_night = [] /\
  assigned_employees MoreSamples.saturday Samples.everyone MoreSamples.saturday_night
  = ["emp-1"%string] /\
  GeneratedShift.status
    (generated_shift MoreSamples.saturday Samples.everyone MoreSamples.saturday_night)
  = confirmed.
Proof.
  split; [vm_compute; reflexivity|]. split; [reflexivity|]. split; [reflexivity|].
  apply (open_shift_is_staffed MoreSamples.saturday Samples.everyone
           [MoreSamples.saturday_night] MoreSamples.saturday_night
           ltac:(vm_compute; reflexivity) ltac:(discriminate)
           ltac:(left; reflexivity) eq_refl).
Defined.

(** X6.  In a solved schedule with the weekend preference switched on, no
    employee has more than two weekend shifts over the whole period; the
    weekend flag of a generated shift is that of its date. *)
Theorem weekend_shifts_capped (config : SchedulingConfig.t) (value : valuation)
    (shifts : list Shift.t) :
  solved_schedule config value = Some shifts ->
  Preferences.spreadWeekendShiftsFairly (SchedulingConfig.preferences config) = true ->
  (forall employee,
      In employee (SchedulingConfig.employees config) ->
      (assigned_weekends value employee shifts <= 2)%nat) /\
  (forall shift, In shift shifts -> Shift.isWeekend shift = is_weekend (Shift.date shift)).
Proof.
  intros solved Hpref. split.
  - intros e He.
    destruct (solved_soft_passes _ _ _ solved) as (fair & _ & Hholds & _).
    assert (Hc : In (Add (sum_vars (map (x e) (filter Shift.isWeekend shifts))) LE (const 2))
                    (weekend_constraints config shifts)).
    { unfold weekend_constraints. rewrite Hpref.
      apply in_map_iff. exists e. split; [reflexivity | exact He]. }
    specialize (Hholds _ (or_intror Hc)).
    unfold holds in Hholds. cbn [rel lhs rhs] in Hholds. apply Z.leb_le in Hholds.
    rewrite eval_sum_vars_map in Hholds.
    2:{ intros s Hs. apply (solved_boolean _ _ _ solved); [exact He|].
        apply filter_In in Hs. apply Hs. }
    unfold eval, const in Hholds. cbn [terms offset eval_terms fold_right] in Hholds.
    rewrite filter_filter_andb in Hholds.
    unfold assigned_weekends, is_assigned. lia.
  - intros s Hs. destruct (solved_schedule_inv _ _ _ solved) as [Hg _].
    apply (generated_flags _ _ _ Hg Hs).
Qed.

Lemma weekend_shifts_capped_witness :
  solved_schedule MoreSamples.saturday Samples.everyone = Some [MoreSamples.saturday_night] /\
  Preferences.spreadWeekendShiftsFairly (SchedulingConfig.preferences MoreSamples.saturday)
  = true /\
  assigned_weekends Samples.everyone Samples.manager [MoreSamples.saturday_night] = 1%nat /\
  (assigned_weekends Samples.everyone Samples.manager [MoreSamples.saturday_night] <= 2)%nat.
Proof.
  split; [vm_compute; reflexivity|]. split; [reflexivity|]. split; [reflexivity|].
  destruct (weekend_shifts_capped MoreSamples.saturday Samples.everyone
              [MoreSamples.saturday_night] ltac:(vm_compute; reflexivity) eq_refl) as [H _].
  apply (H Samples.manager). left. reflexivity.
Defined.

(** X7.  In a solved schedule, when two shift instances are one day apart,
    their end and start are times of day and the minutes from the end of
    the first to the start of the second are fewer than the configured
    minimum of hours times sixty, an employee assigned to the first is not
    assigned to the second. *)
Theorem short_rest_excluded (config : SchedulingConfig.t) (value : valuation)
    (shifts : list Shift.t) (employee : Employee.t) (shift1 shift2 : Shift.t)
    (end_time1 start_time2 : Z) :
  solved_schedule config value = Some shifts ->
  In employee (SchedulingConfig.employees config) ->
  In shift1 shifts -> In shift2 shifts ->
  DateTime.days_between (Shift.date shift2) (Shift.date shift1) = 1 ->
  parse_time (Shift.endTime shift1) = Return end_time1 ->
  parse_time (Shift.startTime shift2) = Return start_time2 ->
  0 <= end_time1 <= 1440 ->
  0 <= start_time2 <= 1440 ->
  24 * 60 - end_time1 + start_time2
  < Constraints.minHoursBetweenShifts (SchedulingConfig.constraints config) * 60 ->
  is_assigned value employee shift1 = true ->
  is_assigned value employee shift2 = false.
Proof.
  intros solved He H1 H2 Hd Hend Hstart Hr1 Hr2 Hshort Ha1.
  destruct (solved_passes _ _ _ solved) as (c0 & c4 & c6 & _ & H4 & _ & Hholds).
  destruct (enumerate_In _ _ H1) as [i Hi].
  destruct (enumerate_In _ _ H2) as [j Hj].
  assert (Hij : i <> j).
  { intros ->. apply enumerate_nth in Hi, Hj. rewrite Hi in Hj. injection Hj as ->.
    unfold DateTime.days_between in Hd. rewrite Z.sub_diag in Hd. discriminate Hd. }
  unfold min_rest_constraints in H4.
  destruct (concatM_In _ _ _ H4 employee He) as [ce [Hce Hie]].
  destruct (concatM_In _ _ _ Hce (i, shift1) Hi) as [c1 [Hc1 Hi1]].
  destruct (concatM_In _ _ _ Hc1 (j, shift2) Hj) as [c2 [Hc2 Hi2]].
  unfold rest_of_pair in Hc2.
  apply Nat.eqb_neq in Hij. rewrite Hij in Hc2. simpl negb in Hc2. cbv iota in Hc2.
  pose proof (rest_too_short_minutes config _ _ Hr1 Hr2) as Hr.
  apply Z.ltb_lt in Hshort. rewrite Hshort in Hr.
  rewrite Hd, Z.eqb_refl, Hend, Hstart in Hc2. cbn [bind] in Hc2.
  rewrite Hr in Hc2. cbn [bind] in Hc2. injection Hc2 as <-.
  assert (Hc : In (at_most_one employee shift1 shift2) c4).
  { apply Hie, Hi1, Hi2. left. reflexivity. }
  specialize (Hholds _ (or_intror (or_intror (or_intror (or_intror (or_introl Hc)))))).
  unfold holds, at_most_one, plus, of_var, const, eval, eval_terms in Hholds.
  cbn [rel lhs rhs terms offset app fold_right fst snd] in Hholds.
  apply Z.leb_le in Hholds.
  unfold is_assigned in *. apply Z.eqb_eq in Ha1. apply Z.eqb_neq. lia.
Qed.

Lemma short_rest_excluded_witness :
  solved_schedule MoreSamples.long_days MoreSamples.alternate
  = Some [MoreSamples.first_long; MoreSamples.second_long] /\
  DateTime.days_between (Shift.date MoreSamples.second_long)
                        (Shift.date MoreSamples.first_long) = 1 /\
  24 * 60 - 1380 + 360
  < Constraints.minHoursBetweenShifts (SchedulingConfig.constraints MoreSamples.long_days)
    * 60 /\
  is_assigned MoreSamples.alternate Samples.manager MoreSamples.first_long = true /\
  is_assigned MoreSamples.alternate Samples.manager MoreSamples.second_long = false.
Proof.
  split; [vm_compute; reflexivity|]. split; [reflexivity|]. split; [reflexivity|].
  split; [reflexivity|].
  apply (short_rest_excluded MoreSamples.long_days MoreSamples.alternate
           [MoreSamples.first_long; MoreSamples.second_long]
           Samples.manager MoreSamples.first_long MoreSamples.second_long 1380 360).
  - vm_compute. reflexivity.
  - left. reflexivity.
  - left. reflexivity.
  - right. left. reflexivity.
  - reflexivity.
  - reflexivity.
  - reflexivity.
  - lia.
  - lia.
  - reflexivity.
  - reflexivity.
Defined.

(** X8.  In a solved schedule with a positive fairness weight, the deviation
    variable of each employee is at least the distance between the
    employee's number of shifts and the even share (shift instances divided
    by employees, rounded down), and at most the number of shift
    instances. *)
Theorem deviation_bounds (config : SchedulingConfig.t) (value : valuation)
    (shifts : list Shift.t) (i : nat) (employee : Employee.t) :
  solved_schedule config value = Some shifts ->
  PyNum.float_gt_int
    (Constraints.prioritizeFairness (SchedulingConfig.constraints config)) 0 = true ->
  nth_error (SchedulingConfig.employees config) i = Some employee ->
  let worked := Z.of_nat (shifts_of_employee value employee shifts) in
  let share := Z.of_nat (List.length shifts)
               / Z.of_nat (List.length (SchedulingConfig.employees config)) in
  Z.abs (worked - share) <= value (Deviation i) <= Z.of_nat (List.length shifts).
Proof.
  intros solved Hw Hn worked share.
  destruct (solved_soft_passes _ _ _ solved) as (fair & Hf & Hholds & Hdom).
  unfold fairness_pass in Hf. rewrite Hw in Hf. bind_inv Hf. injection Hf as <-.
  simpl in Hholds, Hdom.
  assert (Hi : In (i, employee) (enumerate (SchedulingConfig.employees config)))
    by (apply enumerate_nth; exact Hn).
  assert (He : In employee (SchedulingConfig.employees config))
    by (apply nth_error_In with i; exact Hn).
  assert (Hideal : ideal_shifts_per_employee config shifts = share).
  { unfold ideal_shifts_per_employee, share, total_shifts_needed.
    destruct (SchedulingConfig.employees config); [destruct He | reflexivity]. }
  assert (Hcount : eval value (employee_total_shifts shifts employee) = worked).
  { unfold employee_total_shifts. rewrite eval_sum_vars_map.
    - unfold worked, shifts_of_employee, is_assigned. reflexivity.
    - intros s Hs. apply (solved_boolean _ _ _ solved); assumption. }
  assert (Hcs : incl (deviation_constraints config shifts (i, employee))
                     (flat_map (deviation_constraints config shifts)
                               (enumerate (SchedulingConfig.employees config)))).
  { intros c Hc. apply in_flat_map. exists (i, employee). split; assumption. }
  split.
  - pose proof (Hholds _ (or_introl (Hcs _ (or_introl eq_refl)))) as Hup.
    pose proof (Hholds _ (or_introl (Hcs _ (or_intror (or_introl eq_refl))))) as Hdown.
    unfold holds in Hup, Hdown. cbn [rel lhs rhs] in Hup, Hdown.
    apply Z.leb_le in Hup, Hdown.
    rewrite eval_minus, Hcount, Hideal in Hup, Hdown.
    unfold eval, of_var, const, eval_terms in Hup, Hdown.
    cbn [terms offset fold_right fst snd] in Hup, Hdown. lia.
  - assert (Hd : In (Deviation i, (0, total_shifts_needed shifts))
                    (map (fun p => (Deviation (fst p), (0, total_shifts_needed shifts)))
                         (enumerate (SchedulingConfig.employees config)))).
    { apply in_map_iff. exists (i, employee). split; [reflexivity | exact Hi]. }
    apply Hdom in Hd. unfold total_shifts_needed in Hd. lia.
Qed.

Lemma deviation_bounds_witness :
  solved_schedule Samples.two_shifts Samples.split_day
  = Some [Samples.morning_shift; Samples.evening_shift] /\
  nth_error (SchedulingConfig.employees Samples.two_shifts) 0 = Some Samples.morning_manager /\
  Z.abs (Z.of_nat (shifts_of_employee Samples.split_day Samples.morning_manager
                     [Samples.morning_shift; Samples.evening_shift]) - 2 / 2)
  <= Samples.split_day (Deviation 0) <= 2.
Proof.
  split; [vm_compute; reflexivity|]. split; [reflexivity|].
  apply (deviation_bounds Samples.two_shifts Samples.split_day
           [Samples.morning_shift; Samples.evening_shift] 0 Samples.morning_manager
           ltac:(vm_compute; reflexivity) ltac:(vm_compute; reflexivity) eq_refl).
Defined.

(** ** The returned schedule *)

Lemma utilization_loop_entries (config : SchedulingConfig.t)
    (generated : list GeneratedShift.t) (emps : list Employee.t) :
  forall total entries total',
    utilization_loop config generated emps total = Return (entries, total') ->
    Forall2 (fun entry employee =>
               EmployeeUtilization.employeeId entry = Employee.id employee /\
               EmployeeUtilization.shiftsAssigned entry
               = List.length (filter (works employee) generated) /\
               EmployeeUtilization.preferencesRespected entry = 85 /\
               Employee.maxHoursPerWeek employee <> 0)
            entries emps.
Proof.
  induction emps as [|e rest IH]; intros total entries total' H; simpl in H.
  - injection H as <- <-. constructor.
  - bind_inv H. bind_inv H. bind_inv H. bind_inv H. bind_inv H.
    injection H as <- <-. destruct a3 as [more t]. simpl.
    constructor; [|apply (IH _ _ _ Ha3)].
    simpl. repeat split.
    intros Hz. rewrite (utilization_by_zero _ _ Hz) in Ha1. discriminate.
Qed.

(** X9.  When the solver reports a solution and [optimize_schedule] returns
    a result, the result lists the generated shift instances in order, with
    the identifiers 0, 1, 2, ...; a shift is confirmed exactly when it has
    an assigned employee and pending otherwise, and never in conflict; the
    assigned employees are the employees whose variable has the value 1. *)
Theorem solved_result_shifts (solve : Solver) (config : SchedulingConfig.t)
    (status : CpSolverStatus) (r : ScheduleResult.t) :
  solver_status solve config = Some status ->
  has_solution status = true ->
  optimize_schedule solve config = Return r ->
  exists shifts value,
    generate_shifts config = Return shifts /\
    ScheduleResult.shifts r = map (generated_shift config value) shifts /\
    map GeneratedShift.id (ScheduleResult.shifts r)
    = seq 0 (List.length (ScheduleResult.shifts r)) /\
    Forall (fun g =>
              (GeneratedShift.status g = confirmed <-> GeneratedShift.assignedEmployees g <> [])
              /\ (GeneratedShift.status g = pending <-> GeneratedShift.assignedEmployees g = [])
              /\ GeneratedShift.status g <> conflict)
           (ScheduleResult.shifts r).
Proof.
  intros Hst Hsol Hr.
  destruct (optimize_schedule_run _ _ _ Hst)
    as (shifts & model & value & Hg & _ & _ & Hrun).
  rewrite Hsol in Hrun. rewrite Hrun in Hr. unfold extract_solution in Hr.
  bind_inv Hr. bind_inv Hr. bind_inv Hr. injection Hr as <-.
  exists shifts, value. simpl.
  split; [exact Hg|]. split; [reflexivity|]. split.
  - rewrite map_map. simpl. rewrite length_map.
    destruct (generate_shifts_spec _ _ Hg) as [_ Hid]. exact Hid.
  - apply Forall_forall. intros g Hin. apply in_map_iff in Hin.
    destruct Hin as [s [<- _]]. unfold generated_shift. simpl.
    destruct (assigned_employees config value s); repeat split;
      intros; try discriminate; try reflexivity; try contradiction.
Qed.

Lemma solved_result_shifts_witness :
  let solve := fun _ : CpModel.t => (OPTIMAL, Samples.split_day) in
  solver_status solve Samples.two_shifts = Some OPTIMAL /\
  exists r,
    optimize_schedule solve Samples.two_shifts = Return r /\
    map GeneratedShift.id (ScheduleResult.shifts r) = [0%nat; 1%nat] /\
    map GeneratedShift.assignedEmployees (ScheduleResult.shifts r)
    = [["emp-1"%string]; ["emp-2"%string]] /\
    Forall (fun g => GeneratedShift.status g <> conflict) (ScheduleResult.shifts r).
Proof.
  intros solve. split; [vm_compute; reflexivity|].
  eexists. split; [vm_compute; reflexivity|].
  split; [reflexivity|]. split; [reflexivity|].
  destruct (solved_result_shifts solve Samples.two_shifts OPTIMAL _
              ltac:(vm_compute; reflexivity) eq_refl ltac:(vm_compute; reflexivity))
    as (shifts & value & _ & _ & _ & Hall).
  apply (Forall_impl _ (fun g H => proj2 (proj2 H)) Hall).
Defined.

(** X10.  When [optimize_schedule] returns a result for a solved model, the
    utilization list has one entry per employee, in the order of the
    employees; an entry carries the employee's id, the number of generated
    shifts that list the employee, and 85 as the count of respected
    preferences; the two scores are the constants 85 and 90; and no
    employee has a weekly maximum of 0. *)
Theorem solved_result_analytics (solve : Solver) (config : SchedulingConfig.t)
    (status : CpSolverStatus) (r : ScheduleResult.t) :
  solver_status solve config = Some status ->
  has_solution status = true ->
  optimize_schedule solve config = Return r ->
  Forall2 (fun entry employee =>
             EmployeeUtilization.employeeId entry = Employee.id employee /\
             EmployeeUtilization.shiftsAssigned entry
             = List.length (filter (works employee) (ScheduleResult.shifts r)) /\
             EmployeeUtilization.preferencesRespected entry = 85 /\
             Employee.maxHoursPerWeek employee <> 0)
          (ScheduleAnalytics.employeeUtilization (ScheduleResult.analytics r))
          (SchedulingConfig.employees config) /\
  ScheduleAnalytics.preferenceSatisfactionScore (ScheduleResult.analytics r)
  = PyNum.float_of_Z 85 /\
  ScheduleAnalytics.fairnessMetric (ScheduleResult.analytics r) = PyNum.float_of_Z 90.
Proof.
  intros Hst Hsol Hr.
  destruct (optimize_schedule_run _ _ _ Hst)
    as (shifts & model & value & _ & _ & _ & Hrun).
  rewrite Hsol in Hrun. rewrite Hrun in Hr. unfold extract_solution in Hr.
  bind_inv Hr. bind_inv Hr. bind_inv Hr. injection Hr as <-.
  destruct a as [entries total]. simpl.
  split; [|split; reflexivity].
  apply (utilization_loop_entries _ _ _ _ _ _ Ha).
Qed.

Lemma solved_result_analytics_witness :
  let solve := fun _ : CpModel.t => (OPTIMAL, Samples.split_day) in
  solver_status solve Samples.two_shifts = Some OPTIMAL /\
  exists r,
    optimize_schedule solve Samples.two_shifts = Return r /\
    map EmployeeUtilization.employeeId
        (ScheduleAnalytics.employeeUtilization (ScheduleResult.analytics r))
    = ["emp-1"%string; "emp-2"%string] /\
    ScheduleAnalytics.fairnessMetric (ScheduleResult.analytics r) = PyNum.float_of_Z 90.
Proof.
  intros solve. split; [vm_compute; reflexivity|].
  eexists. split; [vm_compute; reflexivity|]. split; [reflexivity|].
  apply (solved_result_analytics solve Samples.two_shifts OPTIMAL _
           ltac:(vm_compute; reflexivity) eq_refl ltac:(vm_compute; reflexivity)).
Defined.

(** ** The variables of the model *)

Lemma flat_map_constant_length {A B : Type} (f : A -> list B) (l : list A) (n : nat) :
  (forall a, List.length (f a) = n) -> List.length (flat_map f l) = (List.length l * n)%nat.
Proof.
  intros H. induction l as [|a l IH]; simpl; [reflexivity|].
  rewrite length_app, H, IH. reflexivity.
Qed.

Lemma enumerate_length {A : Type} (l : list A) : List.length (enumerate l) = List.length l.
Proof.
  unfold enumerate. rewrite length_combine, length_seq. apply Nat.min_id.
Qed.

(** X11.  A compiled model has one Boolean variable per employee and shift
    instance, and one deviation variable per employee when the fairness
    weight is positive and none otherwise; the deviation variables range
    from 0 to the number of shift instances. *)
Theorem model_variables (config : SchedulingConfig.t) (shifts : list Shift.t)
    (model : CpModel.t) :
  build_model config shifts = Return model ->
  let employees := SchedulingConfig.employees config in
  List.length (bool_vars model) = (List.length employees * List.length shifts)%nat /\
  (forall employee shift,
      In employee employees -> In shift shifts ->
      In (EmployeeShift (Employee.id employee) (Shift.id shift)) (bool_vars model)) /\
  List.length (int_vars model)
  = (if PyNum.float_gt_int
          (Constraints.prioritizeFairness (SchedulingConfig.constraints config)) 0
     then List.length employees else 0%nat) /\
  Forall (fun d => snd d = (0, Z.of_nat (List.length shifts))) (int_vars model).
Proof.
  intros Hm employees.
  destruct (build_model_inv _ _ _ Hm) as (c0 & c4 & c6 & fair & _ & _ & _ & Hf & ->).
  simpl. split; [|split].
  - unfold employee_shift_vars. apply flat_map_constant_length.
    intros e. apply length_map.
  - intros e s He Hs. apply (x_in_vars config shifts e s He Hs).
  - unfold fairness_pass in Hf.
    destruct (PyNum.float_gt_int _ 0).
    + bind_inv Hf. injection Hf as <-. simpl. split.
      * rewrite length_map. apply enumerate_length.
      * apply Forall_forall. intros d Hd. apply in_map_iff in Hd.
        destruct Hd as [p [<- _]]. reflexivity.
    + injection Hf as <-. simpl. split; [reflexivity | constructor].
Qed.

Lemma model_variables_witness :
  exists model,
    build_model Samples.two_shifts [Samples.morning_shift; Samples.evening_shift]
    = Return model /\
    List.length (bool_vars model) = 4%nat /\ List.length (int_vars model) = 2%nat.
Proof.
  eexists. split; [vm_compute; reflexivity|].
  destruct (model_variables Samples.two_shifts
              [Samples.morning_shift; Samples.evening_shift] _
              ltac:(vm_compute; reflexivity)) as [Hb [_ [Hi _]]].
  split; [exact Hb | exact Hi].
Defined.

(** ** When the expansion fails *)

Lemma generate_loop_idle (config : SchedulingConfig.t) (n : nat) :
  comparable config = true ->
  forall current_date counter,
    remaining_days config current_date = n ->
    (forall d, In d (days_from current_date n) ->
               DateTime.toordinal d < DateTime.max_ordinal) ->
    filter (fun d => negb (skipped config d)) (days_from current_date n) = [] ->
    generate_loop config n current_date counter = Return [].
Proof.
  intros Hc. induction n as [|n IH]; intros current_date counter Hn Hfit H.
  - rewrite generate_loop_O, (in_period_within _ _ Hc). reflexivity.
  - rewrite generate_loop_S, (in_period_within _ _ Hc). cbn [bind].
    destruct (within config current_date) eqn:Hle; [|reflexivity].
    rewrite (remaining_days_within _ _ Hle) in Hn. injection Hn as Hn.
    rewrite days_from_S in H, Hfit. simpl in H.
    destruct (skipped config current_date); [|discriminate H].
    rewrite (add_day_fits _ (Hfit _ (or_introl eq_refl))). cbn [bind].
    apply (IH _ _ Hn); [|exact H].
    intros d Hd. apply Hfit. right. exact Hd.
Qed.

(** The condition on the last day, read on the days that the loop visits. *)
Lemma period_ends_in_time (config : SchedulingConfig.t) :
  (forall k, 0 <= k ->
             within config
                    (DateTime.add_days
                       (DateTime.fields
                          (SchedulingPeriod.startDate (SchedulingConfig.schedulingPeriod config)))
                       k) = true ->
             DateTime.toordinal
               (DateTime.fields
                  (SchedulingPeriod.startDate (SchedulingConfig.schedulingPeriod config)))
             + k < DateTime.max_ordinal) <->
  (forall d, In d (period_days config) -> DateTime.toordinal d < DateTime.max_ordinal).
Proof.
  split.
  - intros H d Hd. apply period_days_iff in Hd. destruct Hd as [k [Hk [-> Hle]]].
    unfold DateTime.add_days. simpl. apply H; assumption.
  - intros H k Hk Hle.
    specialize (H (DateTime.add_days
                     (DateTime.fields
                        (SchedulingPeriod.startDate
                           (SchedulingConfig.schedulingPeriod config))) k)).
    unfold DateTime.add_days in H at 2. simpl in H. apply H.
    apply period_days_iff. exists k. repeat split; assumption.
Qed.

Lemma instances_cover (generated : list Shift.t) (pairs : list (DateTime.t * ShiftType.t)) :
  Forall2 instance_of generated pairs ->
  forall p, In p pairs -> exists s, In s generated /\ instance_of s p.
Proof.
  induction 1 as [|s0 p0 generated pairs Hi _ IH]; intros p Hp.
  - destruct Hp.
  - destruct Hp as [<-|Hp].
    + exists s0. split; [left; reflexivity | exact Hi].
    + destruct (IH p Hp) as [s [Hs Hsp]]. exists s. split; [right; exact Hs | exact Hsp].
Qed.

Lemma parse_time_raises (time_str : string) (e : exn) :
  parse_time time_str = Raise e -> e = ValueError.
Proof.
  unfold parse_time.
  destruct (PyStr.split ":"%char time_str) as [|h [|m [|extra rest]]];
    try (intros H; injection H as <-; reflexivity).
  destruct (PyStr.int_of_chars h), (PyStr.int_of_chars m);
    intros H; try discriminate H; injection H as <-; reflexivity.
Qed.

Lemma new_shift_raises (counter : nat) (day : DateTime.t) (shift_type : ShiftType.t)
    (e : exn) :
  new_shift counter day shift_type = Raise e -> e = ValueError \/ e = OverflowError.
Proof.
  unfold new_shift. intros H.
  destruct (PyNum.int_of_float _) as [minutes|e0] eqn:Hm.
  - cbn [bind] in H. unfold is_night_shift in H.
    destruct (parse_time (ShiftType.startTime shift_type)) as [a|e1] eqn:Ha.
    + cbn [bind] in H.
      destruct (parse_time (ShiftType.endTime shift_type)) as [b|e2] eqn:Hb.
      * discriminate H.
      * cbn [bind] in H. injection H as <-. left. apply (parse_time_raises _ _ Hb).
    + cbn [bind] in H. injection H as <-. left. apply (parse_time_raises _ _ Ha).
  - cbn [bind] in H. injection H as <-.
    unfold PyNum.int_of_float in Hm.
    destruct (PyNum.float_mul _ _); try discriminate Hm; injection Hm as <-; auto.
Qed.

Lemma day_shifts_raises (day : DateTime.t) (shift_types : list ShiftType.t) (e : exn) :
  forall counter,
    day_shifts day counter shift_types = Raise e -> e = ValueError \/ e = OverflowError.
Proof.
  induction shift_types as [|st rest IH]; intros counter H; simpl in H; [discriminate H|].
  destruct (ShiftType.isRepeating st); [|apply (IH _ H)].
  destruct (new_shift counter day st) as [s|e0] eqn:Hs.
  - cbn [bind] in H.
    destruct (day_shifts day (S counter) rest) as [more|e1] eqn:Hmore.
    + discriminate H.
    + cbn [bind] in H. injection H as <-. apply (IH _ Hmore).
  - cbn [bind] in H. injection H as <-. apply (new_shift_raises _ _ _ _ Hs).
Qed.

Lemma generate_loop_raises (config : SchedulingConfig.t) (n : nat) (e : exn) :
  forall current_date counter,
    generate_loop config n current_date counter = Raise e ->
    e = TypeError \/ e = ValueError \/ e = OverflowError.
Proof.
  assert (Hguard : forall d, in_period config d = Raise e -> e = TypeError).
  { intros d. unfold in_period, DateTime.le.
    destruct (DateTime.utcoffset _) as [a|]; destruct (DateTime.utcoffset _) as [b|];
      intros H; try discriminate H; injection H as <-; reflexivity. }
  assert (Hnext : forall d, DateTime.add_day d = Raise e -> e = OverflowError).
  { intros d. unfold DateTime.add_day.
    destruct (DateTime.toordinal d + 1 <=? DateTime.max_ordinal); intros H;
      [discriminate H | injection H as <-; reflexivity]. }
  induction n as [|n IH]; intros current_date counter H.
  - rewrite generate_loop_O in H.
    destruct (in_period config current_date) as [go_on|e0] eqn:Hgo; [discriminate H|].
    cbn [bind] in H. injection H as <-. left. apply (Hguard _ Hgo).
  - rewrite generate_loop_S in H.
    destruct (in_period config current_date) as [go_on|e0] eqn:Hgo.
    2:{ cbn [bind] in H. injection H as <-. left. apply (Hguard _ Hgo). }
    cbn [bind] in H. destruct go_on; [|discriminate H].
    destruct (skipped config current_date).
    + destruct (DateTime.add_day current_date) as [tomorrow|e1] eqn:Ht.
      * cbn [bind] in H. apply (IH _ _ H).
      * cbn [bind] in H. injection H as <-. right. right. apply (Hnext _ Ht).
    + destruct (day_shifts current_date counter _) as [today|e0] eqn:Hday.
      2:{ cbn [bind] in H. injection H as <-. right.
          apply (day_shifts_raises _ _ _ _ Hday). }
      cbn [bind] in H.
      destruct (DateTime.add_day current_date) as [tomorrow|e1] eqn:Ht.
      2:{ cbn [bind] in H. injection H as <-. right. right. apply (Hnext _ Ht). }
      cbn [bind] in H.
      destruct (generate_loop config n tomorrow _) as [later|e1] eqn:Hl.
      * discriminate H.
      * cbn [bind] in H. injection H as <-. apply (IH _ _ Hl).
Qed.

(** X12.  The expansion of the shift types returns a list exactly when the
    two dates of the period are both naive or both aware, the period has no
    working day or every repeating shift type is well formed (its two times
    are read by [parse_time] and its duration in minutes is an integer), and
    no day of the period is 9999-12-31.  Otherwise it raises, and the
    exception is [TypeError], [ValueError] or [OverflowError]; a naive and
    an aware date always give [TypeError].  Shift types that do not repeat
    are never read. *)
Theorem expansion_returns_iff (config : SchedulingConfig.t) :
  let start_date :=
    DateTime.fields (SchedulingPeriod.startDate (SchedulingConfig.schedulingPeriod config)) in
  ((exists shifts, generate_shifts config = Return shifts) <->
   (comparable config = true /\
    (working_days config = [] \/ forallb well_formed (recurring config) = true) /\
    (forall k, 0 <= k -> within config (DateTime.add_days start_date k) = true ->
               DateTime.toordinal start_date + k < DateTime.max_ordinal))) /\
  (comparable config = false -> generate_shifts config = Raise TypeError) /\
  (forall e, generate_shifts config = Raise e ->
             e = TypeError \/ e = ValueError \/ e = OverflowError).
Proof.
  intros start_date. split; [split|split].
  - intros [shifts Hg].
    destruct (generate_loop_fits _ _ _ _ _ eq_refl Hg) as [Hc Hfit].
    split; [exact Hc|]. split.
    + destruct (generate_shifts_spec _ _ Hg) as [Hf _].
      destruct (working_days config) as [|d days]; [left; reflexivity|].
      right. apply forallb_forall. intros st Hst.
      destruct (instances_cover _ _ Hf (d, st)) as [s [_ Hi]].
      { apply in_prod; [left; reflexivity | exact Hst]. }
      destruct Hi as (_ & _ & _ & _ & _ & Hm & Hn & _).
      unfold well_formed. rewrite Hm, Hn. reflexivity.
    + apply (proj2 (period_ends_in_time config)). exact Hfit.
  - intros (Hc & Hready & Hfit).
    pose proof (proj1 (period_ends_in_time config) Hfit) as Hdays. clear Hfit.
    rename Hdays into Hfit.
    destruct Hready as [Hidle | Hwf].
    + exists []. apply (generate_loop_idle config _ Hc _ _ eq_refl Hfit Hidle).
    + apply (generate_loop_total config _ Hc Hwf _ _ eq_refl Hfit).
  - intros Hc. unfold generate_shifts.
    destruct (remaining_days config _) as [|n].
    + rewrite generate_loop_O, (in_period_mixed _ _ Hc). reflexivity.
    + rewrite generate_loop_S, (in_period_mixed _ _ Hc). reflexivity.
  - intros e. apply generate_loop_raises.
Qed.



Example garbled_start_time :
  generate_shifts MoreSamples.garbled_day = Raise ValueError.
Proof. vm_compute. reflexivity. Qed.

Example naive_start_aware_end :
  generate_shifts MoreSamples.mixed_dates = Raise TypeError.
Proof. vm_compute. reflexivity. Qed.

Example last_day_of_datetime :
  generate_shifts MoreSamples.last_day = Raise OverflowError.
Proof. vm_compute. reflexivity. Qed.

(** ** The weeks of the schedule *)

(** Every key of [shifts_by_week] is the key of a shift that was added. *)
Lemma fold_add_to_week_keys (rest : list Shift.t) :
  forall (processed : list Shift.t) (groups : list ((Z * Z) * list Shift.t)),
    (forall k, In k (map fst groups) -> exists s, In s processed /\ week_key s = k) ->
    forall k,
      In k (map fst (fold_left (fun groups shift => add_to_week (week_key shift) shift groups)
                               rest groups)) ->
      exists s, In s (processed ++ rest) /\ week_key s = k.
Proof.
  induction rest as [|s0 rest IH]; intros processed groups H k Hk; simpl in Hk.
  - rewrite app_nil_r. apply H. exact Hk.
  - replace (processed ++ s0 :: rest) with ((processed ++ [s0]) ++ rest)
      by (rewrite <- app_assoc; reflexivity).
    apply (IH (processed ++ [s0]) (add_to_week (week_key s0) s0 groups)); [|exact Hk].
    intros k' Hk'.
    destruct (add_to_week_keys (week_key s0) s0 groups) as [[_ Heq]|[_ Heq]];
      rewrite Heq in Hk'.
    + destruct (H _ Hk') as [s [Hs Hkey]]. exists s. split; [|exact Hkey].
      apply in_or_app. left. exact Hs.
    + apply in_app_or in Hk'. destruct Hk' as [Hk'|[<-|[]]].
      * destruct (H _ Hk') as [s [Hs Hkey]]. exists s. split; [|exact Hkey].
        apply in_or_app. left. exact Hs.
      * exists s0. split; [|reflexivity]. apply in_or_app. right. left. reflexivity.
Qed.

(** X14.  [shifts_by_week] splits the shifts into weeks that run from
    Monday to Sunday: the keys are pairwise distinct, every group is the
    list, in the order of the shifts, of the shifts whose date falls in the
    week of one of them, no group is empty, and every shift is in the group
    of its week.  Two shifts share a group exactly when their weeks start on
    the same Monday, also when the week runs over the end of a year. *)
Theorem weeks_partition (shifts : list Shift.t) :
  NoDup (map fst (shifts_by_week shifts)) /\
  (forall key week_shifts,
      In (key, week_shifts) (shifts_by_week shifts) ->
      exists shift0,
        In shift0 shifts /\ In shift0 week_shifts /\ key = week_key shift0 /\
        week_shifts
        = filter (fun s => monday_of (Shift.date s) =? monday_of (Shift.date shift0)) shifts) /\
  (forall shift, In shift shifts ->
                 exists week_shifts,
                   In (week_key shift, week_shifts) (shifts_by_week shifts) /\
                   In shift week_shifts) /\
  (forall s1 s2, week_key s1 = week_key s2 <->
                 monday_of (Shift.date s1) = monday_of (Shift.date s2)).
Proof.
  destruct (shifts_by_week_grouped shifts) as [Hn [Hg Hk]].
  assert (Hsame : forall s1 s2, week_key s1 = week_key s2 <->
                                monday_of (Shift.date s1) = monday_of (Shift.date s2)).
  { intros s1 s2. rewrite <- key_eqb_eq, week_key_monday. apply Z.eqb_eq. }
  split; [exact Hn|]. split; [|split; [|exact Hsame]].
  - intros key ws Hin.
    destruct (fold_add_to_week_keys shifts [] [] ltac:(intros k []) key) as [s0 [Hs0 Hkey]].
    { change key with (fst (key, ws)). apply in_map. exact Hin. }
    simpl in Hs0. exists s0.
    assert (Hws : ws = filter (fun s => monday_of (Shift.date s) =? monday_of (Shift.date s0))
                              shifts).
    { rewrite (Hg _ _ Hin). apply filter_ext_in_local. intros s _.
      rewrite <- Hkey. apply week_key_monday. }
    split; [exact Hs0|]. split; [|split; [symmetry; exact Hkey | exact Hws]].
    rewrite Hws. apply filter_In. split; [exact Hs0 | apply Z.eqb_refl].
  - intros s Hs. specialize (Hk _ Hs). apply in_map_iff in Hk.
    destruct Hk as [[k ws] [Hfst Hin]]. simpl in Hfst. subst k.
    exists ws. split; [exact Hin|].
    rewrite (Hg _ _ Hin). apply filter_In. split; [exact Hs | apply key_eqb_refl].
Qed.

(** ** The coverage percentage *)

Lemma div_eucl_pair (a b : Z) : Z.div_eucl a b = (a / b, a mod b).
Proof. unfold Z.div, Z.modulo. destruct (Z.div_eucl a b). reflexivity. Qed.

(** [n / n] is the float 1.0 for every positive int, whatever its size. *)
Lemma int_truediv_same (n : Z) :
  0 < n -> PyNum.int_truediv n n = Return (PyNum.float_of_Z 1).
Proof.
  intros Hn. destruct n as [|p|p]; try lia.
  unfold PyNum.int_truediv, PyNum.exact.
  change (Z.pos p =? 0) with false. cbv iota.
  unfold SFdiv, SFdiv_core_binary, PyNum.prec, PyNum.emax.
  replace (Zdigits2 (Z.pos p) + 0 - (Zdigits2 (Z.pos p) + 0)) with 0 by lia.
  change (Z.min (fexp 53 1024 0) (0 - 0)) with (-53).
  change (0 - 0 - -53) with 53.
  cbv zeta. cbv iota.
  rewrite div_eucl_pair.
  rewrite Z.shiftl_mul_pow2 by lia.
  rewrite Z.mul_comm, Z.div_mul, Z.mod_mul by lia.
  assert (H : new_location (Z.pos p) 0 = loc_Exact).
  { unfold new_location. destruct (Z.even (Z.pos p)); reflexivity. }
  rewrite H. vm_compute. reflexivity.
Qed.

Lemma coverage_when_all_filled (generated : list GeneratedShift.t) :
  generated <> [] ->
  Forall (fun s => GeneratedShift.assignedEmployees s <> []) generated ->
  coverage_percentage generated = Return (PyNum.float_of_Z 100).
Proof.
  intros Hne Hall. unfold coverage_percentage.
  destruct generated as [|g gs] eqn:Hg; [contradiction|]. rewrite <- Hg in *.
  assert (Hf : filter (fun s => match GeneratedShift.assignedEmployees s with
                                | [] => false
                                | _ :: _ => true
                                end) generated = generated).
  { clear Hg Hne. induction Hall as [|s l Hs _ IH]; simpl; [reflexivity|].
    destruct (GeneratedShift.assignedEmployees s); [contradiction|].
    rewrite IH. reflexivity. }
  rewrite Hf, int_truediv_same by (rewrite Hg; simpl; lia).
  vm_compute. reflexivity.
Qed.

Lemma coverage_when_none_filled (generated : list GeneratedShift.t) :
  Forall (fun s => GeneratedShift.assignedEmployees s = []) generated ->
  coverage_percentage generated = Return (PyNum.float_of_Z 0).
Proof.
  intros Hall. unfold coverage_percentage.
  destruct generated as [|g gs] eqn:Hg; [reflexivity|]. rewrite <- Hg in *.
  rewrite filter_none.
  2:{ intros s Hs. rewrite Forall_forall in Hall. rewrite (Hall s Hs). reflexivity. }
  unfold PyNum.int_truediv.
  assert (Hlen : (Z.of_nat (List.length generated) =? 0) = false)
    by (rewrite Hg; reflexivity).
  rewrite Hlen. simpl.
  replace (Z.of_nat (List.length generated) <? 0) with false
    by (symmetry; apply Z.ltb_ge; lia).
  vm_compute. reflexivity.
Qed.

(** X15.  In the result of a solved run the coverage percentage is computed
    from the returned shifts: it is exactly 100.0 when there is a shift and
    every shift has an assigned employee, however many shifts there are,
    and 0 when there is no shift or no shift has an assigned employee. *)
Theorem coverage_of_result (solve : Solver) (config : SchedulingConfig.t)
    (status : CpSolverStatus) (r : ScheduleResult.t) :
  solver_status solve config = Some status ->
  has_solution status = true ->
  optimize_schedule solve config = Return r ->
  let coverage := ScheduleAnalytics.shiftCoveragePercentage (ScheduleResult.analytics r) in
  coverage_percentage (ScheduleResult.shifts r) = Return coverage /\
  (ScheduleResult.shifts r <> [] ->
   Forall (fun s => GeneratedShift.status s = confirmed) (ScheduleResult.shifts r) ->
   coverage = PyNum.float_of_Z 100) /\
  (Forall (fun s => GeneratedShift.status s = pending) (ScheduleResult.shifts r) ->
   coverage = PyNum.float_of_Z 0).
Proof.
  intros Hst Hsol Hr.
  destruct (optimize_schedule_run _ _ _ Hst)
    as (shifts & model & value & _ & _ & _ & Hrun).
  rewrite Hsol in Hrun. rewrite Hrun in Hr. unfold extract_solution in Hr.
  bind_inv Hr. bind_inv Hr. bind_inv Hr. injection Hr as <-. simpl.
  split; [exact Ha0|]. split.
  - intros Hne Hall.
    rewrite coverage_when_all_filled in Ha0; [injection Ha0 as <-; reflexivity | exact Hne |].
    apply Forall_forall. intros g Hg. rewrite Forall_forall in Hall.
    specialize (Hall g Hg). apply in_map_iff in Hg. destruct Hg as [s [<- _]].
    unfold generated_shift in *. simpl in *.
    destruct (assigned_employees config value s); [discriminate Hall | discriminate].
  - intros Hall.
    rewrite coverage_when_none_filled in Ha0; [injection Ha0 as <-; reflexivity|].
    apply Forall_forall. intros g Hg. rewrite Forall_forall in Hall.
    specialize (Hall g Hg). apply in_map_iff in Hg. destruct Hg as [s [<- _]].
    unfold generated_shift in *. simpl in *.
    destruct (assigned_employees config value s); [reflexivity | discriminate Hall].
Qed.

Lemma coverage_of_result_witness :
  let solve := fun _ : CpModel.t => (OPTIMAL, Samples.split_day) in
  solver_status solve Samples.two_shifts = Some OPTIMAL /\
  exists r,
    optimize_schedule solve Samples.two_shifts = Return r /\
    ScheduleResult.shifts r <> [] /\
    Forall (fun s => GeneratedShift.status s = confirmed) (ScheduleResult.shifts r) /\
    ScheduleAnalytics.shiftCoveragePercentage (ScheduleResult.analytics r)
    = PyNum.float_of_Z 100.
Proof.
  intros solve. split; [vm_compute; reflexivity|].
  eexists. split; [vm_compute; reflexivity|].
  assert (Hall : Forall (fun s => GeneratedShift.status s = confirmed)
                        (map (generated_shift Samples.two_shifts Samples.split_day)
                             [Samples.morning_shift; Samples.evening_shift])).
  { repeat constructor. }
  split; [discriminate|]. split; [exact Hall|].
  destruct (coverage_of_result solve Samples.two_shifts OPTIMAL _
              ltac:(vm_compute; reflexivity) eq_refl ltac:(vm_compute; reflexivity))
    as [_ [Hfull _]].
  apply Hfull; [discriminate | exact Hall].
Defined.

(** ** The analytics of a solved run never overflow

    A quotient of two ints that is at most 1 is a finite float. *)

Lemma digits2_pos_bound (p : positive) :
  forall k, 0 <= k -> Z.pos p < 2 ^ k -> Z.pos (digits2_pos p) <= k.
Proof.
  induction p as [p IH|p IH|]; intros k Hk H; simpl.
  - assert (k <> 0) by (intros ->; simpl in H; lia).
    replace k with (Z.succ (k - 1)) in H by lia. rewrite Z.pow_succ_r in H by lia.
    specialize (IH (k - 1) ltac:(lia) ltac:(lia)). lia.
  - assert (k <> 0) by (intros ->; simpl in H; lia).
    replace k with (Z.succ (k - 1)) in H by lia. rewrite Z.pow_succ_r in H by lia.
    specialize (IH (k - 1) ltac:(lia) ltac:(lia)). lia.
  - assert (k <> 0) by (intros ->; simpl in H; lia). lia.
Qed.

Lemma Zdigits2_bound (m k : Z) : 0 <= m -> 0 <= k -> m < 2 ^ k -> Zdigits2 m <= k.
Proof.
  intros Hm Hk H. destruct m as [|p|p]; simpl; [exact Hk | | lia].
  apply digits2_pos_bound; assumption.
Qed.

Lemma shr_1_bound (mrs : shr_record) (k : Z) :
  0 <= k -> 0 <= shr_m mrs <= 2 ^ (k + 1) -> 0 <= shr_m (shr_1 mrs) <= 2 ^ k.
Proof.
  intros Hk H. rewrite Z.pow_add_r in H by lia. change (2 ^ 1) with 2 in H.
  destruct mrs as [m r s]. simpl in *.
  assert (0 < 2 ^ k) by (apply Z.pow_pos_nonneg; lia).
  destruct m as [|[p|p|]|p]; simpl; lia.
Qed.

Lemma iter_shr_1_bound (n : positive) :
  forall (mrs : shr_record) (k : Z),
    0 <= k -> 0 <= shr_m mrs <= 2 ^ (k + Z.pos n) ->
    0 <= shr_m (iter_pos shr_1 n mrs) <= 2 ^ k.
Proof.
  induction n as [n IH|n IH|]; intros mrs k Hk H; simpl.
  - apply IH; [exact Hk|]. apply IH; [lia|]. apply shr_1_bound; [lia|].
    replace (k + Z.pos n + Z.pos n + 1) with (k + Z.pos n~1) by lia. exact H.
  - apply IH; [exact Hk|]. apply IH; [lia|].
    replace (k + Z.pos n + Z.pos n) with (k + Z.pos n~0) by lia. exact H.
  - apply shr_1_bound; assumption.
Qed.

(** Rounding a mantissa that is at most [2 ^ (- e)], at an exponent
    [e <= 0], gives a finite number. *)
Lemma binary_round_aux_fraction (sx : bool) (m e : Z) (l : location) :
  e <= 0 -> 0 <= m <= 2 ^ (- e) ->
  match binary_round_aux 53 1024 sx m e l with
  | S754_zero _ | S754_finite _ _ _ => True
  | _ => False
  end.
Proof.
  intros He Hm. unfold binary_round_aux.
  assert (Hpos : 0 < 2 ^ (- e)) by (apply Z.pow_pos_nonneg; lia).
  assert (H1 : exists mrs1 e1, shr_fexp 53 1024 m e l = (mrs1, e1)
                               /\ 0 <= shr_m mrs1 <= 2 ^ (- e1) /\ e1 <= 0).
  { unfold shr_fexp, shr.
    assert (Hd : Zdigits2 m <= - e + 1).
    { apply Zdigits2_bound; [lia | lia |].
      rewrite Z.pow_add_r by lia. change (2 ^ 1) with 2. lia. }
    assert (Hf : fexp 53 1024 (Zdigits2 m + e) <= 0) by (unfold fexp, emin; lia).
    destruct (fexp 53 1024 (Zdigits2 m + e) - e) as [|n|n] eqn:Hn.
    - eexists _, _. split; [reflexivity|]. rewrite shr_record_of_loc_m. lia.
    - eexists _, _. split; [reflexivity|]. split; [|lia].
      apply iter_shr_1_bound; [lia|]. rewrite shr_record_of_loc_m.
      replace (- (e + Z.pos n) + Z.pos n) with (- e) by lia. exact Hm.
    - eexists _, _. split; [reflexivity|]. rewrite shr_record_of_loc_m. lia. }
  destruct H1 as (mrs1 & e1 & -> & Hm1 & He1).
  set (m1 := round_nearest_even (shr_m mrs1) (loc_of_shr_record mrs1)).
  assert (Hr : shr_m mrs1 <= m1 <= shr_m mrs1 + 1).
  { unfold m1, round_nearest_even.
    destruct (loc_of_shr_record mrs1) as [|[| |]]; try lia.
    destruct (Z.even (shr_m mrs1)); lia. }
  assert (Hpos1 : 0 < 2 ^ (- e1)) by (apply Z.pow_pos_nonneg; lia).
  assert (H2 : exists mrs2 e2, shr_fexp 53 1024 m1 e1 loc_Exact = (mrs2, e2)
                               /\ 0 <= shr_m mrs2 /\ e2 <= 0).
  { unfold shr_fexp, shr.
    assert (Hd : Zdigits2 m1 <= - e1 + 2).
    { apply Zdigits2_bound; [lia | lia |].
      replace (- e1 + 2) with (- e1 + 1 + 1) by lia.
      rewrite !Z.pow_add_r by lia. change (2 ^ 1) with 2. lia. }
    assert (Hf : fexp 53 1024 (Zdigits2 m1 + e1) <= 0) by (unfold fexp, emin; lia).
    destruct (fexp 53 1024 (Zdigits2 m1 + e1) - e1) as [|n|n] eqn:Hn.
    - eexists _, _. split; [reflexivity|]. simpl. lia.
    - eexists _, _. split; [reflexivity|]. split; [|lia].
      apply (iter_shr_1_bound n _ (- e1 + 1)); [lia|]. simpl.
      split; [lia|].
      apply Z.le_trans with (2 ^ (- e1 + 1)).
      + rewrite Z.pow_add_r by lia. change (2 ^ 1) with 2. lia.
      + apply Z.pow_le_mono_r; lia.
    - eexists _, _. split; [reflexivity|]. simpl. lia. }
  destruct H2 as (mrs2 & e2 & -> & Hm2 & He2).
  destruct (shr_m mrs2) as [|p|p]; [exact I | | lia].
  replace (e2 <=? 1024 - 53) with true by (symmetry; apply Z.leb_le; lia).
  exact I.
Qed.

(** [a / b] with [0 <= a <= b] and [0 < b] returns a float. *)
Lemma int_truediv_fraction (a b : Z) :
  0 <= a <= b -> 0 < b -> exists q, PyNum.int_truediv a b = Return q.
Proof.
  intros Ha Hb. unfold PyNum.int_truediv.
  destruct b as [|q|q]; try lia. change (Z.pos q =? 0) with false. cbv iota.
  destruct a as [|p|p]; try lia.
  - eexists. reflexivity.
  - change (Z.pos p =? 0) with false. cbv iota.
    assert (H : match SFdiv PyNum.prec PyNum.emax (PyNum.exact (Z.pos p))
                            (PyNum.exact (Z.pos q)) with
                | S754_zero _ | S754_finite _ _ _ => True
                | _ => False
                end).
    { unfold PyNum.exact, PyNum.prec, PyNum.emax, SFdiv, SFdiv_core_binary.
      set (e' := Z.min (fexp 53 1024 (Zdigits2 (Z.pos p) + 0 - (Zdigits2 (Z.pos q) + 0)))
                       (0 - 0)).
      assert (He : e' <= 0) by (unfold e'; lia).
      cbv zeta.
      set (m' := match 0 - 0 - e' with
                 | 0 => Z.pos p
                 | Z.pos _ => Z.shiftl (Z.pos p) (0 - 0 - e')
                 | Z.neg _ => 0
                 end).
      assert (Hm' : m' = Z.pos p * 2 ^ (- e')).
      { unfold m'. destruct (0 - 0 - e') as [|s|s] eqn:Hs.
        - replace (- e') with 0 by lia. lia.
        - rewrite Z.shiftl_mul_pow2 by lia. f_equal. f_equal. lia.
        - lia. }
      rewrite div_eucl_pair.
      apply binary_round_aux_fraction; [exact He|].
      assert (Hpos : 0 < 2 ^ (- e')) by (apply Z.pow_pos_nonneg; lia).
      rewrite Hm'. split.
      - apply Z.div_pos; lia.
      - apply Z.div_le_upper_bound; [lia|]. nia. }
    destruct (SFdiv _ _ _ _); try contradiction; eexists; reflexivity.
Qed.

Lemma coverage_returns (generated : list GeneratedShift.t) :
  exists coverage, coverage_percentage generated = Return coverage.
Proof.
  unfold coverage_percentage.
  destruct generated as [|g gs] eqn:Hg; [eexists; reflexivity|]. rewrite <- Hg.
  destruct (int_truediv_fraction
              (Z.of_nat (List.length
                           (filter (fun s => match GeneratedShift.assignedEmployees s with
                                             | [] => false
                                             | _ :: _ => true
                                             end) generated)))
              (Z.of_nat (List.length generated))) as [q ->].
  - split; [lia|]. apply Nat2Z.inj_le. apply filter_length_le.
  - rewrite Hg. simpl. lia.
  - cbn [bind]. eexists. reflexivity.
Qed.

Lemma utilization_returns (total : PyNum.number) (employee : Employee.t) :
  plain total ->
  Employee.maxHoursPerWeek employee <> 0 ->
  fits_double (Employee.maxHoursPerWeek employee) = true ->
  exists p, utilization_percentage total employee = Return p.
Proof.
  intros Hp Hz Hf. unfold utilization_percentage, fits_double in *.
  destruct total as [z|f]; simpl in *.
  - subst z. unfold PyNum.int_truediv.
    apply Z.eqb_neq in Hz. rewrite Hz. simpl. eexists. reflexivity.
  - unfold PyNum.float_of_int, PyNum.float_truediv.
    pose proof (float_of_Z_nonzero _ Hz) as Hnz.
    destruct (PyNum.float_of_Z (Employee.maxHoursPerWeek employee)) as [s|s| |s m e];
      try discriminate; simpl; eexists; reflexivity.
Qed.

Lemma utilization_loop_returns (config : SchedulingConfig.t)
    (generated : list GeneratedShift.t) (emps : list Employee.t) :
  (forall e, In e emps ->
             Employee.maxHoursPerWeek e <> 0 /\
             fits_double (Employee.maxHoursPerWeek e) = true) ->
  forall total, plain total ->
                exists util, utilization_loop config generated emps total = Return util
                             /\ plain (snd util).
Proof.
  induction emps as [|e0 rest IH]; intros Hok total Hp; simpl.
  - exists ([], total). split; [reflexivity | exact Hp].
  - destruct (hours_of_plain config (filter (works e0) generated) (PyNum.PyInt 0) eq_refl)
      as [hours [-> Hh]]. cbn [bind].
    destruct (add_plain total hours Hp Hh) as [total' [-> Ht]]. cbn [bind].
    destruct (Hok e0 (or_introl eq_refl)) as [Hz Hf].
    destruct (utilization_returns hours e0 Hh Hz Hf) as [p ->]. cbn [bind].
    assert (Hto : exists h, PyNum.to_float hours = Return h).
    { destruct hours as [z|f]; simpl in *; [subst z|]; eexists; reflexivity. }
    destruct Hto as [h ->]. cbn [bind].
    destruct (IH (fun e He => Hok e (or_intror He)) total' Ht) as [[more t] [-> Hplain]].
    cbn [bind]. eexists. split; [reflexivity | exact Hplain].
Qed.

(** X16.  Once the model is compiled, [optimize_schedule] returns a result
    for every answer of the solver, provided that the weekly maximum of
    every employee is not 0 and can be converted to a float: with these
    maxima the analytics raise no exception, whatever the assignment and
    however many shifts there are. *)
Theorem solved_run_returns (solve : Solver) (config : SchedulingConfig.t)
    (status : CpSolverStatus) :
  solver_status solve config = Some status ->
  (forall e, In e (SchedulingConfig.employees config) ->
             Employee.maxHoursPerWeek e <> 0 /\
             fits_double (Employee.maxHoursPerWeek e) = true) ->
  exists r, optimize_schedule solve config = Return r.
Proof.
  intros Hst Hok.
  destruct (optimize_schedule_run _ _ _ Hst)
    as (shifts & model & value & _ & _ & _ & ->).
  destruct (has_solution status); [|eexists; reflexivity].
  unfold extract_solution.
  destruct (utilization_loop_returns config
              (map (generated_shift config value) shifts)
              (SchedulingConfig.employees config) Hok (PyNum.PyInt 0) eq_refl)
    as [[entries total] [-> Hplain]]. cbn [bind].
  destruct (coverage_returns (map (generated_shift config value) shifts)) as [c ->].
  cbn [bind].
  assert (Hto : exists h, PyNum.to_float (snd (entries, total)) = Return h).
  { simpl in *. destruct total as [z|f]; simpl in *; [subst z|]; eexists; reflexivity. }
  destruct Hto as [h ->]. cbn [bind]. eexists. reflexivity.
Qed.

Lemma solved_run_returns_witness :
  let solve := fun _ : CpModel.t => (OPTIMAL, Samples.split_day) in
  solver_status solve Samples.two_shifts = Some OPTIMAL /\
  exists r, optimize_schedule solve Samples.two_shifts = Return r.
Proof.
  intros solve. split; [vm_compute; reflexivity|].
  apply (solved_run_returns solve Samples.two_shifts OPTIMAL ltac:(vm_compute; reflexivity)).
  intros e He. simpl in He.
  destruct He as [<-|[<-|[]]]; split; try discriminate; vm_compute; reflexivity.
Defined.

(** ** [parse_time] checks no range *)

Lemma digit_facts (d : Z) :
  0 <= d <= 9 ->
  PyStr.digit_value (digit d) = Some d /\
  PyStr.is_space (digit d) = false /\
  Ascii.eqb (digit d) ":"%char = false /\
  Ascii.eqb (digit d) "+"%char = false /\
  Ascii.eqb (digit d) "-"%char = false.
Proof.
  intros H.
  assert (Hd : d = 0 \/ d = 1 \/ d = 2 \/ d = 3 \/ d = 4 \/ d = 5 \/ d = 6 \/ d = 7
               \/ d = 8 \/ d = 9) by lia.
  repeat (destruct Hd as [->|Hd]; [repeat split; reflexivity|]).
  subst d. repeat split; reflexivity.
Qed.

Lemma lstrip_numeral (ds : list Z) :
  Forall (fun d => 0 <= d <= 9) ds -> PyStr.lstrip (numeral ds) = numeral ds.
Proof.
  intros H. destruct H as [|d ds Hd _]; [reflexivity|].
  unfold numeral. cbn [map PyStr.lstrip].
  destruct (digit_facts d Hd) as (_ & -> & _). reflexivity.
Qed.

Lemma strip_numeral (ds : list Z) :
  Forall (fun d => 0 <= d <= 9) ds -> PyStr.strip (numeral ds) = numeral ds.
Proof.
  intros H. unfold PyStr.strip. rewrite (lstrip_numeral ds H).
  unfold numeral. rewrite <- map_rev.
  change (map digit (rev ds)) with (numeral (rev ds)).
  rewrite lstrip_numeral by (apply Forall_rev; exact H).
  unfold numeral. rewrite <- map_rev, rev_involutive. reflexivity.
Qed.

Lemma parse_digits_numeral (ds : list Z) :
  Forall (fun d => 0 <= d <= 9) ds ->
  forall acc after_digit,
    ds <> [] \/ after_digit = true ->
    PyStr.parse_digits acc after_digit (numeral ds)
    = Some (fold_left (fun acc d => acc * 10 + d) ds acc).
Proof.
  induction 1 as [|d ds Hd _ IH]; intros acc b Hb.
  - destruct Hb as [Hb| ->]; [contradiction | reflexivity].
  - unfold numeral. cbn [map PyStr.parse_digits fold_left].
    destruct (digit_facts d Hd) as (-> & _).
    apply IH. right. reflexivity.
Qed.

Lemma int_of_chars_unsigned (l r : list ascii) (c : ascii) :
  PyStr.strip l = c :: r ->
  Ascii.eqb c "+"%char = false -> Ascii.eqb c "-"%char = false ->
  PyStr.int_of_chars l = PyStr.parse_digits 0 false (c :: r).
Proof.
  intros Hs Hplus Hminus. unfold PyStr.int_of_chars. rewrite Hs.
  destruct c as [[] [] [] [] [] [] [] []]; try reflexivity; discriminate.
Qed.

Lemma int_of_chars_numeral (ds : list Z) :
  decimal_digits ds -> PyStr.int_of_chars (numeral ds) = Some (number_of ds).
Proof.
  intros (Hne & _ & Hall).
  destruct ds as [|d ds]; [contradiction|].
  pose proof (strip_numeral _ Hall) as Hs.
  inversion Hall as [|? ? Hd _]; subst.
  destruct (digit_facts d Hd) as (_ & _ & _ & Hplus & Hminus).
  rewrite (int_of_chars_unsigned (numeral (d :: ds)) (numeral ds) (digit d) Hs Hplus Hminus).
  apply (parse_digits_numeral (d :: ds) Hall 0 false). left. discriminate.
Qed.

Lemma split_at_field (sep : ascii) (field rest : list ascii) :
  Forall (fun c => Ascii.eqb c sep = false) field ->
  forall cur,
    PyStr.split_at sep cur (field ++ sep :: rest)
    = (rev cur ++ field) :: PyStr.split_at sep [] rest.
Proof.
  induction 1 as [|c field Hc _ IH]; intros cur; simpl.
  - rewrite Ascii.eqb_refl, app_nil_r. reflexivity.
  - rewrite Hc, IH. simpl. rewrite <- app_assoc. reflexivity.
Qed.

Lemma split_at_last (sep : ascii) (field : list ascii) :
  Forall (fun c => Ascii.eqb c sep = false) field ->
  forall cur, PyStr.split_at sep cur field = [rev cur ++ field].
Proof.
  induction 1 as [|c field Hc _ IH]; intros cur; simpl.
  - rewrite app_nil_r. reflexivity.
  - rewrite Hc, IH. simpl. rewrite <- app_assoc. reflexivity.
Qed.

Lemma numeral_no_colon (ds : list Z) :
  Forall (fun d => 0 <= d <= 9) ds ->
  Forall (fun c => Ascii.eqb c ":"%char = false) (numeral ds).
Proof.
  intros H. unfold numeral. apply Forall_forall. intros c Hc.
  apply in_map_iff in Hc. destruct Hc as [d [<- Hd]].
  rewrite Forall_forall in H. apply (digit_facts d (H d Hd)).
Qed.

(** X17.  [parse_time] checks no range: for every hour and every minute
    written with decimal digits, whatever their values, the text
    hour:minute is read as sixty times the hour plus the minute; 99:99 is
    read as 6039 minutes. *)
Theorem parse_time_unchecked (hs ms : list Z) :
  decimal_digits hs -> decimal_digits ms ->
  parse_time (time_text hs ms) = Return (number_of hs * 60 + number_of ms).
Proof.
  intros Hh Hm. unfold parse_time, PyStr.split, time_text.
  rewrite list_ascii_of_string_of_list_ascii.
  destruct Hh as (Hh1 & Hh2 & Hh3). destruct Hm as (Hm1 & Hm2 & Hm3).
  rewrite (split_at_field _ _ _ (numeral_no_colon hs Hh3)).
  rewrite (split_at_last _ _ (numeral_no_colon ms Hm3)). simpl rev. simpl app.
  rewrite (int_of_chars_numeral hs (conj Hh1 (conj Hh2 Hh3))).
  rewrite (int_of_chars_numeral ms (conj Hm1 (conj Hm2 Hm3))).
  reflexivity.
Qed.

Lemma parse_time_unchecked_witness :
  decimal_digits [9; 9] /\ time_text [9; 9] [9; 9] = "99:99"%string /\
  parse_time "99:99" = Return 6039.
Proof.
  assert (H : decimal_digits [9; 9]).
  { split; [discriminate|]. split; [simpl; lia|]. repeat constructor; lia. }
  split; [exact H|]. split; [reflexivity|].
  apply (parse_time_unchecked [9; 9] [9; 9] H H).
Defined.

(** ** The scan of the availability slots *)

Lemma is_available_stops (before after : list AvailabilitySlot.t)
    (slot : AvailabilitySlot.t) (day shift_start shift_end slot_start slot_end : Z) :
  Forall readable before ->
  parse_time (AvailabilitySlot.startTime slot) = Return slot_start ->
  parse_time (AvailabilitySlot.endTime slot) = Return slot_end ->
  day = AvailabilitySlot.dayOfWeek slot ->
  slot_start <= shift_start -> shift_end <= slot_end ->
  is_available (before ++ slot :: after) day shift_start shift_end = Return true.
Proof.
  intros Hb Hs He Hd Hle1 Hle2.
  induction Hb as [|s0 before [a [b [Ha Hb0]]] _ IH]; simpl.
  - rewrite Hs, He. cbn [bind].
    replace (day =? AvailabilitySlot.dayOfWeek slot) with true
      by (symmetry; apply Z.eqb_eq; exact Hd).
    replace (slot_start <=? shift_start) with true by (symmetry; apply Z.leb_le; exact Hle1).
    replace (shift_end <=? slot_end) with true by (symmetry; apply Z.leb_le; exact Hle2).
    reflexivity.
  - rewrite Ha, Hb0. cbn [bind]. rewrite IH.
    destruct ((day =? AvailabilitySlot.dayOfWeek s0) && (a <=? shift_start)
              && (shift_end <=? b)); reflexivity.
Qed.

Lemma is_available_fails (before after : list AvailabilitySlot.t)
    (slot : AvailabilitySlot.t) (day shift_start shift_end : Z) :
  Forall (fun s => forall a b,
              parse_time (AvailabilitySlot.startTime s) = Return a ->
              parse_time (AvailabilitySlot.endTime s) = Return b ->
              (day =? AvailabilitySlot.dayOfWeek s) && (a <=? shift_start)
              && (shift_end <=? b) = false) before ->
  Forall readable before ->
  ~ readable slot ->
  is_available (before ++ slot :: after) day shift_start shift_end = Raise ValueError.
Proof.
  intros Hno Hb Hbad.
  induction Hb as [|s0 before [a [b [Ha Hb0]]] _ IH]; simpl.
  - destruct (parse_time (AvailabilitySlot.startTime slot)) as [a|e1] eqn:Hs.
    + destruct (parse_time (AvailabilitySlot.endTime slot)) as [b|e2] eqn:He.
      * exfalso. apply Hbad. exists a, b. split; [exact Hs | exact He].
      * cbn [bind]. rewrite (parse_time_raises _ _ He). reflexivity.
    + cbn [bind]. rewrite (parse_time_raises _ _ Hs). reflexivity.
  - inversion Hno as [|? ? Hno0 Hno']; subst.
    rewrite Ha, Hb0. cbn [bind]. rewrite (Hno0 a b Ha Hb0).
    apply IH. exact Hno'.
Qed.

(** X18.  The availability slots are scanned in order and the scan stops at
    the first slot that covers the shift: a slot after it is not read, so a
    time there that [parse_time] cannot read goes unnoticed, while such a
    slot before every covering slot makes the pass raise [ValueError]. *)
Theorem availability_scan_stops (employee : Employee.t) (shift : Shift.t)
    (before after : list AvailabilitySlot.t) (slot : AvailabilitySlot.t) :
  Employee.availability employee = before ++ slot :: after ->
  Forall readable before ->
  (slot_covers slot shift -> shift_available employee shift = Return true) /\
  ((exists shift_start shift_end,
       parse_time (Shift.startTime shift) = Return shift_start /\
       parse_time (Shift.endTime shift) = Return shift_end) ->
   (forall s, In s before -> ~ slot_covers s shift) ->
   ~ readable slot ->
   shift_available employee shift = Raise ValueError).
Proof.
  intros Hav Hb. unfold shift_available. rewrite Hav. split.
  - intros (a & b & s & e & Ha & Hb0 & Hs & He & Hd & Hle1 & Hle2).
    rewrite Hs, He. cbn [bind].
    apply (is_available_stops before after slot _ s e a b Hb Ha Hb0 Hd Hle1 Hle2).
  - intros (s & e & Hs & He) Hno Hbad. rewrite Hs, He. cbn [bind].
    apply is_available_fails; [|exact Hb | exact Hbad].
    apply Forall_forall. intros s0 Hin a b Ha Hb0.
    apply not_true_is_false. intros Hc. apply (Hno s0 Hin).
    apply andb_prop in Hc. destruct Hc as [Hc H3].
    apply andb_prop in Hc. destruct Hc as [H1 H2].
    apply Z.eqb_eq in H1. apply Z.leb_le in H2, H3.
    exists a, b, s, e. repeat split; assumption.
Qed.

Lemma availability_scan_stops_witness :
  shift_available MoreSamples.careless Samples.morning_shift = Return true /\
  shift_available MoreSamples.careless_first Samples.morning_shift = Raise ValueError.
Proof.
  split.
  - apply (availability_scan_stops MoreSamples.careless Samples.morning_shift
             [] [AvailabilitySlot.make 0 "noon" "13:00"]
             (AvailabilitySlot.make 0 "09:00" "12:00") eq_refl (Forall_nil _)).
    exists 540, 720, 540, 720. repeat split; try reflexivity; lia.
  - apply (availability_scan_stops MoreSamples.careless_first Samples.morning_shift
             [] [AvailabilitySlot.make 0 "09:00" "12:00"]
             (AvailabilitySlot.make 0 "noon" "13:00") eq_refl (Forall_nil _)).
    + exists 540, 720. split; reflexivity.
    + intros s [].
    + intros [a [b [Ha _]]]. vm_compute in Ha. discriminate Ha.
Defined.

(** ** The objective *)

Lemma eval_plus (value : valuation) (a b : expr) :
  eval value (plus a b) = eval value a + eval value b.
Proof.
  unfold plus, eval. cbn [terms offset]. rewrite eval_terms_app. lia.
Qed.

Lemma eval_scale (value : valuation) (k : Z) (a : expr) :
  eval value (scale k a) = k * eval value a.
Proof.
  unfold scale, eval. cbn [terms offset]. rewrite eval_terms_scale. lia.
Qed.

Lemma eval_sum_vars_values (value : valuation) (vs : list var) :
  eval value (sum_vars vs) = fold_right Z.add 0 (map value vs).
Proof.
  unfold eval, sum_vars, eval_terms. cbn [terms offset]. rewrite Z.add_0_r.
  induction vs as [|v vs IH]; cbn [map fold_right fst snd]; [reflexivity|].
  rewrite IH. lia.
Qed.

Lemma eval_night_shift_vars (value : valuation) (nights : list Shift.t)
    (emps : list Employee.t) :
  (forall e s, In e emps -> In s nights -> value (x e s) = 0 \/ value (x e s) = 1) ->
  eval value (sum_vars (flat_map (fun emp => map (x emp) nights) emps))
  = fold_right Z.add 0
      (map (fun e => Z.of_nat (List.length (filter (is_assigned value e) nights))) emps).
Proof.
  intros Hb. induction emps as [|e emps IH]; [reflexivity|].
  cbn [flat_map map fold_right].
  rewrite <- IH by (intros e' s He' Hs; apply Hb; [right; exact He' | exact Hs]).
  assert (He : eval value (sum_vars (map (x e) nights))
               = Z.of_nat (List.length (filter (is_assigned value e) nights))).
  { apply (eval_sum_vars_map value (x e) nights).
    intros s Hs. apply Hb; [left; reflexivity | exact Hs]. }
  rewrite <- He.
  unfold eval, sum_vars. cbn [terms offset].
  rewrite map_app, eval_terms_app. lia.
Qed.

(** X19.  The model has an objective exactly when the fairness weight is
    positive or night shifts are to be minimised.  On a solved schedule the
    objective evaluates to the integer part of a hundred times the fairness
    weight, times the sum of the deviation variables, plus the number of
    assignments of an employee to a night shift, each part being present
    only when its option is on. *)
Theorem objective_value (config : SchedulingConfig.t) (value : valuation)
    (shifts : list Shift.t) (model : CpModel.t) :
  solved_schedule config value = Some shifts ->
  build_model config shifts = Return model ->
  let employees := SchedulingConfig.employees config in
  let weight_of := Constraints.prioritizeFairness (SchedulingConfig.constraints config) in
  let fair := PyNum.float_gt_int weight_of 0 in
  let night := Preferences.minimizeNightShifts (SchedulingConfig.preferences config) in
  (objective model = None <-> fair = false /\ night = false) /\
  (forall goal,
      objective model = Some goal ->
      exists weight,
        (fair = true ->
         (scaled <- PyNum.float_mul_int weight_of 100 ;; PyNum.int_of_float scaled)
         = Return weight) /\
        eval value goal
        = (if fair then weight * total_deviation value employees else 0)
          + (if night then night_assignments value employees shifts else 0)).
Proof.
  intros solved Hm employees weight_of fair night.
  destruct (build_model_inv _ _ _ Hm) as (c0 & c4 & c6 & part & _ & _ & _ & Hf & ->).
  cbn [objective].
  assert (Hnight : forall e, night = true ->
            night_shift_penalty config shifts
            = [sum_vars (flat_map (fun emp => map (x emp) (filter Shift.isNightShift shifts))
                                  employees)] /\
            eval value (sum_vars (flat_map (fun emp => map (x emp)
                                                           (filter Shift.isNightShift shifts))
                                           employees)) + e
            = night_assignments value employees shifts + e).
  { intros e Hn. unfold night_shift_penalty. fold night. rewrite Hn.
    split; [reflexivity|]. f_equal.
    apply eval_night_shift_vars. intros emp s He Hs.
    apply (solved_boolean _ _ _ solved); [exact He|].
    apply filter_In in Hs. apply Hs. }
  assert (Hday : night = false -> night_shift_penalty config shifts = []).
  { intros Hn. unfold night_shift_penalty. fold night. rewrite Hn. reflexivity. }
  unfold fairness_pass in Hf. fold weight_of in Hf. fold fair in Hf.
  destruct fair eqn:Hfair.
  - bind_inv Hf. injection Hf as <-. cbn [fairness_objective app objective_of fold_left].
    split; [split; [destruct night; discriminate | intros [H _]; discriminate]|].
    intros goal Hgoal. exists a. split; [intros _; exact Ha|].
    assert (Hdev : eval value (scale a (fairness_penalty config))
                   = a * total_deviation value employees).
    { rewrite eval_scale. f_equal. unfold fairness_penalty.
      rewrite eval_sum_vars_values, map_map. reflexivity. }
    destruct night eqn:Hn.
    + destruct (Hnight 0 eq_refl) as [Hp He]. rewrite Hp in Hgoal.
      cbn [fold_left] in Hgoal. injection Hgoal as <-.
      rewrite !eval_plus, Hdev. unfold eval at 1. cbn [const terms offset eval_terms fold_right].
      lia.
    + rewrite (Hday eq_refl) in Hgoal. cbn [fold_left] in Hgoal. injection Hgoal as <-.
      rewrite !eval_plus, Hdev. unfold eval at 1. cbn [const terms offset eval_terms fold_right].
      lia.
  - injection Hf as <-. cbn [fairness_objective app].
    destruct night eqn:Hn.
    + destruct (Hnight 0 eq_refl) as [Hp He]. rewrite Hp.
      cbn [objective_of fold_left].
      split; [split; [discriminate | intros [_ H]; discriminate]|].
      intros goal Hgoal. injection Hgoal as <-. exists 0.
      split; [discriminate|].
      rewrite eval_plus. unfold eval at 1. cbn [const terms offset eval_terms fold_right].
      lia.
    + rewrite (Hday eq_refl). cbn [objective_of].
      split; [split; [intros _; split; reflexivity | reflexivity]|].
      intros goal Hgoal. discriminate Hgoal.
Qed.

Lemma objective_value_witness :
  solved_schedule MoreSamples.saturday Samples.everyone = Some [MoreSamples.saturday_night] /\
  exists model goal,
    build_model MoreSamples.saturday [MoreSamples.saturday_night] = Return model /\
    objective model = Some goal /\
    eval Samples.everyone goal = 1.
Proof.
  split; [vm_compute; reflexivity|].
  eexists. eexists. split; [vm_compute; reflexivity|]. split; [reflexivity|].
  destruct (objective_value MoreSamples.saturday Samples.everyone
              [MoreSamples.saturday_night] _
              ltac:(vm_compute; reflexivity) ltac:(vm_compute; reflexivity)) as [_ H].
  destruct (H _ eq_refl) as [weight [Hw Hv]].
  rewrite Hv.
  specialize (Hw ltac:(vm_compute; reflexivity)).
  vm_compute in Hw. injection Hw as <-. vm_compute. reflexivity.
Defined.

(** ** Roles that cannot be staffed *)




(** ** When the model is compiled *)






(** ** What is read of a request *)

(** Passes over two lists of employees that agree on what the model reads. *)
Lemma same_staff_map {B : Type} (f g : Employee.t -> B) (staff1 staff2 : list Employee.t) :
  Forall2 same_employee staff1 staff2 ->
  (forall a b, same_employee a b -> f a = g b) -> map f staff1 = map g staff2.
Proof.
  intros same H. induction same as [|a b l1 l2 Hab _ IH]; simpl; [reflexivity|].
  rewrite (H a b Hab), IH. reflexivity.
Qed.

Lemma same_staff_flat_map {B : Type} (f g : Employee.t -> list B)
    (staff1 staff2 : list Employee.t) :
  Forall2 same_employee staff1 staff2 ->
  (forall a b, same_employee a b -> f a = g b) -> flat_map f staff1 = flat_map g staff2.
Proof.
  intros same H. induction same as [|a b l1 l2 Hab _ IH]; simpl; [reflexivity|].
  rewrite (H a b Hab), IH. reflexivity.
Qed.

Lemma same_staff_concatM {B : Type} (f g : Employee.t -> Py (list B))
    (staff1 staff2 : list Employee.t) :
  Forall2 same_employee staff1 staff2 ->
  (forall a b, same_employee a b -> f a = g b) -> concatM f staff1 = concatM g staff2.
Proof.
  intros same H. induction same as [|a b l1 l2 Hab _ IH]; simpl; [reflexivity|].
  rewrite (H a b Hab), IH. reflexivity.
Qed.

Lemma same_staff_filter (p q : Employee.t -> bool) (staff1 staff2 : list Employee.t) :
  Forall2 same_employee staff1 staff2 ->
  (forall a b, same_employee a b -> p a = q b) ->
  Forall2 same_employee (filter p staff1) (filter q staff2).
Proof.
  intros same H. induction same as [|a b l1 l2 Hab _ IH]; simpl; [constructor|].
  rewrite (H a b Hab). destruct (q b); [constructor; assumption | exact IH].
Qed.

Lemma same_staff_length (staff1 staff2 : list Employee.t) :
  Forall2 same_employee staff1 staff2 -> List.length staff1 = List.length staff2.
Proof.
  intros same. induction same as [|a b l1 l2 _ _ IH]; simpl; [reflexivity|].
  rewrite IH. reflexivity.
Qed.

Lemma same_staff_numbered {B : Type} (f g : nat * Employee.t -> list B)
    (staff1 staff2 : list Employee.t) :
  Forall2 same_employee staff1 staff2 ->
  (forall i a b, same_employee a b -> f (i, a) = g (i, b)) ->
  forall start,
    flat_map f (combine (seq start (List.length staff1)) staff1)
    = flat_map g (combine (seq start (List.length staff2)) staff2).
Proof.
  intros same H. induction same as [|a b l1 l2 Hab _ IH]; intros start; simpl; [reflexivity|].
  rewrite (H start a b Hab), IH. reflexivity.
Qed.

Lemma same_employee_x (a b : Employee.t) :
  same_employee a b -> x a = x b.
Proof. intros [Hid _]. unfold x. rewrite Hid. reflexivity. Qed.

Lemma same_staff_x (staff1 staff2 : list Employee.t) (shift : Shift.t) :
  Forall2 same_employee staff1 staff2 ->
  map (fun emp => x emp shift) staff1 = map (fun emp => x emp shift) staff2.
Proof.
  intros same. apply (same_staff_map _ _ _ _ same).
  intros a b Hab. rewrite (same_employee_x a b Hab). reflexivity.
Qed.

Ltac same_inputs H :=
  destruct H as (Hstaff & Htypes & Hstart & Hend & Hoff & Hholidays & Hhours & Hnights
                 & Hrest & Hfair & Hnight & Hweekend).

Section SameModel.

Variables c1 c2 : SchedulingConfig.t.
Variable shifts : list Shift.t.

Lemma same_variables :
  same_model_inputs c1 c2 -> employee_shift_vars c1 shifts = employee_shift_vars c2 shifts.
Proof.
  intros same. same_inputs same.
  unfold employee_shift_vars. apply (same_staff_flat_map _ _ _ _ Hstaff).
  intros a b Hab. rewrite (same_employee_x a b Hab). reflexivity.
Qed.

Lemma same_availability :
  same_model_inputs c1 c2 ->
  availability_constraints c1 shifts = availability_constraints c2 shifts.
Proof.
  intros same. same_inputs same.
  unfold availability_constraints. apply (same_staff_concatM _ _ _ _ Hstaff).
  intros a b (Hid & _ & Hav).
  unfold availability_of_employee, availability_of_shift, shift_available, fixed_to_false, x.
  rewrite Hid, Hav. reflexivity.
Qed.

Lemma same_coverage :
  same_model_inputs c1 c2 -> coverage_constraints c1 shifts = coverage_constraints c2 shifts.
Proof.
  intros same. same_inputs same.
  unfold coverage_constraints. apply flat_map_ext. intros shift.
  unfold coverage_of_shift.
  destruct (Shift.requiredRoles shift) as [|r0 rest].
  - pose proof (same_staff_x _ _ shift Hstaff) as Hx.
    destruct Hstaff; [reflexivity|]. rewrite Hx. reflexivity.
  - apply flat_map_ext. intros required_role. unfold role_requirement.
    assert (Hr : Forall2 same_employee
                         (role_employees c1 (RequiredRole.role required_role))
                         (role_employees c2 (RequiredRole.role required_role))).
    { unfold role_employees. apply (same_staff_filter _ _ _ _ Hstaff).
      intros a b (_ & Hrole & _). rewrite Hrole. reflexivity. }
    pose proof (same_staff_x _ _ shift Hr) as Hx.
    destruct Hr; [reflexivity|]. rewrite Hx. reflexivity.
Qed.

Lemma same_one_shift_per_day :
  same_model_inputs c1 c2 ->
  one_shift_per_day_constraints c1 shifts = one_shift_per_day_constraints c2 shifts.
Proof.
  intros same. same_inputs same.
  unfold one_shift_per_day_constraints. apply (same_staff_flat_map _ _ _ _ Hstaff).
  intros a b [Hid _]. unfold at_most_one, x. rewrite Hid. reflexivity.
Qed.

Lemma same_weekly_hours :
  same_model_inputs c1 c2 ->
  weekly_hours_constraints c1 shifts = weekly_hours_constraints c2 shifts.
Proof.
  intros same. same_inputs same.
  unfold weekly_hours_constraints, max_minutes_per_week. cbv zeta. rewrite Hhours.
  apply (same_staff_flat_map _ _ _ _ Hstaff).
  intros a b [Hid _]. unfold total_minutes, x. rewrite Hid. reflexivity.
Qed.

Lemma same_min_rest :
  same_model_inputs c1 c2 -> min_rest_constraints c1 shifts = min_rest_constraints c2 shifts.
Proof.
  intros same. same_inputs same.
  unfold min_rest_constraints. apply (same_staff_concatM _ _ _ _ Hstaff).
  intros a b [Hid _]. unfold rest_of_pair, rest_too_short, at_most_one, x.
  rewrite Hrest, Hid. reflexivity.
Qed.

Lemma same_night_shifts :
  same_model_inputs c1 c2 ->
  night_shift_constraints c1 shifts = night_shift_constraints c2 shifts.
Proof.
  intros same. same_inputs same.
  unfold night_shift_constraints. cbv zeta. rewrite Hnights.
  apply (same_staff_flat_map _ _ _ _ Hstaff).
  intros a b [Hid _]. unfold x. rewrite Hid. reflexivity.
Qed.

Lemma same_fairness_cap :
  same_model_inputs c1 c2 ->
  fairness_cap_constraints c1 shifts = fairness_cap_constraints c2 shifts.
Proof.
  intros same. same_inputs same.
  unfold fairness_cap_constraints. cbv zeta. rewrite Hfair, (same_staff_length _ _ Hstaff).
  destruct (PyNum.float_gt (Constraints.prioritizeFairness (SchedulingConfig.constraints c2))
                          PyNum.f0_5); [|reflexivity].
  destruct (int_floordiv _ _) as [q|e]; [|reflexivity]. cbn [bind]. f_equal.
  apply (same_staff_map _ _ _ _ Hstaff).
  intros a b [Hid _]. unfold employee_total_shifts, x. rewrite Hid. reflexivity.
Qed.

Lemma same_fairness_pass :
  same_model_inputs c1 c2 -> fairness_pass c1 shifts = fairness_pass c2 shifts.
Proof.
  intros same. same_inputs same.
  unfold fairness_pass. cbv zeta. rewrite Hfair.
  destruct (PyNum.float_gt_int
              (Constraints.prioritizeFairness (SchedulingConfig.constraints c2)) 0);
    [|reflexivity].
  destruct (bind (PyNum.float_mul_int _ 100) _) as [weight|e]; [|reflexivity].
  cbn [bind]. f_equal.
  assert (Hideal : ideal_shifts_per_employee c1 shifts = ideal_shifts_per_employee c2 shifts).
  { unfold ideal_shifts_per_employee. rewrite (same_staff_length _ _ Hstaff).
    destruct Hstaff; reflexivity. }
  assert (Hvars : forall B (h : nat -> B),
             map (fun p : nat * Employee.t => h (fst p))
                 (enumerate (SchedulingConfig.employees c1))
             = map (fun p : nat * Employee.t => h (fst p))
                   (enumerate (SchedulingConfig.employees c2))).
  { intros B h. unfold enumerate. generalize 0%nat.
    induction Hstaff as [|a b l1 l2 _ _ IH]; intros start; simpl; [reflexivity|].
    rewrite IH. reflexivity. }
  f_equal.
  - apply (Hvars _ (fun i => (Deviation i, (0, total_shifts_needed shifts)))).
  - unfold enumerate. apply (same_staff_numbered _ _ _ _ Hstaff).
    intros i a b [Hid _]. unfold deviation_constraints, employee_total_shifts, x.
    rewrite Hid, Hideal. reflexivity.
  - unfold fairness_penalty. rewrite (Hvars _ Deviation). reflexivity.
Qed.

Lemma same_night_penalty :
  same_model_inputs c1 c2 -> night_shift_penalty c1 shifts = night_shift_penalty c2 shifts.
Proof.
  intros same. same_inputs same.
  unfold night_shift_penalty. cbv zeta. rewrite Hnight.
  destruct (Preferences.minimizeNightShifts (SchedulingConfig.preferences c2)); [|reflexivity]. f_equal. f_equal.
  apply (same_staff_flat_map _ _ _ _ Hstaff).
  intros a b [Hid _]. unfold x. rewrite Hid. reflexivity.
Qed.

Lemma same_weekend :
  same_model_inputs c1 c2 -> weekend_constraints c1 shifts = weekend_constraints c2 shifts.
Proof.
  intros same. same_inputs same.
  unfold weekend_constraints. cbv zeta. rewrite Hweekend.
  destruct (Preferences.spreadWeekendShiftsFairly (SchedulingConfig.preferences c2)); [|reflexivity].
  apply (same_staff_map _ _ _ _ Hstaff).
  intros a b [Hid _]. unfold x. rewrite Hid. reflexivity.
Qed.

Lemma same_build_model :
  same_model_inputs c1 c2 -> build_model c1 shifts = build_model c2 shifts.
Proof.
  intros same. unfold build_model.
  rewrite (same_availability same), (same_coverage same), (same_one_shift_per_day same),
    (same_weekly_hours same), (same_min_rest same), (same_night_shifts same),
    (same_fairness_cap same), (same_fairness_pass same), (same_night_penalty same),
    (same_weekend same), (same_variables same).
  reflexivity.
Qed.

End SameModel.

Lemma same_new_shift (counter : nat) (day : DateTime.t) (a b : ShiftType.t) :
  same_shift_type a b -> new_shift counter day a = new_shift counter day b.
Proof.
  intros (Hid & Hs & He & Hr & Hd & _). unfold new_shift.
  rewrite Hid, Hs, He, Hr, Hd. reflexivity.
Qed.

Lemma same_day_shifts_of (day : DateTime.t) (types1 types2 : list ShiftType.t) :
  Forall2 same_shift_type types1 types2 ->
  forall counter, day_shifts day counter types1 = day_shifts day counter types2.
Proof.
  induction 1 as [|a b l1 l2 Hab _ IH]; intros counter; simpl; [reflexivity|].
  pose proof Hab as (_ & _ & _ & _ & _ & Hrep). rewrite Hrep.
  destruct (ShiftType.isRepeating b); [|apply IH].
  rewrite (same_new_shift counter day a b Hab).
  destruct (new_shift counter day b); [|reflexivity]. cbn [bind]. rewrite IH. reflexivity.
Qed.

Lemma same_generate_shifts (c1 c2 : SchedulingConfig.t) :
  same_model_inputs c1 c2 -> generate_shifts c1 = generate_shifts c2.
Proof.
  intros same. same_inputs same.
  assert (Hguard : forall day, in_period c1 day = in_period c2 day).
  { intros day. unfold in_period. rewrite Hstart, Hend. reflexivity. }
  assert (Hlimit : end_limit c1 = end_limit c2).
  { unfold end_limit. cbv zeta. rewrite Hstart, Hend. reflexivity. }
  assert (Hskip : forall day, skipped c1 day = skipped c2 day).
  { intros day. unfold skipped. rewrite Hoff, Hholidays. reflexivity. }
  unfold generate_shifts, remaining_days. rewrite Hstart, Hlimit.
  generalize (Z.to_nat
                ((end_limit c2
                  - DateTime.timestamp
                      (DateTime.fields
                         (SchedulingPeriod.startDate (SchedulingConfig.schedulingPeriod c2))))
                 / DateTime.us_per_day + 1)).
  generalize (DateTime.fields
                (SchedulingPeriod.startDate (SchedulingConfig.schedulingPeriod c2))).
  generalize 0%nat.
  intros counter day n. revert counter day.
  induction n as [|n IH]; intros counter day.
  - rewrite !generate_loop_O, Hguard. reflexivity.
  - rewrite !generate_loop_S, Hguard.
    destruct (in_period c2 day) as [go_on|]; [|reflexivity]. cbn [bind].
    destruct go_on; [|reflexivity].
    rewrite Hskip. destruct (skipped c2 day).
    + destruct (DateTime.add_day day); [|reflexivity]. cbn [bind]. apply IH.
    + rewrite (same_day_shifts_of day _ _ Htypes counter).
      destruct (day_shifts day counter _); [|reflexivity]. cbn [bind].
      destruct (DateTime.add_day day); [|reflexivity]. cbn [bind].
      rewrite IH. reflexivity.
Qed.

Lemma same_find_duration (key : string) (types1 types2 : list ShiftType.t) :
  Forall2 same_shift_type types1 types2 ->
  option_map ShiftType.duration
             (find (fun st => String.eqb (ShiftType.id st) key) types1)
  = option_map ShiftType.duration
               (find (fun st => String.eqb (ShiftType.id st) key) types2).
Proof.
  induction 1 as [|a b l1 l2 (Hid & _ & _ & _ & Hd & _) _ IH]; simpl; [reflexivity|].
  rewrite Hid. destruct (String.eqb (ShiftType.id b) key); [|exact IH].
  simpl. rewrite Hd. reflexivity.
Qed.

Lemma same_hours_of (c1 c2 : SchedulingConfig.t) (l : list GeneratedShift.t) :
  Forall2 same_shift_type (SchedulingConfig.shiftTypes c1) (SchedulingConfig.shiftTypes c2) ->
  forall total, hours_of c1 l total = hours_of c2 l total.
Proof.
  intros same. induction l as [|s l IH]; intros total; simpl; [reflexivity|].
  pose proof (same_find_duration (GeneratedShift.shiftTypeId s) _ _ same) as Hf.
  destruct (find _ (SchedulingConfig.shiftTypes c1)) as [a|];
    destruct (find _ (SchedulingConfig.shiftTypes c2)) as [b|];
    simpl in Hf; try discriminate Hf.
  - injection Hf as ->. destruct (PyNum.add total _); [|reflexivity]. cbn [bind]. apply IH.
  - apply IH.
Qed.

Lemma same_utilization_loop (c1 c2 : SchedulingConfig.t) (generated : list GeneratedShift.t)
    (staff1 staff2 : list Employee.t) :
  Forall2 same_shift_type (SchedulingConfig.shiftTypes c1) (SchedulingConfig.shiftTypes c2) ->
  Forall2 (fun a b => same_employee a b
                      /\ Employee.maxHoursPerWeek a = Employee.maxHoursPerWeek b)
          staff1 staff2 ->
  forall total,
    utilization_loop c1 generated staff1 total = utilization_loop c2 generated staff2 total.
Proof.
  intros Htypes same.
  induction same as [|a b l1 l2 [(Hid & _) Hmax] _ IH]; intros total; simpl; [reflexivity|].
  assert (Hworks : filter (works a) generated = filter (works b) generated).
  { unfold works. rewrite Hid. reflexivity. }
  rewrite Hworks, (same_hours_of c1 c2 _ Htypes).
  destruct (hours_of c2 _ _) as [hours|]; [|reflexivity]. cbn [bind].
  destruct (PyNum.add total hours) as [total'|]; [|reflexivity]. cbn [bind].
  unfold utilization_percentage. rewrite Hmax, Hid.
  destruct (bind (PyNum.truediv_int hours _) _) as [p|]; [|reflexivity]. cbn [bind].
  destruct (PyNum.to_float hours) as [h|]; [|reflexivity]. cbn [bind].
  rewrite IH. reflexivity.
Qed.

Lemma same_generated_shift (c1 c2 : SchedulingConfig.t) (value : valuation)
    (shift : Shift.t) :
  Forall2 same_employee (SchedulingConfig.employees c1) (SchedulingConfig.employees c2) ->
  generated_shift c1 value shift = generated_shift c2 value shift.
Proof.
  intros same.
  assert (H : assigned_employees c1 value shift = assigned_employees c2 value shift).
  { unfold assigned_employees.
    apply (same_staff_map Employee.id Employee.id).
    - apply (same_staff_filter _ _ _ _ same).
      intros a b Hab. unfold is_assigned. rewrite (same_employee_x a b Hab). reflexivity.
    - intros a b [Hid _]. exact Hid. }
  unfold generated_shift. rewrite H. reflexivity.
Qed.

(** X22.  A request is read only through the id, role and availability of
    each employee, the id, times, required roles, duration and repeating
    flag of each shift type, the two dates and the two date lists of the
    period, four of the limits and two of the preferences.  Two requests
    that agree on these give the same shift instances and the same model,
    so the same assignments solve both; if the employees also have the same
    weekly maxima, every run returns the same result.  The weekly maximum
    of an employee, the daily maximum of shifts, the repeat pattern and the
    priority of a shift type constrain nothing. *)
Theorem unread_fields (c1 c2 : SchedulingConfig.t) :
  same_model_inputs c1 c2 ->
  generate_shifts c1 = generate_shifts c2 /\
  (forall shifts, build_model c1 shifts = build_model c2 shifts) /\
  (forall value, solved_schedule c1 value = solved_schedule c2 value) /\
  (Forall2 (fun a b => Employee.maxHoursPerWeek a = Employee.maxHoursPerWeek b)
           (SchedulingConfig.employees c1) (SchedulingConfig.employees c2) ->
   forall solve, optimize_schedule solve c1 = optimize_schedule solve c2).
Proof.
  intros same.
  pose proof (same_generate_shifts c1 c2 same) as Hg.
  assert (Hm : forall shifts, build_model c1 shifts = build_model c2 shifts)
    by (intros shifts; apply same_build_model; exact same).
  split; [exact Hg|]. split; [exact Hm|]. split.
  - intros value. unfold solved_schedule. rewrite Hg.
    destruct (generate_shifts c2) as [shifts|]; [|reflexivity]. rewrite Hm. reflexivity.
  - intros Hmax solve. unfold optimize_schedule. rewrite Hg.
    destruct (generate_shifts c2) as [shifts|]; [|reflexivity]. cbn [bind]. rewrite Hm.
    destruct (build_model c2 shifts) as [model|]; [|reflexivity]. cbn [bind].
    destruct (solve model) as [status value].
    destruct (has_solution status); [|reflexivity].
    same_inputs same. unfold extract_solution.
    assert (Hgen : map (generated_shift c1 value) shifts
                   = map (generated_shift c2 value) shifts).
    { apply map_ext. intros s. apply same_generated_shift. exact Hstaff. }
    assert (Hboth : Forall2 (fun a b => same_employee a b
                                        /\ Employee.maxHoursPerWeek a
                                           = Employee.maxHoursPerWeek b)
                            (SchedulingConfig.employees c1)
                            (SchedulingConfig.employees c2)).
    { clear -Hstaff Hmax.
      induction Hstaff as [|a b l1 l2 Hab _ IH]; [constructor|].
      inversion Hmax; subst. constructor; [split; assumption | apply IH; assumption]. }
    cbv zeta. rewrite Hgen.
    rewrite (same_utilization_loop c1 c2 _ _ _ Htypes Hboth). reflexivity.
Qed.

Lemma unread_fields_witness :
  same_model_inputs Samples.two_shifts MoreSamples.relabelled /\
  generate_shifts MoreSamples.relabelled
  = Return [Samples.morning_shift; Samples.evening_shift] /\
  solved_schedule MoreSamples.relabelled Samples.split_day
  = Some [Samples.morning_shift; Samples.evening_shift].
Proof.
  assert (H : same_model_inputs Samples.two_shifts MoreSamples.relabelled).
  { unfold same_model_inputs. cbv zeta.
    split; [repeat constructor|]. split; [repeat constructor|].
    repeat split. }
  split; [exact H|].
  destruct (unread_fields Samples.two_shifts MoreSamples.relabelled H)
    as (Hg & _ & Hs & _).
  split.
  - rewrite <- Hg. vm_compute. reflexivity.
  - rewrite <- Hs. vm_compute. reflexivity.
Defined.

(** ** Runs with a sound solver *)

(** X23.  With a solver that reports a solution only together with values
    that satisfy the model, every result that [optimize_schedule] returns
    is either the result with no shifts and the single hard violation, or
    lists, without violations, the shift instances of a solved schedule
    with the employees that the solution assigns. *)
Theorem sound_run (solve : Solver) (config : SchedulingConfig.t) (r : ScheduleResult.t) :
  (forall model,
      has_solution (fst (solve model)) = true ->
      satisfied model (snd (solve model)) = true) ->
  optimize_schedule solve config = Return r ->
  r = no_solution \/
  exists value shifts,
    solved_schedule config value = Some shifts /\
    ScheduleResult.shifts r = map (generated_shift config value) shifts /\
    ScheduleResult.violations r = [].
Proof.
  intros Hsound Hr. unfold optimize_schedule in Hr.
  destruct (generate_shifts config) as [shifts|] eqn:Hg; [|discriminate Hr].
  cbn [bind] in Hr.
  destruct (build_model config shifts) as [model|] eqn:Hm; [|discriminate Hr].
  cbn [bind] in Hr. specialize (Hsound model).
  destruct (solve model) as [status value]. cbn [fst snd] in Hsound.
  destruct (has_solution status).
  - right. exists value, shifts. split.
    + unfold solved_schedule. rewrite Hg, Hm, (Hsound eq_refl). reflexivity.
    + unfold extract_solution in Hr.
      bind_inv Hr. bind_inv Hr. bind_inv Hr. injection Hr as <-.
      split; reflexivity.
  - left. injection Hr as <-. reflexivity.
Qed.

Lemma sound_run_witness :
  let solve := fun model : CpModel.t =>
                 if satisfied model Samples.split_day then (OPTIMAL, Samples.split_day)
                 else (INFEASIBLE, Samples.nobody) in
  exists r,
    optimize_schedule solve Samples.two_shifts = Return r /\
    (r = no_solution \/
     exists value shifts,
       solved_schedule Samples.two_shifts value = Some shifts /\
       ScheduleResult.shifts r = map (generated_shift Samples.two_shifts value) shifts /\
       ScheduleResult.violations r = []).
Proof.
  intros solve. eexists. split; [vm_compute; reflexivity|].
  apply (sound_run solve Samples.two_shifts).
  - intros model H. unfold solve in *.
    destruct (satisfied model Samples.split_day) eqn:Hs; [exact Hs | discriminate H].
  - vm_compute. reflexivity.
Defined.
